(** * browser-chat-storage: the localStorage services and their conventions

    A shallow embedding of the four services of the package
    (BrowserChatMessageStorage, BrowserChatHistoryService,
    BrowserCheckpointService, BrowserAgentStateStorage) and the properties
    of id allocation, ordering, search, preview and title derivation, and of
    the read-modify-write pattern they share.

    Conventions of the embedding.
    - A JavaScript number is an integer of [Z]: every number the services
      compute is an id, a counter or an epoch-millisecond reading.  The
      rounding of doubles is left out of the arithmetic: numbers are exact.
      Reading a number from a string ([StringToNumber]) rounds a fraction
      as the engine does.
    - A JavaScript string is a [string]; each [ascii] stands for a UTF-16
      code unit below 256.
    - A text kept in localStorage is represented by what [JSON.parse] makes
      of it ([Stored]): the document it encodes, or the error it is rejected
      with.  [JSON.stringify] followed by [JSON.parse] is the identity on
      the documents of this model.  A key holds what its service writes
      there, or a text that was lost, emptied or damaged; what another
      program could leave there (the JSON of a value of another type, such
      as [null] under the key of a list) is outside the model.
    - The messages of the errors that the engine raises (the SyntaxError of
      [JSON.parse], the exception of [setItem]) are the engine's: they are
      carried by the rejected text and by the host, and no text is assumed
      for them.  A TypeError carries the wording of V8; the statements
      below rely on its kind only.
    - [localStorage.setItem] can throw (quota); whether a write is accepted
      is decided by the environment ([fits]) from the store the write would
      produce.  [Date.now()] reads the environment's clock, one reading per
      call. *)

From Stdlib Require Import ZArith String Ascii List Lia DecimalString DecimalZ.
From stdpp Require Import gmap strings list sorting.

Set Warnings "-register-all".
Local Open Scope string_scope.
Local Open Scope Z_scope.
Local Open Scope list_scope.

(** ** JavaScript values and the library functions the services call *)

Module JS.

Inductive JSON :=
| JNull
| JBool (b : bool)
| JNum (n : Z)
| JStr (s : string)
| JArr (l : list JSON)
| JObj (o : gmap string JSON).

(** An object of own properties; [o !! k = None] reads as [undefined]. *)
Abbreviation Obj := (gmap string JSON).

(** ToBoolean. *)
Definition truthy (v : JSON) : bool :=
  match v with
  | JNull => false
  | JBool b => b
  | JNum n => negb (n =? 0)
  | JStr s => negb (String.eqb s "")
  | JArr _ | JObj _ => true
  end.

(** [a || b] on a value that may be [undefined]. *)
Definition or_else (a : option JSON) (b : option JSON) : option JSON :=
  match a with
  | Some v => if truthy v then Some v else b
  | None => b
  end.

(** Property read [v.k] on a value that is neither null nor undefined;
    arrays and primitives have none of the property names read here. *)
Definition prop (v : JSON) (k : string) : option JSON :=
  match v with
  | JObj o => o !! k
  | _ => None
  end.

(** *** Strings *)

(** [String(n)] for an integer. *)
Definition String_of_Z (n : Z) : string := NilZero.string_of_int (Z.to_int n).

(** LineTerminator: LF, CR (U+2028 and U+2029 lie outside the 8-bit range). *)
Definition isLineTerminator (c : ascii) : bool :=
  let n := nat_of_ascii c in (n =? 10)%nat || (n =? 13)%nat.

(** The class [\s]: TAB, LF, VT, FF, CR, SP, NBSP. *)
Definition isWhiteSpace (c : ascii) : bool :=
  let n := nat_of_ascii c in
  ((9 <=? n)%nat && (n <=? 13)%nat) || (n =? 32)%nat || (n =? 160)%nat.

Fixpoint trimStart (s : string) : string :=
  match s with
  | String c s' => if isWhiteSpace c then trimStart s' else s
  | EmptyString => EmptyString
  end.

Fixpoint trimEnd (s : string) : string :=
  match s with
  | String c s' =>
      match trimEnd s' with
      | EmptyString => if isWhiteSpace c then EmptyString else String c EmptyString
      | t => String c t
      end
  | EmptyString => EmptyString
  end.

Definition trim (s : string) : string := trimEnd (trimStart s).

(** No character of [s] is white space. *)
Fixpoint no_white_space (s : string) : bool :=
  match s with
  | String c s' => negb (isWhiteSpace c) && no_white_space s'
  | EmptyString => true
  end.

(** [s.substring(0, n)]. *)
Definition substring0 (n : nat) (s : string) : string := String.substring 0 n s.

Fixpoint drop_chars (n : nat) (s : string) : string :=
  match n, s with
  | O, _ => s
  | S n', String _ s' => drop_chars n' s'
  | S _, EmptyString => EmptyString
  end.



(** [s.includes(t)]. *)
Fixpoint includes (s t : string) : bool :=
  String.prefix t s ||
  match s with
  | String _ s' => includes s' t
  | EmptyString => false
  end.

(** *** StringToNumber

    The grammar StringNumericLiteral: optional white space around a signed
    decimal literal (digits, an optional fraction, an optional exponent), a
    signed [Infinity], or an unsigned binary, octal or hexadecimal integer;
    the empty string converts to 0.  The result is [Some n] when the
    literal reads as the integer [n], and [None] when it reads as no
    integer: NaN, a fraction, an infinity.  A literal that denotes an
    integer reads as that integer, numbers being exact in the model; a
    literal that denotes a fraction is rounded to the nearest double, ties
    to even, as the engine rounds it, so that a fraction close enough to an
    integer reads as that integer. *)

Definition isDigit (c : ascii) : bool :=
  let n := nat_of_ascii c in (48 <=? n)%nat && (n <=? 57)%nat.

(** The longest prefix of [s] made of characters in [p], and what follows. *)
Fixpoint span (p : ascii -> bool) (s : string) : string * string :=
  match s with
  | String c s' =>
      if p c then (String c (fst (span p s')), snd (span p s'))
      else (EmptyString, s)
  | EmptyString => (EmptyString, EmptyString)
  end.

(** DecimalDigits as a number; an empty run counts 0. *)
Definition digits_value (ds : string) : Z :=
  match NilEmpty.uint_of_string ds with
  | Some d => Z.of_uint d
  | None => 0
  end.

(** A signed decimal integer: the literals that [String(n)] prints, and the
    same with a plus sign or leading zeros. *)
Definition integer_literal (t : string) : option Z :=
  match t with
  | EmptyString => None
  | String c t' =>
      if Ascii.eqb c "+"
      then match NilZero.uint_of_string t' with
           | Some d => Some (Z.of_uint d)
           | None => None
           end
      else match NilZero.int_of_string t with
           | Some d => Some (Z.of_int d)
           | None => None
           end
  end.

(** The value of a digit in a radix up to 16. *)
Definition digit_of (radix : Z) (c : ascii) : option Z :=
  let n := Z.of_nat (nat_of_ascii c) in
  let v := if (48 <=? n) && (n <=? 57) then n - 48
           else if (97 <=? n) && (n <=? 102) then n - 87
           else if (65 <=? n) && (n <=? 70) then n - 55
           else 16 in
  if v <? radix then Some v else None.

Fixpoint radix_value (radix : Z) (acc : Z) (s : string) : option Z :=
  match s with
  | EmptyString => Some acc
  | String c s' =>
      match digit_of radix c with
      | Some d => radix_value radix (radix * acc + d) s'
      | None => None
      end
  end.

(** NonDecimalIntegerLiteral: [0b], [0o], [0x] (either case) and at least
    one digit of the radix; no sign. *)
Definition non_decimal (t : string) : option Z :=
  match t with
  | String z (String r (String d ds)) =>
      let radix :=
        if Ascii.eqb r "b" || Ascii.eqb r "B" then Some 2
        else if Ascii.eqb r "o" || Ascii.eqb r "O" then Some 8
        else if Ascii.eqb r "x" || Ascii.eqb r "X" then Some 16
        else None in
      match radix with
      | Some radix => if Ascii.eqb z "0" then radix_value radix 0 (String d ds) else None
      | None => None
      end
  | _ => None
  end.

(** A leading sign and what follows it. *)
Definition signed (t : string) : bool * string :=
  match t with
  | String c t' =>
      if Ascii.eqb c "-" then (true, t')
      else if Ascii.eqb c "+" then (false, t')
      else (false, t)
  | EmptyString => (false, t)
  end.

(** ExponentPart, when there is one: [e] or [E], a signed run of digits
    that is not empty, and the end of the text. *)
Definition exponent (s : string) : option Z :=
  match s with
  | EmptyString => Some 0
  | String c t =>
      if Ascii.eqb c "e" || Ascii.eqb c "E"
      then let ds := fst (span isDigit (snd (signed t))) in
           let rest := snd (span isDigit (snd (signed t))) in
           if String.eqb ds "" || negb (String.eqb rest "") then None
           else Some (if fst (signed t) then - digits_value ds else digits_value ds)
      else None
  end.

(** StrUnsignedDecimalLiteral but [Infinity]: a mantissa [m] and a power of
    ten [e], the value being [m * 10 ^ e]. *)
Definition unsigned_decimal (s : string) : option (Z * Z) :=
  let ip := fst (span isDigit s) in
  match snd (span isDigit s) with
  | EmptyString => if String.eqb ip "" then None else Some (digits_value ip, 0)
  | String c r =>
      if Ascii.eqb c "."
      then let fp := fst (span isDigit r) in
           if String.eqb ip "" && String.eqb fp "" then None
           else match exponent (snd (span isDigit r)) with
                | Some e =>
                    let places := Z.of_nat (String.length fp) in
                    Some (digits_value ip * 10 ^ places + digits_value fp,
                          e - places)
                | None => None
                end
      else if String.eqb ip "" then None
      else match exponent (String c r) with
           | Some e => Some (digits_value ip, e)
           | None => None
           end
  end.

(** The double nearest to [p / q], ties to even, for [0 <= p] and [0 < q],
    when it is an integer: [l] is the binary exponent of the quotient, [e]
    that of the last place of its 53-bit significand [m] (no lower than the
    one of the subnormal numbers); past the largest double the result is an
    infinity. *)
Definition nearest_double (p q : Z) : option Z :=
  if p =? 0 then Some 0 else
  let k := Z.log2 p - Z.log2 q in
  let l := if (if 0 <=? k then q * 2 ^ k <=? p else q <=? p * 2 ^ (- k))
           then k else k - 1 in
  let e := Z.max (l - 52) (-1074) in
  let n := if 0 <=? e then p else p * 2 ^ (- e) in
  let d := if 0 <=? e then q * 2 ^ e else q in
  let t := n / d in
  let r := n mod d in
  let m := if 2 * r <? d then t
           else if d <? 2 * r then t + 1
           else if Z.even t then t else t + 1 in
  if 0 <=? e
  then (if 2 ^ 1024 <=? m * 2 ^ e then None else Some (m * 2 ^ e))
  else if m mod 2 ^ (- e) =? 0 then Some (m / 2 ^ (- e)) else None.

(** [m * 10 ^ e] for [0 <= m]: the integer it is, or the integer it is
    rounded to. *)
Definition scale (m e : Z) : option Z :=
  if 0 <=? e then Some (m * 10 ^ e)
  else if m mod 10 ^ (- e) =? 0 then Some (m / 10 ^ (- e))
  else nearest_double m (10 ^ (- e)).

(** The literals that are no plain integer. *)
Definition general_literal (t : string) : option Z :=
  match non_decimal t with
  | Some n => Some n
  | None =>
      if String.eqb (snd (signed t)) "Infinity" then None
      else match unsigned_decimal (snd (signed t)) with
           | Some (m, e) =>
               match scale m e with
               | Some v => Some (if fst (signed t) then - v else v)
               | None => None
               end
           | None => None
           end
  end.

Definition StringToNumber (s : string) : option Z :=
  match trim s with
  | EmptyString => Some 0
  | String c t =>
      match integer_literal (String c t) with
      | Some n => Some n
      | None => general_literal (String c t)
      end
  end.

(** [String(v)]: arrays join their elements with commas, null elements
    printing as nothing. *)
Fixpoint String_of (v : JSON) : string :=
  match v with
  | JNull => "null"
  | JBool true => "true"
  | JBool false => "false"
  | JNum n => String_of_Z n
  | JStr s => s
  | JArr l =>
      let elt v := match v with JNull => "" | _ => String_of v end in
      String.concat "," (map elt l)
  | JObj _ => "[object Object]"
  end.

(** ToNumber, through the string form for arrays: [None] when the result is
    not an integer. *)
Definition ToNumber (v : JSON) : option Z :=
  match v with
  | JNull => Some 0
  | JBool b => Some (if b then 1 else 0)
  | JNum n => Some n
  | JStr s => StringToNumber s
  | JArr _ => StringToNumber (String_of v)
  | JObj _ => None
  end.

(** *** Identifiers: [number | string] *)

Inductive Id :=
| IdNum (n : Z)
| IdStr (s : string).

(** [!id]. *)
Definition falsy (i : Id) : bool :=
  match i with
  | IdNum n => n =? 0
  | IdStr s => String.eqb s ""
  end.

(** Template interpolation of an id. *)
Definition String_of_Id (i : Id) : string :=
  match i with
  | IdNum n => String_of_Z n
  | IdStr s => s
  end.

Definition JSON_of_Id (i : Id) : JSON :=
  match i with
  | IdNum n => JNum n
  | IdStr s => JStr s
  end.

(** [a === b]. *)
Definition strict_eq (a b : Id) : bool :=
  match a, b with
  | IdNum x, IdNum y => x =? y
  | IdStr s, IdStr t => String.eqb s t
  | _, _ => false
  end.

(** [a == b]: a string facing a number is converted to a number. *)
Definition loose_eq (a b : Id) : bool :=
  match a, b with
  | IdNum x, IdNum y => x =? y
  | IdStr s, IdStr t => String.eqb s t
  | IdNum x, IdStr t =>
      match StringToNumber t with Some y => x =? y | None => false end
  | IdStr s, IdNum y =>
      match StringToNumber s with Some x => x =? y | None => false end
  end.

(** *** Arrays *)

(** [l[i]] for a number [i]. *)
Definition at_index {A} (l : list A) (i : Z) : option A :=
  if i <? 0 then None else l !! Z.to_nat i.

(** [l.slice(0, n)]. *)
Definition slice0 {A} (n : Z) (l : list A) : list A :=
  if n <? 0 then take (length l - Z.to_nat (- n)) l else take (Z.to_nat n) l.

(** [Array.prototype.sort] with a comparator is stable: an element moves
    in front of another only when the comparator is positive for the pair
    (earlier, later).  [before a b] says that [a] may stay in front of [b],
    that is [cmp(a, b) <= 0]. *)
Section Sort.
Context {A : Type} (before : A -> A -> bool).

Fixpoint insert_sorted (x : A) (l : list A) : list A :=
  match l with
  | [] => [x]
  | y :: l' => if before x y then x :: l else y :: insert_sorted x l'
  end.

(** Elements are inserted from the right, so that equal keys keep the
    order they had. *)
Definition sort (l : list A) : list A := foldr insert_sorted [] l.
End Sort.

(** The comparator [(a, b) => key(b) - key(a)] on numeric keys. *)
Definition descending {A} (key : A -> Z) (a b : A) : bool := key b - key a <=? 0.

End JS.

(** ** The runtime: localStorage, the clock, exceptions *)

Module Runtime.

(** What a key of localStorage holds, seen through [JSON.parse]: the
    document that the service wrote, or a text that is not JSON, with the
    message of the SyntaxError that the engine's [JSON.parse] throws for it
    (engines quote the text in it). *)
Inductive Stored (A : Type) :=
| Empty                       (* the empty string *)
| Malformed (why : string)    (* a text that JSON.parse rejects *)
| Doc (a : A).                (* JSON.stringify a *)
Arguments Empty {A}.
Arguments Malformed {A} why.
Arguments Doc {A} a.

(** What [localStorage.getItem] returns: [None] is null. *)
Abbreviation Cell A := (option (Stored A)).

Inductive Error :=
| QuotaExceededError (message : string)   (* thrown by localStorage.setItem *)
| SyntaxError (message : string)          (* thrown by JSON.parse *)
| TypeError (message : string)
| Error_ (message : string).              (* new Error(message) *)

(** [error.message]. *)
Definition message (e : Error) : string :=
  match e with
  | QuotaExceededError m => m
  | SyntaxError m => m
  | TypeError m => m
  | Error_ m => m
  end.

Inductive Outcome (A : Type) :=
| Returned (a : A)      (* a value, or a promise resolved with it *)
| Thrown (e : Error).   (* an exception, or a promise rejected with it *)
Arguments Returned {A} a.
Arguments Thrown {A} e.

(** The host: the quota of the origin and the message of the exception
    that [setItem] throws when it is exceeded, the clock, and the two date
    formatters the services call. *)
Record Env (S : Type) := {
  fits : S -> bool;
  quotaMessage : string;
  clock : nat -> Z;
  toLocaleTimeString : Z -> string;
  toISOString : Z -> string;
}.
Arguments fits {S}.
Arguments quotaMessage {S}.
Arguments clock {S}.
Arguments toLocaleTimeString {S}.
Arguments toISOString {S}.

Record World (S : Type) := {
  storage : S;
  ticks : nat;          (* the number of clock readings taken so far *)
}.
Arguments storage {S}.
Arguments ticks {S}.

Definition M (S A : Type) : Type := World S -> World S * Outcome A.

Section Ops.
Context {S : Type} (env : Env S).

Definition ret {A} (a : A) : M S A := fun w => (w, Returned a).

Definition throw {A} (e : Error) : M S A := fun w => (w, Thrown e).

Definition bind {A B} (m : M S A) (k : A -> M S B) : M S B :=
  fun w =>
    match m w with
    | (w', Returned a) => k a w'
    | (w', Thrown e) => (w', Thrown e)
    end.

(** [try { m } catch (error) { h error }]: what [m] wrote before it threw
    stays written. *)
Definition try_catch {A} (m : M S A) (h : Error -> M S A) : M S A :=
  fun w =>
    match m w with
    | (w', Returned a) => (w', Returned a)
    | (w', Thrown e) => h e w'
    end.

(** [Date.now()]. *)
Definition Date_now : M S Z :=
  fun w => ({| storage := storage w; ticks := Datatypes.S (ticks w) |},
            Returned (clock env (ticks w))).

(** [localStorage.getItem(key)], the key given by its reader. *)
Definition getItem {A} (key : S -> A) : M S A :=
  fun w => (w, Returned (key (storage w))).

(** [localStorage.setItem(key, text)], the key and the text given by the
    update of the store: it throws and writes nothing when the result
    exceeds the quota. *)
Definition setItem (write : S -> S) : M S unit :=
  fun w =>
    let s' := write (storage w) in
    if fits env s'
    then ({| storage := s'; ticks := ticks w |}, Returned tt)
    else (w, Thrown (QuotaExceededError (quotaMessage env))).

(** [localStorage.removeItem(key)] never throws. *)
Definition removeItem (remove : S -> S) : M S unit :=
  fun w => ({| storage := remove (storage w); ticks := ticks w |}, Returned tt).

(** [JSON.parse(item || fallback)] and [item ? JSON.parse(item) : fallback],
    [fallback] being the value of the literal: what [getItem] returned is
    tested first, so that null and the empty string are never parsed. *)
Definition JSON_parse_or {A} (item : Cell A) (fallback : A) : M S A :=
  match item with
  | None | Some Empty => ret fallback
  | Some (Malformed why) => throw (SyntaxError why)
  | Some (Doc a) => ret a
  end.
End Ops.

(** [item || fallback], where [fallback] is the text of a literal. *)
Definition or_text {A} (item : Cell A) (fallback : A) : Stored A :=
  match item with
  | None | Some Empty => Doc fallback
  | Some text => text
  end.

(** [!item]. *)
Definition blank {A} (item : Cell A) : bool :=
  match item with
  | None | Some Empty => true
  | Some _ => false
  end.

End Runtime.

Declare Scope js_scope.
Delimit Scope js_scope with js.
Notation "x <- m ;; k" := (Runtime.bind m (fun x => k))
  (at level 100, m at level 99, k at level 200, right associativity,
   format "'[v' x  <-  m  ;; '/' k ']'") : js_scope.
Notation "m ;; k" := (Runtime.bind m (fun _ => k))
  (at level 100, k at level 200, right associativity,
   format "'[v' m  ;; '/' k ']'") : js_scope.
Local Open Scope js_scope.

(** ** BrowserChatMessageStorage *)

Module MessageStorage.
Import JS Runtime.

Record Session := {
  s_id : Z;
  s_title : string;
}.

(** [request]: only [request.messages] is read, the rest is stored as it
    comes.  [None] is an absent (or null) [messages]. *)
Record Request := {
  r_messages : option (list JSON);
  r_rest : Obj;
}.

(** [currentMessage]: only [sessionId] and [id] are read. *)
Record CurrentMessage := {
  cm_sessionId : option Id;
  cm_id : option Id;
}.

Record Message := {
  id : Z;
  sessionId : Id;
  previousMessageId : option Id;      (* None is null *)
  request : Request;
  response : JSON;
  cumulativeInputLength : Z;
  updatedAt : Z;
}.

(** The counters object; [None] is a field that is not there. *)
Record Counters := {
  c_sessionId : option Z;
  c_messageId : option Z;
}.

(** ["sessionId" | "messageId"]. *)
Inductive CounterType := sessionId_t | messageId_t.

Definition counter (type : CounterType) (c : Counters) : option Z :=
  match type with
  | sessionId_t => c_sessionId c
  | messageId_t => c_messageId c
  end.

Definition set_counter (type : CounterType) (n : Z) (c : Counters) : Counters :=
  match type with
  | sessionId_t => {| c_sessionId := Some n; c_messageId := c_messageId c |}
  | messageId_t => {| c_sessionId := c_sessionId c; c_messageId := Some n |}
  end.

(** The three keys of one instance:
    [<prefix>sessions], [<prefix>messages], [<prefix>counters]. *)
Record Store := {
  sessions : Cell (list Session);
  messages : Cell (list Message);
  counters : Cell Counters;
}.

Definition sessionsKey (text : Cell (list Session)) (s : Store) : Store :=
  {| sessions := text; messages := messages s; counters := counters s |}.
Definition messagesKey (text : Cell (list Message)) (s : Store) : Store :=
  {| sessions := sessions s; messages := text; counters := counters s |}.
Definition countersKey (text : Cell Counters) (s : Store) : Store :=
  {| sessions := sessions s; messages := messages s; counters := text |}.

(** *** The title pattern [/^(.{1,100})(\s.*|$)/]

    The dot matches any character but a line terminator; without flags [^]
    and [$] match at the two ends of the text only; quantifiers are greedy
    and give back one character at a time. *)

(** How many leading characters of [s] a run of dots can take. *)
Fixpoint dot_run (s : string) : nat :=
  match s with
  | String c s' => if isLineTerminator c then O else S (dot_run s')
  | EmptyString => O
  end.

(** The second group tried on [rest]: the text left after its match. *)
Definition second_group (rest : string) : option string :=
  match rest with
  | EmptyString => Some EmptyString                              (* $ *)
  | String c rest' =>
      if isWhiteSpace c
      then Some (drop_chars (dot_run rest') rest')               (* \s.* *)
      else None
  end.

(** The first group taking [k] characters, then [k - 1], ... down to one:
    the text after the replacement of the first match by its first group. *)
Fixpoint first_group (k : nat) (s : string) : option string :=
  match k with
  | O => None
  | S k' =>
      match second_group (drop_chars k s) with
      | Some rest => Some (substring0 k s +:+ rest)
      | None => first_group k' s
      end
  end.

(** [content.replace(/^(.{1,100})(\s.*|$)/, (_, a) => a)]: a text the
    pattern does not match is returned as it is. *)
Definition replace_title (content : string) : string :=
  match first_group (Nat.min (dot_run content) 100) content with
  | Some title => title
  | None => content
  end.

Section Service.
Context (env : Env Store).
Abbreviation M := (Runtime.M Store).

Definition initializeStorage : M unit :=
  item <- getItem sessions ;;
  (if blank item then setItem env (sessionsKey (Some (Doc []))) else ret tt) ;;
  item <- getItem messages ;;
  (if blank item then setItem env (messagesKey (Some (Doc []))) else ret tt) ;;
  item <- getItem counters ;;
  (if blank item
   then setItem env (countersKey
          (Some (Doc {| c_sessionId := Some 1; c_messageId := Some 1 |})))
   else ret tt).

(** [new BrowserChatMessageStorage(options)], localStorage being there. *)
Definition constructor : M unit := initializeStorage.

Definition getNextId (type : CounterType) : M Z :=
  item <- getItem counters ;;
  cs <- JSON_parse_or item {| c_sessionId := None; c_messageId := None |} ;;
  let nextId :=
    match counter type cs with
    | Some n => if n =? 0 then 1 else n                        (* || 1 *)
    | None => 1
    end in
  setItem env (countersKey (Some (Doc (set_counter type (nextId + 1) cs)))) ;;
  ret nextId.

Definition storeSession (title : string) : M Session :=
  item <- getItem sessions ;;
  ss <- JSON_parse_or item [] ;;
  id <- getNextId sessionId_t ;;
  let session := {| s_id := id; s_title := title |} in
  setItem env (sessionsKey (Some (Doc (ss ++ [session])))) ;;
  ret session.

(** [request.messages?.[request.messages.length - 1]]. *)
Definition lastMessage (request : Request) : option JSON :=
  match r_messages request with
  | Some ms => last ms
  | None => None
  end.

(** [lastMessage?.content?.replace(...) ?? "New Chat"]. *)
Definition deriveTitle (lastMessage : option JSON) : M string :=
  match lastMessage with
  | None | Some JNull => ret "New Chat"
  | Some v =>
      match prop v "content" with
      | None | Some JNull => ret "New Chat"
      | Some (JStr content) => ret (replace_title content)
      | Some _ =>
          throw (TypeError "lastMessage?.content?.replace is not a function")
      end
  end.

(** [!sessionId]. *)
Definition not_given (i : option Id) : bool :=
  match i with
  | Some i => falsy i
  | None => true
  end.

Definition storeChat (currentMessage : option CurrentMessage)
    (request : Request) (response : JSON) : M Message :=
  try_catch
    (let given := currentMessage ≫= cm_sessionId in
     sessionId <-
       match given with
       | Some i =>
           if falsy i
           then (title <- deriveTitle (lastMessage request) ;;
                 session <- storeSession title ;;
                 ret (IdNum (s_id session)))
           else ret i
       | None =>
           title <- deriveTitle (lastMessage request) ;;
           session <- storeSession title ;;
           ret (IdNum (s_id session))
       end ;;
     item <- getItem messages ;;
     ms <- JSON_parse_or item [] ;;
     id <- getNextId messageId_t ;;
     now <- Date_now env ;;
     let message :=
       {| id := id;
          sessionId := sessionId;
          previousMessageId :=
            match currentMessage ≫= cm_id with
            | Some i => if falsy i then None else Some i         (* || null *)
            | None => None
            end;
          request := request;
          response := response;
          cumulativeInputLength := 0;
          updatedAt := now |} in
     setItem env (messagesKey (Some (Doc (ms ++ [message])))) ;;
     ret message)
    (fun error =>
       throw (Error_ ("Failed to store chat message: " +:+ message error))).

Definition retrieveMessageById (id_ : Id) : M Message :=
  try_catch
    (item <- getItem messages ;;
     ms <- JSON_parse_or item [] ;;
     match List.find (fun msg => loose_eq (IdNum (id msg)) id_) ms with
     | Some message => ret message
     | None =>
         throw (Error_ ("Message with id " +:+ String_of_Id id_ +:+ " not found"))
     end)
    (fun error =>
       if includes (message error) "not found"
       then throw error
       else throw (Error_ ("Failed to retrieve message: " +:+ message error))).

Definition retrieveMessagesBySession (sessionId_ : Id) : M (list Message) :=
  try_catch
    (item <- getItem messages ;;
     ms <- JSON_parse_or item [] ;;
     ret (List.filter (fun msg => loose_eq (sessionId msg) sessionId_) ms))
    (fun error =>
       throw (Error_ ("Failed to retrieve messages for session: "
                      +:+ message error))).

Definition retrieveAllSessions : M (list Session) :=
  try_catch
    (item <- getItem sessions ;;
     JSON_parse_or item [])
    (fun error =>
       throw (Error_ ("Failed to retrieve sessions: " +:+ message error))).

Definition clearAllData : M unit :=
  try_catch
    (removeItem (sessionsKey None) ;;
     removeItem (messagesKey None) ;;
     removeItem (countersKey None) ;;
     initializeStorage)
    (fun error => throw (Error_ ("Failed to clear data: " +:+ message error))).
End Service.

(** localStorage before anything was stored under the prefix. *)
Definition no_data : Store :=
  {| sessions := None; messages := None; counters := None |}.

End MessageStorage.

(** ** BrowserChatHistoryService *)

Module HistoryService.
Import JS Runtime.

Record Session := {
  id : string;
  title : string;
  name : string;
  lastActivity : Z;
  createdAt : Z;
  previewText : string;
}.

(** The session list under [<prefix>sessions_v1], and one message log per
    session under [<prefix>history_<sessionId>]: the logs are indexed by the
    text of the session id, the part of the key that varies. *)
Record Store := {
  sessionsList : Cell (list Session);
  history : gmap string (Stored (list Obj));
}.

Definition sessionsListKey (text : Cell (list Session)) (s : Store) : Store :=
  {| sessionsList := text; history := history s |}.

Definition historyKey (key : string) (text : Cell (list Obj)) (s : Store) : Store :=
  {| sessionsList := sessionsList s;
     history := match text with
                | Some t => <[key := t]> (history s)
                | None => delete key (history s)
                end |}.

(** [l.findIndex(p)], with the element found. *)
Fixpoint findIndex {A} (p : A -> bool) (l : list A) : option (nat * A) :=
  match l with
  | [] => None
  | x :: l' =>
      if p x then Some (O, x)
      else match findIndex p l' with
           | Some (i, y) => Some (S i, y)
           | None => None
           end
  end.

(** The own enumerable properties that [...message] copies: the fields of
    an object, the elements of an array under their indices. *)
Definition own_props (v : JSON) : Obj :=
  match v with
  | JObj o => o
  | JArr l => list_to_map (imap (fun i x => (String_of_Z (Z.of_nat i), x)) l)
  | _ => ∅
  end.

(** [m.timestamp || m.createdAt || 0], as a number; [None] is NaN. *)
Definition sort_key (m : Obj) : option Z :=
  match or_else (or_else (m !! "timestamp") (m !! "createdAt")) (Some (JNum 0)) with
  | Some v => ToNumber v
  | None => None
  end.

(** The comparator [(a, b) => key(b) - key(a)] leaves [a] in front of [b]
    unless it is positive; a NaN result counts as zero. *)
Definition newest_first (a b : Obj) : bool :=
  match sort_key b, sort_key a with
  | Some kb, Some ka => kb - ka <=? 0
  | _, _ => true
  end.

Section Service.
Context (env : Env Store).
Abbreviation M := (Runtime.M Store).

Definition _getSessionsList : M (list Session) :=
  try_catch
    (item <- getItem sessionsList ;;
     JSON_parse_or item [])
    (fun _ => ret []).                                   (* console.error *)

Definition _saveSessionsList (sessions : list Session) : M unit :=
  try_catch
    (setItem env (sessionsListKey (Some (Doc sessions))))
    (fun _ => ret tt).                                   (* console.error *)

Definition listSessions : M (list Session) :=
  sessions <- _getSessionsList ;;
  ret (sort (fun a b => lastActivity b - lastActivity a <=? 0) sessions).

Definition _getSessionKey (sessionId : Id) : M string :=
  if falsy sessionId
  then throw (Error_ "Session ID is required for message operations.")
  else ret (String_of_Id sessionId).

Definition _getMessages (sessionId : Id) : M (list Obj) :=
  try_catch
    (key <- _getSessionKey sessionId ;;
     item <- getItem (fun s => history s !! key) ;;
     JSON_parse_or item [])
    (fun _ => ret []).                                   (* console.error *)

Definition _saveMessages (sessionId : Id) (messages : list Obj) : M unit :=
  try_catch
    (key <- _getSessionKey sessionId ;;
     setItem env (historyKey key (Some (Doc messages))))
    (fun _ => ret tt).                                   (* console.error *)

Definition createSession (name_ : option string) : M Session :=
  sessions <- _getSessionsList ;;
  now <- Date_now env ;;
  let sessionId := String_of_Z now in
  let default := "Chat @ " +:+ toLocaleTimeString env now in
  let sessionName :=
    match name_ with
    | Some n =>
        if negb (String.eqb n "") && negb (String.eqb (trim n) "")
        then trim n else default
    | None => default
    end in
  let newSession :=
    {| id := sessionId;
       title := sessionName;
       name := sessionName;
       lastActivity := now;
       createdAt := now;
       previewText := "New chat session." |} in
  _saveSessionsList (newSession :: sessions) ;;
  _saveMessages (IdStr sessionId) [] ;;
  ret newSession.

Definition deleteSession (sessionId : Id) : M bool :=
  if falsy sessionId then ret false else
  sessions <- _getSessionsList ;;
  let kept := List.filter (fun s => negb (strict_eq (IdStr (id s)) sessionId)) sessions in
  if (length kept <? length sessions)%nat
  then (_saveSessionsList kept ;;
        key <- _getSessionKey sessionId ;;
        removeItem (historyKey key None) ;;
        ret true)
  else ret false.

Definition renameSession (sessionId : Id) (newName : string) : M (option Session) :=
  if falsy sessionId || String.eqb newName "" || String.eqb (trim newName) ""
  then ret None else
  sessions <- _getSessionsList ;;
  match findIndex (fun s => strict_eq (IdStr (id s)) sessionId) sessions with
  | Some (sessionIndex, session) =>
      now <- Date_now env ;;
      let renamed :=
        {| id := id session;
           title := trim newName;
           name := trim newName;
           lastActivity := now;
           createdAt := createdAt session;
           previewText := previewText session |} in
      _saveSessionsList (<[sessionIndex := renamed]> sessions) ;;
      ret (Some renamed)
  | None => ret None
  end.

Definition _updateSessionMetadata (sessionId : Id) (lastMessageText : option JSON)
    : M unit :=
  sessions <- _getSessionsList ;;
  match findIndex (fun s => strict_eq (IdStr (id s)) sessionId) sessions with
  | Some (sessionIndex, session) =>
      now <- Date_now env ;;
      let text :=
        match or_else lastMessageText (Some (JStr "")) with
        | Some v => String_of v
        | None => ""
        end in
      let preview := substring0 50 text in
      let updated :=
        {| id := id session;
           title := title session;
           name := name session;
           lastActivity := now;
           createdAt := createdAt session;
           previewText :=
             if (String.length preview =? 50)%nat
             then preview +:+ "..." else preview |} in
      _saveSessionsList (<[sessionIndex := updated]> sessions)
  | None => ret tt
  end.

(** [message.k || fallback()], the fallback run only when it is needed. *)
Definition or_default (v : option JSON) (fallback : M JSON) : M JSON :=
  match or_else v None with
  | Some x => ret x
  | None => fallback
  end.

Definition addMessage (sessionId : Id) (message : JSON) : M Obj :=
  if falsy sessionId
  then throw (Error_ "Session ID is required to add a message.") else
  if negb (truthy message) || negb (match message with JObj _ | JArr _ => true | _ => false end)
  then throw (Error_ "Invalid message object.") else
  messages <- _getMessages sessionId ;;
  id_ <- or_default (prop message "id")
           (now <- Date_now env ;; ret (JStr (String_of_Z now))) ;;
  timestamp <- or_default (prop message "timestamp")
           (now <- Date_now env ;; ret (JNum now)) ;;
  createdAt_ <- or_default (prop message "createdAt")
           (now <- Date_now env ;; ret (JNum now)) ;;
  let messageToStore : Obj :=
    own_props message ∪
    {[ "id" := id_; "timestamp" := timestamp; "createdAt" := createdAt_;
       "sessionId" := JSON_of_Id sessionId ]} in
  _saveMessages sessionId (messages ++ [messageToStore]) ;;
  _updateSessionMetadata sessionId
    (or_else (prop message "content") (prop message "text")) ;;
  ret messageToStore.

Definition getRecentMessages (sessionId : Id) (limit : option Z) : M (list Obj) :=
  if falsy sessionId then ret [] else
  messages <- _getMessages sessionId ;;
  let sortedMessages := sort newest_first messages in
  let recent := slice0 (default 10 limit) sortedMessages in
  ret (reverse recent).

Definition clearSessionHistory (sessionId : Id) : M unit :=
  if falsy sessionId
  then throw (Error_ "Session ID is required to clear history.") else
  _saveMessages sessionId [] ;;
  _updateSessionMetadata sessionId (Some (JStr "Chat history cleared.")).

Definition getThreadTree (sessionId : Id) : M (list Obj) :=
  if falsy sessionId
  then throw (Error_ "Session ID is required for getThreadTree.") else
  getRecentMessages sessionId (Some 50).

Definition getChatHistoryByMessageId (messageId : Id) : M (list Obj) :=
  ret [].



End Service.

End HistoryService.

(** ** BrowserCheckpointService *)

Module CheckpointService.
Import JS Runtime.

Record Checkpoint := {
  id : string;
  label : string;
  messageId : option JSON;          (* currentMessage.id, None when undefined *)
  currentMessage : JSON;
  timestamp : Z;
  createdAt : Z;
}.

(** One list per session under [<prefix><sessionId>], indexed by the text of
    the session id. *)
Abbreviation Store := (gmap string (Stored (list Checkpoint))).

(** The comparator [(a, b) => b.timestamp - a.timestamp]. *)
Definition newest_first (a b : Checkpoint) : bool :=
  timestamp b - timestamp a <=? 0.

Section Service.
Context (env : Env Store).
Abbreviation M := (Runtime.M Store).

Definition _getStorageKey (sessionId : Id) : M string :=
  if falsy sessionId
  then throw (Error_ "Session ID is required for checkpoint operations.")
  else ret (String_of_Id sessionId).

Definition _getCheckpoints (sessionId : Id) : M (list Checkpoint) :=
  try_catch
    (key <- _getStorageKey sessionId ;;
     item <- getItem (fun s : Store => s !! key) ;;
     JSON_parse_or item [])
    (fun _ => ret []).                                   (* console.error *)

Definition _saveCheckpoints (sessionId : Id) (checkpoints : list Checkpoint)
    : M unit :=
  try_catch
    (key <- _getStorageKey sessionId ;;
     setItem env (fun s : Store => <[key := Doc checkpoints]> s))
    (fun _ => ret tt).                                   (* console.error *)

Definition createCheckpoint (label_ : string) (currentMessage_ : JSON)
    (sessionId : Id) : M Checkpoint :=
  if falsy sessionId then throw (Error_ "Session ID is required.") else
  if negb (truthy currentMessage_)
  then throw (Error_ "No active chat (currentMessage) to checkpoint.") else
  checkpoints <- _getCheckpoints sessionId ;;
  now <- Date_now env ;;
  let newCheckpoint :=
    {| id := String_of_Z now;
       label := if String.eqb label_ ""
                then "Checkpoint @ " +:+ toISOString env now else label_;
       messageId := prop currentMessage_ "id";
       currentMessage := currentMessage_;                  (* deep copy *)
       timestamp := now;
       createdAt := now |} in
  _saveCheckpoints sessionId (checkpoints ++ [newCheckpoint]) ;;
  ret newCheckpoint.

Definition retrieveCheckpoint (idOrIdx : Id) (sessionId : Id)
    : M (option Checkpoint) :=
  if falsy sessionId then throw (Error_ "Session ID is required.") else
  checkpoints <- _getCheckpoints sessionId ;;
  match idOrIdx with
  | IdNum idx =>
      let sortedCheckpoints := sort newest_first checkpoints in
      ret (at_index sortedCheckpoints idx)
  | IdStr id_ =>
      ret (List.find (fun cp => String.eqb (id cp) id_) checkpoints)
  end.

Definition listCheckpoint (sessionId : Id) : M (list Checkpoint) :=
  if falsy sessionId then throw (Error_ "Session ID is required.") else
  checkpoints <- _getCheckpoints sessionId ;;
  ret (sort newest_first checkpoints).

Definition clearAllCheckpoints (sessionId : Id) : M unit :=
  if falsy sessionId then throw (Error_ "Session ID is required.") else
  _saveCheckpoints sessionId [].
End Service.

End CheckpointService.

(** ** BrowserAgentStateStorage *)

Module AgentStateStorage.
Import JS Runtime.

Record NamedAgentCheckpoint := {
  agentId : string;
  name : string;
  state : JSON;
  createdAt : option Z;
}.

Record StoredAgentCheckpoint := {
  sc_id : string;
  sc_agentId : string;
  sc_name : string;
  sc_state : JSON;
  sc_createdAt : Z;
}.

Record AgentCheckpointListItem := {
  li_id : string;
  li_name : string;
  li_agentId : string;
  li_createdAt : Z;
}.

(** The one key [<prefix>checkpoints]. *)
Abbreviation Store := (Cell (list StoredAgentCheckpoint)).

Section Service.
Context (env : Env Store).
Abbreviation M := (Runtime.M Store).

Definition _getAllCheckpoints : M (list StoredAgentCheckpoint) :=
  try_catch
    (item <- getItem (fun s : Store => s) ;;
     JSON_parse_or item [])
    (fun _ => ret []).                                   (* console.error *)

Definition _saveAllCheckpoints (checkpoints : list StoredAgentCheckpoint)
    : M unit :=
  try_catch
    (setItem env (fun _ : Store => Some (Doc checkpoints)))
    (fun _ => ret tt).                                   (* console.error *)

Definition storeCheckpoint (checkpoint : NamedAgentCheckpoint) : M string :=
  checkpoints <- _getAllCheckpoints ;;
  now <- Date_now env ;;
  let id := agentId checkpoint +:+ "_" +:+ String_of_Z now in
  let storedCheckpoint :=
    {| sc_id := id;
       sc_agentId := agentId checkpoint;
       sc_name := name checkpoint;
       sc_state := state checkpoint;
       sc_createdAt :=
         match createdAt checkpoint with
         | Some t => if t =? 0 then now else t               (* || now *)
         | None => now
         end |} in
  _saveAllCheckpoints (checkpoints ++ [storedCheckpoint]) ;;
  ret id.

Definition retrieveCheckpoint (checkpointId : string)
    : M (option StoredAgentCheckpoint) :=
  checkpoints <- _getAllCheckpoints ;;
  ret (List.find (fun cp => String.eqb (sc_id cp) checkpointId) checkpoints).

Definition listCheckpoints : M (list AgentCheckpointListItem) :=
  checkpoints <- _getAllCheckpoints ;;
  let listItems :=
    map (fun cp => {| li_id := sc_id cp; li_name := sc_name cp;
                      li_agentId := sc_agentId cp;
                      li_createdAt := sc_createdAt cp |}) checkpoints in
  ret (sort (fun a b => li_createdAt b - li_createdAt a <=? 0) listItems).

Definition clearAllCheckpoints : M unit :=
  _saveAllCheckpoints [].

Definition deleteCheckpoint (checkpointId : string) : M bool :=
  checkpoints <- _getAllCheckpoints ;;
  let filtered :=
    List.filter (fun cp => negb (String.eqb (sc_id cp) checkpointId)) checkpoints in
  if (length filtered <? length checkpoints)%nat
  then (_saveAllCheckpoints filtered ;; ret true)
  else ret false.
End Service.

End AgentStateStorage.

(** ** Vocabulary of the statements *)

(** Hosts used to run the services on concrete inputs. *)
Module Hosts.
Import Runtime.

(** A store that accepts every write, with a clock that advances by one
    millisecond at each reading. *)
Definition unlimited {S : Type} : Env S :=
  {| fits := fun _ => true;
     quotaMessage := "The quota has been exceeded.";
     clock := fun n => 1700000000000 + Z.of_nat n;
     toLocaleTimeString := fun _ => "9:41 AM";
     toISOString := fun _ => "2023-11-14T22:13:20.000Z" |}.

(** A store whose quota is used up: every write is rejected. *)
Definition full {S : Type} : Env S :=
  {| fits := fun _ => false;
     quotaMessage := "The quota has been exceeded.";
     clock := fun n => 1700000000000 + Z.of_nat n;
     toLocaleTimeString := fun _ => "9:41 AM";
     toISOString := fun _ => "2023-11-14T22:13:20.000Z" |}.

(** A store that accepts every write, read twice within one millisecond:
    the clock does not move. *)
Definition same_millisecond {S : Type} : Env S :=
  {| fits := fun _ => true;
     quotaMessage := "The quota has been exceeded.";
     clock := fun _ => 1700000000000;
     toLocaleTimeString := fun _ => "9:41 AM";
     toISOString := fun _ => "2023-11-14T22:13:20.000Z" |}.


Definition start {S : Type} (s : S) : World S := {| storage := s; ticks := 0 |}.

(** The world after a write whose failure is caught and logged: the store
    is updated when the write is accepted, and left as it was otherwise. *)
Definition written {S : Type} (env : Env S) (write : S -> S) (w : World S)
    : World S :=
  if fits env (write (storage w))
  then {| storage := write (storage w); ticks := ticks w |}
  else w.

(** The world after one more reading of the clock. *)
Definition tick {S : Type} (w : World S) : World S :=
  {| storage := storage w; ticks := Datatypes.S (ticks w) |}.

End Hosts.

Module MessageStorageSpec.
Import JS Runtime MessageStorage.

(** localStorage before anything was stored under the prefix. *)
Definition fresh : World Store := Hosts.start no_data.

(** What [deriveTitle] returns: it reads no state. *)
Definition title_of (lastMessage : option JSON) : Outcome string :=
  snd (deriveTitle lastMessage fresh).

(** [s] holds no line terminator. *)
Definition single_line (s : string) : Prop := dot_run s = String.length s.

(** After [k] characters of [s] comes white space or the end of [s]. *)
Definition boundary_at (k : nat) (s : string) : bool :=
  match drop_chars k s with
  | EmptyString => true
  | String c _ => isWhiteSpace c
  end.

(** The store right after the constructor ran on no data. *)
Definition seeded : Store :=
  {| sessions := Some (Doc []);
     messages := Some (Doc []);
     counters := Some (Doc {| c_sessionId := Some 1; c_messageId := Some 1 |}) |}.

(** The ids 1, 2, ..., n. *)
Definition ids (n : nat) : list Z := map Z.of_nat (seq 1 n).

(** The state of an instance that issued [n] session ids and [m] message
    ids since it was seeded. *)
Definition issued (s : Store) (n m : nat) : Prop :=
  exists ss ms,
    sessions s = Some (Doc ss) /\ messages s = Some (Doc ms)
    /\ map s_id ss = ids n /\ map id ms = ids m
    /\ counters s = Some (Doc {| c_sessionId := Some (Z.of_nat n + 1);
                                 c_messageId := Some (Z.of_nat m + 1) |}).

(** The part of [storeChat] that follows the choice of the session. *)
Definition appendMessage (env : Env Store) (currentMessage : option CurrentMessage)
    (request : Request) (response : JSON) (sessionId : Id) : Runtime.M Store Message :=
  item <- getItem messages ;;
  ms <- JSON_parse_or item [] ;;
  id <- getNextId env messageId_t ;;
  now <- Date_now env ;;
  let message :=
    {| id := id;
       sessionId := sessionId;
       previousMessageId :=
         match currentMessage ≫= cm_id with
         | Some i => if falsy i then None else Some i
         | None => None
         end;
       request := request;
       response := response;
       cumulativeInputLength := 0;
       updatedAt := now |} in
  setItem env (messagesKey (Some (Doc (ms ++ [message])))) ;;
  ret message.

(** The part of [storeChat] that creates the session. *)
Definition newSession (env : Env Store) (request : Request) : Runtime.M Store Id :=
  title <- deriveTitle (lastMessage request) ;;
  session <- storeSession env title ;;
  ret (IdNum (s_id session)).

(** A caller's use of one instance: sessions and chats stored in any
    order, the caller going on after a call that threw. *)
Inductive Call :=
| StoreSession (title : string)
| StoreChat (currentMessage : option CurrentMessage) (request : Request)
    (response : JSON).

Definition perform (env : Env Store) (c : Call) : Runtime.M Store unit :=
  match c with
  | StoreSession title => _ <- storeSession env title ;; ret tt
  | StoreChat cm rq rs =>
      try_catch (_ <- storeChat env cm rq rs ;; ret tt) (fun _ => ret tt)
  end.

Fixpoint perform_all (env : Env Store) (calls : list Call) : Runtime.M Store unit :=
  match calls with
  | [] => ret tt
  | c :: calls' => perform env c ;; perform_all env calls'
  end.

(** The number of session ids, and of message ids, a call asks for when
    every write is accepted: a chat without a session id asks for both,
    unless the title cannot be derived. *)
Definition asks (c : Call) : nat * nat :=
  match c with
  | StoreSession _ => (1, 0)%nat
  | StoreChat cm rq _ =>
      if not_given (cm ≫= cm_sessionId)
      then match title_of (lastMessage rq) with
           | Returned _ => (1, 1)%nat
           | Thrown _ => (0, 0)%nat
           end
      else (0, 1)%nat
  end.

Definition new_sessions (calls : list Call) : nat :=
  foldr (fun c n => (fst (asks c) + n)%nat) O calls.
Definition new_messages (calls : list Call) : nat :=
  foldr (fun c n => (snd (asks c) + n)%nat) O calls.

(** Three sessions, then two messages in the first of them. *)
Definition in_session (i : Z) : option CurrentMessage :=
  Some {| cm_sessionId := Some (IdNum i); cm_id := None |}.

Definition says (content : string) : Request :=
  {| r_messages := Some [JObj {[ "role" := JStr "user"; "content" := JStr content ]}];
     r_rest := ∅ |}.

Definition three_then_two : list Call :=
  [ StoreSession "a"; StoreSession "b"; StoreSession "c";
    StoreChat (in_session 1) (says "hello") (JStr "hi");
    StoreChat (in_session 1) (says "bye") (JStr "bye") ].

(** Two sessions were created, then the counters record was lost. *)
Definition counters_lost : Store :=
  {| sessions := Some (Doc [ {| s_id := 1; s_title := "a" |};
                             {| s_id := 2; s_title := "b" |} ]);
     messages := Some (Doc []);
     counters := None |}.

(** The counters record holds a text that is not JSON. *)
Definition counters_unparseable : Store :=
  {| sessions := Some (Doc []);
     messages := Some (Doc []);
     counters :=
       Some (Malformed "Expected property name or '}' in JSON at position 1") |}.

Definition LF : string := String (ascii_of_nat 10) EmptyString.

(** Three lines of text, and one word of 101 letters. *)
Definition three_lines : string := "hello" +:+ LF +:+ "world" +:+ LF +:+ "foo".
Definition long_word : string := string_of_list_ascii (replicate 101 "a"%char).

(** Messages 1 and 3 stored under the number 7, message 2 under the text
    "7", message 4 under the number 8. *)
Definition stored_under (i : Z) (sid : Id) : Message :=
  {| id := i; sessionId := sid; previousMessageId := None;
     request := says "hello"; response := JStr "hi";
     cumulativeInputLength := 0; updatedAt := 1700000000000 |}.

(** The stored session id is the number [n], or a text that reads as the
    number [n]. *)
Definition under_number (n : Z) (m : Message) : bool :=
  match sessionId m with
  | IdNum k => k =? n
  | IdStr s => match StringToNumber s with Some k => k =? n | None => false end
  end.

(** The stored session id is the number [n], or the decimal text of [n]. *)
Definition under_text (n : Z) (m : Message) : bool :=
  match sessionId m with
  | IdNum k => k =? n
  | IdStr s => String.eqb s (String_of_Z n)
  end.

Definition both_forms : Store :=
  {| sessions := Some (Doc []);
     messages := Some (Doc [ stored_under 1 (IdNum 7); stored_under 2 (IdStr "7");
                             stored_under 3 (IdNum 7); stored_under 4 (IdNum 8) ]);
     counters := Some (Doc {| c_sessionId := Some 9; c_messageId := Some 5 |}) |}.

End MessageStorageSpec.

Module CheckpointSpec.
Import JS Runtime CheckpointService.

(** What [_getCheckpoints] reads for a session: a missing, empty or
    unparseable list, and a missing session id, read as no checkpoint. *)
Definition stored_checkpoints (s : Store) (sessionId : Id) : list Checkpoint :=
  if falsy sessionId then []
  else match s !! String_of_Id sessionId with
       | Some (Doc l) => l
       | _ => []
       end.

Definition greeting : JSON :=
  JObj {[ "id" := JStr "msg-1"; "content" := JStr "Hello" ]}.

(** Two checkpoints of the session "s" created one after the other, on a
    host whose clock the argument gives. *)
Definition two_created (env : Env Store) : World Store :=
  fst ((_ <- createCheckpoint env "first" greeting (IdStr "s") ;;
        createCheckpoint env "second" greeting (IdStr "s"))
         (Hosts.start ∅)).

End CheckpointSpec.

Module HistorySpec.
Import JS Runtime HistoryService.

(** What [_getSessionsList] reads: a missing, empty or unparseable list
    reads as no session. *)
Definition stored_sessions (s : Store) : list Session :=
  match sessionsList s with
  | Some (Doc l) => l
  | _ => []
  end.

(** What [_getMessages] reads for a session: a missing, empty or
    unparseable log, and a missing session id, read as no message. *)
Definition stored_log (s : Store) (sessionId : Id) : list Obj :=
  if falsy sessionId then []
  else match history s !! String_of_Id sessionId with
       | Some (Doc l) => l
       | _ => []
       end.


(** The text that [addMessage] hands over for the preview,
    [String(message.content || message.text || "")]. *)
Definition last_text (lastMessageText : option JSON) : string :=
  match or_else lastMessageText (Some (JStr "")) with
  | Some v => String_of v
  | None => ""
  end.

(** The record [addMessage] builds from the defaults and the message. *)
Definition record_of (o : Obj) (id_ timestamp createdAt_ : JSON) (sessionId : Id)
    : Obj :=
  o ∪ {[ "id" := id_; "timestamp" := timestamp; "createdAt" := createdAt_;
         "sessionId" := JSON_of_Id sessionId ]}.

(** The session as [_updateSessionMetadata] rewrites it. *)
Definition touched (session : Session) (now : Z) (lastMessageText : option JSON)
    : Session :=
  let preview := substring0 50 (last_text lastMessageText) in
  {| id := id session;
     title := title session;
     name := name session;
     lastActivity := now;
     createdAt := createdAt session;
     previewText :=
       if (String.length preview =? 50)%nat then preview +:+ "..." else preview |}.



(** The numeric sort keys of [a] and [b] put [a] no later than [b] in a
    newest-first list. *)
Definition not_older (a b : Obj) : Prop :=
  exists ka kb, sort_key a = Some ka /\ sort_key b = Some kb /\ kb <= ka.

(** A session created on no data, on a host that accepts every write. *)
Definition no_data : Store := {| sessionsList := None; history := ∅ |}.

Definition one_session : World Store :=
  fst (createSession Hosts.unlimited (Some "My First Chat") (Hosts.start no_data)).

Definition the_session : Id := IdStr "1700000000000".

(** Three messages in the log of that session. *)
Definition hello_world : Obj :=
  {[ "id" := JStr "m1"; "timestamp" := JNum 1700000000010;
     "text" := JStr "Hello World" ]}.
Definition goodbye : Obj :=
  {[ "id" := JStr "m2"; "timestamp" := JNum 1700000000020;
     "content" := JStr "Goodbye" ]}.
Definition hello_again : Obj :=
  {[ "id" := JStr "m3"; "timestamp" := JNum 1700000000030;
     "content" := JStr "say hello again" ]}.





(** A text of exactly 50 characters. *)
Definition fifty : string := "12345678901234567890123456789012345678901234567890".

End HistorySpec.

Module AgentStateSpec.
Import JS Runtime AgentStateStorage.

(** What [_getAllCheckpoints] reads: a missing, empty or unparseable list
    reads as no checkpoint. *)
Definition stored_checkpoints (s : Store) : list StoredAgentCheckpoint :=
  match s with
  | Some (Doc l) => l
  | _ => []
  end.

End AgentStateSpec.

Module FailureSpec.
Import JS Runtime.


End FailureSpec.

(** ** Vocabulary of the further properties *)

Module MessageStorageMoreSpec.
Import JS Runtime MessageStorage MessageStorageSpec.

(** What the constructor leaves under a key: the text that was there, or
    the default when there was none. *)
Definition seed {A} (item : Cell A) (fallback : A) : Cell A :=
  if blank item then Some (Doc fallback) else item.

(** [currentMessage?.id || null]. *)
Definition previous_of (currentMessage : option CurrentMessage) : option Id :=
  match currentMessage ≫= cm_id with
  | Some i => if falsy i then None else Some i
  | None => None
  end.

(** The reply to a stored message: the caller hands the stored message back
    as [currentMessage]. *)
Definition reply_to (msg : Message) : option CurrentMessage :=
  Some {| cm_sessionId := Some (sessionId msg); cm_id := Some (IdNum (id msg)) |}.

(** Two words and a run of 100 characters without white space. *)
Definition long_prompt : string :=
  "Summarise the"
  +:+ " 0123456789012345678901234567890123456789012345678901234567890123456789012345678901234567890123456789".

(** A message list that was overwritten by two plain texts, with the
    messages of the SyntaxError raised for them by an engine that names the
    position, and by one that quotes the text. *)
Definition damaged (why : string) : Store :=
  {| sessions := None; messages := Some (Malformed why); counters := None |}.

Definition names_position : string := "Unexpected token o in JSON at position 1".

Definition quotes_text : string :=
  "Unexpected token 'o', " +:+ String (ascii_of_nat 34) "not found"
  +:+ String (ascii_of_nat 34) " is not valid JSON".

End MessageStorageMoreSpec.

Module HistoryMoreSpec.
Import JS Runtime HistoryService HistorySpec.

(** The session named [name] at the clock reading [now], as
    [renameSession] rewrites it. *)
Definition renamed (session : Session) (name_ : string) (now : Z) : Session :=
  {| id := id session;
     title := name_;
     name := name_;
     lastActivity := now;
     createdAt := createdAt session;
     previewText := previewText session |}.

(** [a] is not newer than [b], by their numeric sort keys. *)
Definition not_newer (a b : Obj) : Prop := not_older b a.

(** Two sessions and the log of the first. *)
Definition monday : Session :=
  {| id := "1700000000100"; title := "Monday"; name := "Monday";
     lastActivity := 1700000000100; createdAt := 1700000000100;
     previewText := "New chat session." |}.
Definition tuesday : Session :=
  {| id := "1700000000200"; title := "Tuesday"; name := "Tuesday";
     lastActivity := 1700000000200; createdAt := 1700000000200;
     previewText := "New chat session." |}.

Definition two_sessions : World Store :=
  Hosts.start
    {| sessionsList := Some (Doc [tuesday; monday]);
       history := {[ "1700000000100" := Doc [hello_world; goodbye; hello_again];
                     "1700000000200" := Doc [] ]} |}.

End HistoryMoreSpec.

Module CheckpointMoreSpec.
Import JS Runtime CheckpointService CheckpointSpec.

(** [a] may stand in front of [b] in a list ordered newest first. *)
Definition not_older (a b : Checkpoint) : Prop := timestamp b <= timestamp a.

(** The checkpoint that [createCheckpoint] builds at the clock reading
    [now]. *)
Definition created (env : Env Store) (label_ : string) (currentMessage_ : JSON)
    (now : Z) : Checkpoint :=
  {| id := String_of_Z now;
     label := if String.eqb label_ ""
              then "Checkpoint @ " +:+ toISOString env now else label_;
     messageId := prop currentMessage_ "id";
     currentMessage := currentMessage_;
     timestamp := now;
     createdAt := now |}.

End CheckpointMoreSpec.

Module AgentStateMoreSpec.
Import JS Runtime AgentStateStorage AgentStateSpec.

(** The record that [storeCheckpoint] appends at the clock reading [now]. *)
Definition stored_as (checkpoint : NamedAgentCheckpoint) (now : Z)
    : StoredAgentCheckpoint :=
  {| sc_id := agentId checkpoint +:+ "_" +:+ String_of_Z now;
     sc_agentId := agentId checkpoint;
     sc_name := name checkpoint;
     sc_state := state checkpoint;
     sc_createdAt :=
       match createdAt checkpoint with
       | Some t => if t =? 0 then now else t
       | None => now
       end |}.

(** The list item that [listCheckpoints] shows for a stored checkpoint. *)
Definition list_item (cp : StoredAgentCheckpoint) : AgentCheckpointListItem :=
  {| li_id := sc_id cp; li_name := sc_name cp;
     li_agentId := sc_agentId cp; li_createdAt := sc_createdAt cp |}.

(** [cp.id === checkpointId]. *)
Definition has_id (checkpointId : string) (cp : StoredAgentCheckpoint) : bool :=
  String.eqb (sc_id cp) checkpointId.

(** The checkpoints stored under an id. *)
Definition with_id (checkpointId : string) (s : Store) : list StoredAgentCheckpoint :=
  List.filter (has_id checkpointId) (stored_checkpoints s).

(** [s] holds no underscore. *)
Fixpoint no_underscore (s : string) : bool :=
  match s with
  | EmptyString => true
  | String c s' => negb (Ascii.eqb c "_") && no_underscore s'
  end.

Definition plan : NamedAgentCheckpoint :=
  {| agentId := "agent_7"; name := "plan";
     state := JObj {[ "step" := JNum 1 ]}; createdAt := None |}.

Definition revision : NamedAgentCheckpoint :=
  {| agentId := "agent_7"; name := "revision";
     state := JObj {[ "step" := JNum 2 ]}; createdAt := Some 1600000000000 |}.

(** The two checkpoints stored one after the other on no data, on a host
    whose clock the argument gives. *)
Definition two_stored (env : Env Store) : World Store :=
  fst ((_ <- storeCheckpoint env plan ;; storeCheckpoint env revision)
         (Hosts.start None)).

End AgentStateMoreSpec.
(** * Properties *)

(** ** Facts on the JavaScript functions *)

Module JSFacts.
Import JS.

Lemma trimStart_id s : no_white_space s = true -> trimStart s = s.
Proof.
  destruct s as [|c s]; simpl; [reflexivity|].
  intros H. apply andb_prop in H as [Hc _].
  destruct (isWhiteSpace c); [discriminate|reflexivity].
Qed.

Lemma trimEnd_id s : no_white_space s = true -> trimEnd s = s.
Proof.
  induction s as [|c s IH]; simpl; [reflexivity|].
  intros H. apply andb_prop in H as [Hc Hs].
  rewrite (IH Hs). destruct s; [|reflexivity].
  destruct (isWhiteSpace c); [discriminate|reflexivity].
Qed.

Lemma trim_id s : no_white_space s = true -> trim s = s.
Proof.
  intros H. unfold trim. rewrite (trimStart_id _ H). apply trimEnd_id, H.
Qed.

Lemma digits_no_white_space d :
  no_white_space (NilEmpty.string_of_uint d) = true.
Proof. induction d; simpl; auto. Qed.

Lemma digits_not_plus d t : NilEmpty.string_of_uint d <> String "+" t.
Proof. destruct d; simpl; congruence. Qed.

Lemma to_uint_not_nil p : Pos.to_uint p <> Decimal.Nil.
Proof.
  intros H. pose proof (Pos2Nat.is_pos p) as Hp.
  pose proof (DecimalPos.Unsigned.of_to p) as Hq.
  rewrite H in Hq. discriminate.
Qed.

Lemma String_of_Z_shape n :
  exists c s, String_of_Z n = String c s
              /\ c <> "+"%char
              /\ no_white_space (String c s) = true.
Proof.
  unfold String_of_Z. destruct n as [|p|p]; simpl.
  - exists "0"%char, EmptyString. repeat split; congruence.
  - pose proof (to_uint_not_nil p) as Hn.
    pose proof (digits_no_white_space (Pos.to_uint p)) as Hw.
    pose proof (digits_not_plus (Pos.to_uint p)) as Hp.
    unfold NilZero.string_of_uint.
    destruct (Pos.to_uint p) eqn:E; try congruence;
      simpl in *; eexists _, _; (split; [reflexivity|]); split; auto; congruence.
  - pose proof (digits_no_white_space (Pos.to_uint p)) as Hw.
    unfold NilZero.string_of_uint.
    destruct (Pos.to_uint p) eqn:E;
      simpl in *; eexists _, _; (split; [reflexivity|]); split; auto; congruence.
Qed.

(** A number printed and read back is the number. *)
Lemma StringToNumber_String_of_Z n : StringToNumber (String_of_Z n) = Some n.
Proof.
  destruct (String_of_Z_shape n) as (c & s & E & Hc & Hw).
  assert (Hi : NilZero.int_of_string (String_of_Z n) = Some (Z.to_int n)).
  { unfold String_of_Z. apply NilZero.isi.
    - destruct n; simpl; try congruence.
      intros H; injection H as H. exact (to_uint_not_nil _ H).
    - destruct n; simpl; try congruence.
      intros H; injection H as H. exact (to_uint_not_nil _ H). }
  unfold StringToNumber. rewrite E, (trim_id _ Hw). unfold integer_literal.
  destruct (Ascii.eqb_spec c "+") as [->|_]; [contradiction Hc; reflexivity|].
  rewrite <- E, Hi, DecimalZ.of_to. reflexivity.
Qed.

(** The literals of the grammar that are no plain integers. *)
Lemma StringToNumber_literals :
  StringToNumber "2.0" = Some 2 /\ StringToNumber "2e0" = Some 2
  /\ StringToNumber "0x2" = Some 2 /\ StringToNumber "0b10" = Some 2
  /\ StringToNumber "0o17" = Some 15 /\ StringToNumber "0X1f" = Some 31
  /\ StringToNumber " 2 " = Some 2 /\ StringToNumber "+2" = Some 2
  /\ StringToNumber "010" = Some 10 /\ StringToNumber "2." = Some 2
  /\ StringToNumber ".5e1" = Some 5 /\ StringToNumber "25e-1" = None
  /\ StringToNumber "1.20E+2" = Some 120 /\ StringToNumber "-1e3" = Some (-1000)
  /\ StringToNumber "-0" = Some 0 /\ StringToNumber "" = Some 0
  /\ StringToNumber "2.5" = None /\ StringToNumber "Infinity" = None
  /\ StringToNumber "-Infinity" = None /\ StringToNumber "." = None
  /\ StringToNumber "1e" = None /\ StringToNumber "-0x10" = None
  /\ StringToNumber "0x" = None /\ StringToNumber "0b12" = None
  /\ StringToNumber "1 2" = None /\ StringToNumber "1_000" = None
  /\ StringToNumber "+-2" = None /\ StringToNumber "abc" = None
  /\ StringToNumber "2.0000000000000001" = Some 2
  /\ StringToNumber "2.0000000000000003" = None
  /\ StringToNumber "1.9999999999999999" = Some 2
  /\ StringToNumber "0.9999999999999999999" = Some 1
  /\ StringToNumber "4503599627370496.5" = Some 4503599627370496
  /\ StringToNumber "4503599627370497.5" = Some 4503599627370498
  /\ StringToNumber "1e-400" = Some 0 /\ StringToNumber "0.1" = None.
Proof. repeat split; vm_compute; reflexivity. Qed.

Lemma loose_eq_num_str k n :
  loose_eq (IdNum k) (IdStr (String_of_Z n)) = (k =? n).
Proof. simpl. rewrite StringToNumber_String_of_Z. reflexivity. Qed.


(** *** The stable sort *)

Lemma nil_or_not {A} (l : list A) : l = [] \/ l <> [].
Proof. destruct l; [left; reflexivity|right; discriminate]. Qed.

Section SortFacts.
Context {A : Type}.
Implicit Types (before : A -> A -> bool) (l : list A).

Lemma insert_sorted_perm before x l : Permutation (insert_sorted before x l) (x :: l).
Proof.
  induction l as [|y l IH]; simpl; [reflexivity|].
  destruct (before x y); [reflexivity|].
  rewrite IH. apply perm_swap.
Qed.

Lemma sort_perm before l : Permutation (sort before l) l.
Proof.
  induction l as [|x l IH]; simpl; [reflexivity|].
  rewrite insert_sorted_perm. constructor. exact IH.
Qed.

Lemma sort_In before l x : In x (sort before l) <-> In x l.
Proof.
  split; apply Permutation_in; [|symmetry]; apply sort_perm.
Qed.

Lemma insert_sorted_ext before before' x l :
  (forall y, In y l -> before x y = before' x y) ->
  insert_sorted before x l = insert_sorted before' x l.
Proof.
  induction l as [|y l IH]; intros H; simpl; [reflexivity|].
  rewrite (H y (or_introl eq_refl)), IH; [reflexivity|].
  intros z Hz. apply H. right; exact Hz.
Qed.

(** Two comparators that agree on the elements of a list sort it alike. *)
Lemma sort_ext before before' l :
  (forall x y, In x l -> In y l -> before x y = before' x y) ->
  sort before l = sort before' l.
Proof.
  induction l as [|x l IH]; intros H; simpl; [reflexivity|].
  rewrite IH.
  - apply insert_sorted_ext. intros y Hy. apply H; [left; reflexivity|].
    right. apply (sort_In before' l y), Hy.
  - intros a b Ha Hb. apply H; right; assumption.
Qed.

(** Sorting by a numeric key, greatest first. *)
Context (key : A -> Z).
Local Abbreviation desc := (descending key).

Lemma insert_sorted_desc x l :
  StronglySorted (fun a b => key b <= key a) l ->
  StronglySorted (fun a b => key b <= key a) (insert_sorted desc x l).
Proof.
  induction 1 as [|y l Hs IH Hy]; simpl.
  - repeat constructor.
  - unfold desc at 1. destruct (Z.leb_spec (key y - key x) 0) as [Hle|Hgt].
    + constructor; [constructor; assumption|].
      constructor; [lia|].
      eapply Forall_impl; [exact Hy|]. simpl. intros; lia.
    + constructor; [exact IH|].
      apply List.Forall_forall. intros z Hz.
      apply (Permutation_in _ (insert_sorted_perm desc x l)) in Hz.
      destruct Hz as [<- | Hz]; [lia|].
      rewrite List.Forall_forall in Hy. apply Hy, Hz.
Qed.

Lemma sort_desc_sorted l :
  StronglySorted (fun a b => key b <= key a) (sort desc l).
Proof.
  induction l as [|x l IH]; simpl; [constructor|].
  apply insert_sorted_desc, IH.
Qed.

(** The head of the sorted list: the first, in the order of the list, of
    the elements with the greatest key. *)
Lemma sort_desc_head l :
  l <> [] ->
  exists c l1 l2,
    head (sort desc l) = Some c
    /\ l = l1 ++ c :: l2
    /\ (forall x, In x l1 -> key x < key c)
    /\ (forall x, In x l2 -> key x <= key c).
Proof.
  induction l as [|x l IH]; intros Hne; [contradiction|].
  destruct (nil_or_not l) as [->|Hl0].
  - exists x, [], []. simpl. repeat split; intros ? [].
  - destruct (IH Hl0) as (c & l1 & l2 & Hh & Hl & H1 & H2).
    change (sort desc (x :: l)) with (insert_sorted desc x (sort desc l)).
    destruct (sort desc l) as [|c' s]; [discriminate|].
    simpl in Hh. injection Hh as ->. simpl. unfold desc at 1.
    destruct (Z.leb_spec (key c - key x) 0) as [Hle|Hgt].
    + exists x, [], l. repeat split; [intros ? []|].
      intros z Hz. rewrite Hl in Hz. apply in_app_or in Hz.
      destruct Hz as [Hz|[<-|Hz]]; [specialize (H1 z Hz)|..|specialize (H2 z Hz)]; lia.
    + exists c, (x :: l1), l2. rewrite Hl. repeat split; auto.
      intros z [<-|Hz]; [lia|auto].
Qed.

End SortFacts.

Lemma NoDup_map_injective {A B} (f : A -> B) l x y :
  List.NoDup (map f l) -> In x l -> In y l -> f x = f y -> x = y.
Proof.
  induction l as [|a l IH]; simpl; intros Hnd Hx Hy E; [contradiction|].
  apply List.NoDup_cons_iff in Hnd as [Hna Hnd].
  destruct Hx as [<-|Hx], Hy as [<-|Hy]; auto.
  - exfalso. apply Hna. rewrite E. apply in_map, Hy.
  - exfalso. apply Hna. rewrite <- E. apply in_map, Hx.
Qed.

End JSFacts.

(** ** Facts on the runtime *)

Module RuntimeFacts.
Import JS Runtime.

(** Parsing what a key holds, or the fallback: the parse of the text that
    [||] selects. *)
Lemma JSON_parse_or_text {S A} (item : Cell A) (fallback : A) :
  @JSON_parse_or S A item fallback
  = match or_text item fallback with
    | Doc a => ret a
    | Malformed why => throw (SyntaxError why)
    | Empty => ret fallback
    end.
Proof. destruct item as [[|why|a]|]; reflexivity. Qed.

Lemma or_text_not_Empty {A} (item : Cell A) (fallback : A) :
  or_text item fallback <> Empty.
Proof. destruct item as [[|why|a]|]; discriminate. Qed.

End RuntimeFacts.

(** ** BrowserChatMessageStorage: ids and counters *)

Module MessageStorageFacts.
Import JS Runtime MessageStorage MessageStorageSpec JSFacts.

(** The monadic operators unfold to plain functions on worlds. *)
Ltac run :=
  unfold bind, ret, throw, try_catch, getItem, setItem, removeItem,
    JSON_parse_or, Date_now; simpl.

(** The same, the parse being put in terms of the text that [||] selects. *)
Ltac run_text :=
  rewrite ?RuntimeFacts.JSON_parse_or_text;
  unfold bind, ret, throw, try_catch, getItem, setItem, removeItem, Date_now;
  simpl; rewrite ?RuntimeFacts.JSON_parse_or_text.

Lemma deriveTitle_pure lm w : deriveTitle lm w = (w, title_of lm).
Proof.
  unfold title_of, deriveTitle.
  destruct lm as [v|]; [|reflexivity].
  destruct v; try reflexivity; simpl; destruct (_ !! _) as [[]|]; reflexivity.
Qed.

Lemma ids_S n : ids (S n) = ids n ++ [Z.of_nat n + 1].
Proof.
  unfold ids. rewrite seq_S, map_app. simpl. f_equal. f_equal. lia.
Qed.

Section Allocation.
Context (env : Env Store).
Hypothesis accepts : forall s, fits env s = true.

Lemma getNextId_intact w type cs n :
  counters (storage w) = Some (Doc cs) ->
  counter type cs = Some n -> n <> 0 ->
  getNextId env type w =
    ({| storage := countersKey (Some (Doc (set_counter type (n + 1) cs))) (storage w);
        ticks := ticks w |}, Returned n).
Proof.
  intros Hc Hn Hz. unfold getNextId. run. rewrite Hc. simpl.
  rewrite Hn. destruct (Z.eqb_spec n 0) as [|_]; [contradiction|].
  rewrite accepts. reflexivity.
Qed.

Lemma getNextId_restart w type cs :
  or_text (counters (storage w)) {| c_sessionId := None; c_messageId := None |} = Doc cs ->
  counter type cs = None \/ counter type cs = Some 0 ->
  getNextId env type w =
    ({| storage := countersKey (Some (Doc (set_counter type 2 cs))) (storage w);
        ticks := ticks w |}, Returned 1).
Proof.
  intros Hc Hn. unfold getNextId. run_text. rewrite Hc. run.
  destruct Hn as [-> | ->]; simpl; rewrite accepts; reflexivity.
Qed.

Lemma storeSession_issued w n m title :
  issued (storage w) n m ->
  exists w', storeSession env title w
             = (w', Returned {| s_id := Z.of_nat n + 1; s_title := title |})
             /\ issued (storage w') (S n) m.
Proof.
  intros (ss & ms & Hs & Hm & Hsi & Hmi & Hc).
  unfold storeSession. unfold bind at 1. unfold getItem at 1. rewrite Hs. simpl.
  unfold bind at 1. unfold ret at 1.
  unfold bind at 1.
  rewrite (getNextId_intact w sessionId_t _ (Z.of_nat n + 1) Hc eq_refl) by lia.
  run. rewrite accepts.
  eexists. split; [reflexivity|].
  exists (ss ++ [{| s_id := Z.of_nat n + 1; s_title := title |}]), ms. simpl.
  repeat split; auto.
  - rewrite map_app, Hsi, ids_S. reflexivity.
  - do 4 f_equal. lia.
Qed.


Lemma storeChat_parts cm rq rs :
  storeChat env cm rq rs =
  try_catch
    (sessionId <- (if not_given (cm ≫= cm_sessionId)
                   then newSession env rq
                   else ret (default (IdNum 0) (cm ≫= cm_sessionId))) ;;
     appendMessage env cm rq rs sessionId)
    (fun error =>
       throw (Error_ ("Failed to store chat message: " +:+ message error))).
Proof.
  unfold storeChat, not_given. destruct (cm ≫= cm_sessionId) as [i|]; simpl.
  - destruct (falsy i); reflexivity.
  - reflexivity.
Qed.

Lemma appendMessage_issued w n m cm rq rs sid :
  issued (storage w) n m ->
  exists w' msg, appendMessage env cm rq rs sid w = (w', Returned msg)
    /\ id msg = Z.of_nat m + 1 /\ sessionId msg = sid
    /\ messages (storage w') = option_map (fun t =>
          match t with Doc ms => Doc (ms ++ [msg]) | t => t end) (messages (storage w))
    /\ sessions (storage w') = sessions (storage w)
    /\ issued (storage w') n (S m).
Proof.
  intros (ss & ms & Hs & Hm & Hsi & Hmi & Hc).
  unfold appendMessage. unfold bind at 1. unfold getItem at 1. rewrite Hm. simpl.
  unfold bind at 1. unfold ret at 1.
  unfold bind at 1.
  rewrite (getNextId_intact w messageId_t _ (Z.of_nat m + 1) Hc eq_refl) by lia.
  run. rewrite accepts.
  eexists _, _. split; [reflexivity|]. simpl.
  repeat split; auto.
  eexists _, _. simpl. repeat split; eauto.
  - rewrite map_app, Hmi, ids_S. reflexivity.
  - do 4 f_equal. lia.
Qed.

Lemma newSession_issued w n m rq title :
  issued (storage w) n m ->
  title_of (lastMessage rq) = Returned title ->
  exists w', newSession env rq w = (w', Returned (IdNum (Z.of_nat n + 1)))
    /\ issued (storage w') (S n) m.
Proof.
  intros Hi Ht. unfold newSession. unfold bind at 1.
  rewrite deriveTitle_pure, Ht.
  destruct (storeSession_issued w n m title Hi) as (w' & E & Hi').
  unfold bind. rewrite E. simpl. eexists; split; [reflexivity|exact Hi'].
Qed.

Lemma newSession_throws w rq e :
  title_of (lastMessage rq) = Thrown e ->
  newSession env rq w = (w, Thrown e).
Proof.
  intros Ht. unfold newSession. unfold bind at 1.
  rewrite deriveTitle_pure, Ht. reflexivity.
Qed.

Lemma perform_issued w n m c :
  issued (storage w) n m ->
  exists w', perform env c w = (w', Returned tt)
    /\ issued (storage w') (fst (asks c) + n) (snd (asks c) + m).
Proof.
  intros Hi. destruct c as [title | cm rq rs]; simpl.
  - destruct (storeSession_issued w n m title Hi) as (w' & E & Hi').
    unfold bind. rewrite E. eexists; split; [reflexivity|exact Hi'].
  - rewrite storeChat_parts.
    destruct (not_given (cm ≫= cm_sessionId)).
    + destruct (title_of (lastMessage rq)) as [title|e] eqn:Ht.
      * destruct (newSession_issued w n m rq title Hi Ht) as (w1 & E1 & Hi1).
        destruct (appendMessage_issued w1 (S n) m cm rq rs (IdNum (Z.of_nat n + 1)) Hi1)
          as (w2 & msg & E2 & _ & _ & _ & _ & Hi2).
        unfold try_catch, bind. rewrite E1, E2. simpl.
        eexists; split; [reflexivity|exact Hi2].
      * unfold try_catch, bind. rewrite (newSession_throws w rq e Ht). simpl.
        eexists; split; [reflexivity|exact Hi].
    + destruct (appendMessage_issued w n m cm rq rs
                  (default (IdNum 0) (cm ≫= cm_sessionId)) Hi)
        as (w2 & msg & E2 & _ & _ & _ & _ & Hi2).
      unfold try_catch, bind, ret. rewrite E2. simpl.
      eexists; split; [reflexivity|exact Hi2].
Qed.

Lemma perform_all_issued calls : forall w n m,
  issued (storage w) n m ->
  exists w', perform_all env calls w = (w', Returned tt)
    /\ issued (storage w') (n + new_sessions calls) (m + new_messages calls).
Proof.
  induction calls as [|c calls IH]; intros w n m Hi; simpl.
  - exists w. split; [reflexivity|]. rewrite !Nat.add_0_r. exact Hi.
  - destruct (perform_issued w n m c Hi) as (w1 & E1 & Hi1).
    destruct (IH w1 _ _ Hi1) as (w2 & E2 & Hi2).
    unfold bind. rewrite E1. exists w2. split; [exact E2|].
    replace (n + (fst (asks c) + new_sessions calls))%nat
      with (fst (asks c) + n + new_sessions calls)%nat by lia.
    replace (m + (snd (asks c) + new_messages calls))%nat
      with (snd (asks c) + m + new_messages calls)%nat by lia.
    exact Hi2.
Qed.

Lemma constructor_seeds ticks0 :
  constructor env {| storage := no_data; ticks := ticks0 |}
  = ({| storage := seeded; ticks := ticks0 |}, Returned tt).
Proof.
  unfold constructor, initializeStorage. run.
  repeat (rewrite accepts; simpl). reflexivity.
Qed.

Lemma seeded_issued : issued seeded 0 0.
Proof. exists [], []. simpl. repeat split; reflexivity. Qed.

End Allocation.

(** C5. Within one instance, started on no data and with every write
    accepted, whatever sessions and chats are stored in whatever order: the
    stored sessions carry the ids 1, 2, ..., n in the order of their
    creation, the stored messages the ids 1, 2, ..., m, and the counters
    record holds n + 1 and m + 1 after every call.  Three sessions then two
    messages leave it at 4 and 3. *)
Theorem ids_and_counters_count_from_one (env : Env Store) (calls : list Call) :
  (forall s, fits env s = true) ->
  exists w0 w ss ms,
    constructor env fresh = (w0, Returned tt)
    /\ perform_all env calls w0 = (w, Returned tt)
    /\ sessions (storage w) = Some (Doc ss)
    /\ map s_id ss = ids (new_sessions calls)
    /\ messages (storage w) = Some (Doc ms)
    /\ map id ms = ids (new_messages calls)
    /\ counters (storage w)
       = Some (Doc {| c_sessionId := Some (Z.of_nat (new_sessions calls) + 1);
                      c_messageId := Some (Z.of_nat (new_messages calls) + 1) |}).
Proof.
  intros accepts.
  destruct (perform_all_issued env accepts calls
              {| storage := seeded; ticks := 0 |} 0 0 seeded_issued)
    as (w & E & ss & ms & Hs & Hm & Hsi & Hmi & Hc).
  exists {| storage := seeded; ticks := 0 |}, w, ss, ms.
  split; [apply (constructor_seeds env accepts)|].
  repeat split; assumption.
Qed.

Lemma ids_and_counters_count_from_one_witness :
  (forall s : Store, fits Hosts.unlimited s = true)
  /\ exists w,
       perform_all Hosts.unlimited three_then_two
         (fst (constructor Hosts.unlimited fresh)) = (w, Returned tt)
       /\ counters (storage w)
          = Some (Doc {| c_sessionId := Some 4; c_messageId := Some 3 |}).
Proof.
  split; [reflexivity|].
  destruct (ids_and_counters_count_from_one Hosts.unlimited three_then_two
              (fun _ => eq_refl))
    as (w0 & w & ss & ms & E0 & E & _ & _ & _ & _ & Hc).
  exists w. rewrite E0. split; [exact E|exact Hc].
Defined.

Lemma clearAllData_seeds (env : Env Store) w :
  (forall s, fits env s = true) ->
  clearAllData env w = ({| storage := seeded; ticks := ticks w |}, Returned tt).
Proof.
  intros accepts. unfold clearAllData, initializeStorage. run.
  repeat (rewrite accepts; simpl). reflexivity.
Qed.

(** C6. With every write accepted, [clearAllData] leaves the store as the
    constructor seeds it (no session, no message, both counters at 1),
    whatever it held; a [storeChat] without session id that follows creates
    the session 1 and stores the message 1 in it. *)
Theorem clearAllData_then_storeChat (env : Env Store) (w : World Store)
    (cm : option CurrentMessage) (rq : Request) (rs : JSON) (title : string) :
  (forall s, fits env s = true) ->
  not_given (cm ≫= cm_sessionId) = true ->
  deriveTitle (lastMessage rq) w = (w, Returned title) ->
  exists w1 w2 msg,
    clearAllData env w = (w1, Returned tt)
    /\ storage w1 = seeded
    /\ storeChat env cm rq rs w1 = (w2, Returned msg)
    /\ id msg = 1 /\ sessionId msg = IdNum 1
    /\ sessions (storage w2) = Some (Doc [{| s_id := 1; s_title := title |}])
    /\ messages (storage w2) = Some (Doc [msg])
    /\ counters (storage w2)
       = Some (Doc {| c_sessionId := Some 2; c_messageId := Some 2 |}).
Proof.
  intros accepts Hng Ht.
  rewrite deriveTitle_pure in Ht. injection Ht as Ht.
  exists {| storage := seeded; ticks := ticks w |}.
  rewrite (clearAllData_seeds env w accepts).
  rewrite storeChat_parts, Hng.
  unfold try_catch, bind at 1, newSession, bind at 1.
  rewrite deriveTitle_pure, Ht.
  unfold storeSession, appendMessage, getNextId. run.
  repeat (rewrite accepts; simpl).
  eexists _, _. repeat split; reflexivity.
Qed.

Lemma clearAllData_then_storeChat_witness :
  (forall s : Store, fits Hosts.unlimited s = true)
  /\ not_given (None ≫= cm_sessionId) = true
  /\ deriveTitle (lastMessage (says "Hi there")) (Hosts.start counters_lost)
     = (Hosts.start counters_lost, Returned "Hi there")
  /\ exists w1 w2 msg,
       clearAllData Hosts.unlimited (Hosts.start counters_lost) = (w1, Returned tt)
       /\ storeChat Hosts.unlimited None (says "Hi there") (JStr "Hello!") w1
          = (w2, Returned msg)
       /\ id msg = 1 /\ sessionId msg = IdNum 1.
Proof.
  split; [reflexivity|]. split; [reflexivity|]. split; [reflexivity|].
  destruct (clearAllData_then_storeChat Hosts.unlimited (Hosts.start counters_lost)
              None (says "Hi there") (JStr "Hello!") "Hi there"
              (fun _ => eq_refl) eq_refl eq_refl)
    as (w1 & w2 & msg & E1 & _ & E2 & Hi & Hs & _).
  exists w1, w2, msg. repeat split; assumption.
Defined.

(** On a counters record that is not JSON nothing is allocated. *)
Lemma getNextId_unparseable (env : Env Store) (w : World Store) type why :
  counters (storage w) = Some (Malformed why) ->
  getNextId env type w = (w, Thrown (SyntaxError why)).
Proof. intros Hc. unfold getNextId. run. rewrite Hc. reflexivity. Qed.

Lemma storeSession_unparseable (env : Env Store) (w : World Store) title why :
  counters (storage w) = Some (Malformed why) ->
  exists e,
    storeSession env title w = (w, Thrown e)
    /\ (forall ss, sessions (storage w) = Some (Doc ss) -> e = SyntaxError why).
Proof.
  intros Hc. unfold storeSession. unfold bind at 1, getItem at 1.
  unfold bind at 1.
  destruct (sessions (storage w)) as [[|why'|ss]|]; simpl.
  - unfold bind. rewrite (getNextId_unparseable env w _ why Hc).
    eexists. split; [reflexivity|]. discriminate.
  - eexists. split; [reflexivity|]. discriminate.
  - unfold bind. rewrite (getNextId_unparseable env w _ why Hc).
    eexists. split; [reflexivity|]. reflexivity.
  - unfold bind. rewrite (getNextId_unparseable env w _ why Hc).
    eexists. split; [reflexivity|]. discriminate.
Qed.

Lemma appendMessage_unparseable (env : Env Store) (w : World Store)
    cm rq rs sid why :
  counters (storage w) = Some (Malformed why) ->
  exists e,
    appendMessage env cm rq rs sid w = (w, Thrown e)
    /\ (forall ms, messages (storage w) = Some (Doc ms) -> e = SyntaxError why).
Proof.
  intros Hc. unfold appendMessage. unfold bind at 1, getItem at 1.
  unfold bind at 1.
  destruct (messages (storage w)) as [[|why'|ms]|]; simpl.
  - unfold bind. rewrite (getNextId_unparseable env w _ why Hc).
    eexists. split; [reflexivity|]. discriminate.
  - eexists. split; [reflexivity|]. discriminate.
  - unfold bind. rewrite (getNextId_unparseable env w _ why Hc).
    eexists. split; [reflexivity|]. reflexivity.
  - unfold bind. rewrite (getNextId_unparseable env w _ why Hc).
    eexists. split; [reflexivity|]. discriminate.
Qed.

(** C10, as the code has it.  When the counters record is missing or empty,
    or lacks the requested field (or holds 0 there), [getNextId] returns 1
    and stores 2 in the field: a store that already holds the session 1 is
    given a second one.  When the record is a text that is not JSON,
    [getNextId] throws the SyntaxError of [JSON.parse], returns no id and
    writes nothing, on any host; every [storeChat] then fails with an error
    "Failed to store chat message: ..." and writes nothing, the cause
    quoted being the message of that SyntaxError when the session and
    message lists are readable and the title can be derived. *)
Theorem getNextId_on_lost_counters (env : Env Store) (w : World Store)
    (type : CounterType) :
  (forall s, fits env s = true) ->
  (forall cs,
     or_text (counters (storage w)) {| c_sessionId := None; c_messageId := None |}
       = Doc cs ->
     counter type cs = None \/ counter type cs = Some 0 ->
     exists w' cs',
       getNextId env type w = (w', Returned 1)
       /\ counters (storage w') = Some (Doc cs')
       /\ counter type cs' = Some 2)
  /\ (forall ss title,
       blank (counters (storage w)) = true ->
       sessions (storage w) = Some (Doc ss) ->
       exists w',
         storeSession env title w = (w', Returned {| s_id := 1; s_title := title |})
         /\ sessions (storage w')
            = Some (Doc (ss ++ [{| s_id := 1; s_title := title |}])))
  /\ (forall (host : Env Store) why,
       counters (storage w) = Some (Malformed why) ->
       getNextId host type w = (w, Thrown (SyntaxError why))
       /\ (forall cm rq rs,
             exists cause,
               storeChat host cm rq rs w
               = (w, Thrown (Error_ ("Failed to store chat message: " +:+ cause)))
               /\ (forall ss ms title,
                     sessions (storage w) = Some (Doc ss) ->
                     messages (storage w) = Some (Doc ms) ->
                     title_of (lastMessage rq) = Returned title ->
                     cause = why))).
Proof.
  intros accepts. split; [|split].
  - intros cs Hcs Hn.
    rewrite (getNextId_restart env accepts w type cs Hcs Hn).
    eexists _, _. split; [reflexivity|]. simpl. split; [reflexivity|].
    destruct type; reflexivity.
  - intros ss title Hb Hs.
    unfold storeSession. unfold bind at 1. unfold getItem at 1. rewrite Hs. simpl.
    unfold bind at 1, ret at 1, bind at 1.
    rewrite (getNextId_restart env accepts w sessionId_t
               {| c_sessionId := None; c_messageId := None |}).
    + run. rewrite accepts. eexists. split; reflexivity.
    + destruct (counters (storage w)) as [[]|]; try discriminate; reflexivity.
    + left; reflexivity.
  - intros host why Hc. split; [exact (getNextId_unparseable host w type why Hc)|].
    intros cm rq rs. rewrite storeChat_parts.
    destruct (not_given (cm ≫= cm_sessionId)).
    + unfold newSession.
      destruct (title_of (lastMessage rq)) as [title|e] eqn:Ht.
      * destruct (storeSession_unparseable host w title why Hc) as (e & E & He).
        unfold try_catch, bind. rewrite deriveTitle_pure, Ht, E. simpl.
        exists (message e). split; [reflexivity|].
        intros ss ms title' Hs _ _. rewrite (He ss Hs). reflexivity.
      * unfold try_catch, bind. rewrite deriveTitle_pure, Ht. simpl.
        exists (message e). split; [reflexivity|].
        intros ss ms title' _ _ Ht'. discriminate.
    + destruct (appendMessage_unparseable host w cm rq rs
                  (default (IdNum 0) (cm ≫= cm_sessionId)) why Hc) as (e & E & He).
      unfold try_catch, bind, ret. rewrite E. simpl.
      exists (message e). split; [reflexivity|].
      intros ss ms title' _ Hm _. rewrite (He ms Hm). reflexivity.
Qed.

Lemma getNextId_on_lost_counters_witness :
  (forall s : Store, fits Hosts.unlimited s = true)
  /\ blank (counters counters_lost) = true
  /\ (exists w',
        storeSession Hosts.unlimited "c" (Hosts.start counters_lost)
        = (w', Returned {| s_id := 1; s_title := "c" |})
        /\ sessions (storage w')
           = Some (Doc [ {| s_id := 1; s_title := "a" |};
                         {| s_id := 2; s_title := "b" |};
                         {| s_id := 1; s_title := "c" |} ]))
  /\ storeChat Hosts.full None (says "Hi there") (JStr "Hello!")
       (Hosts.start counters_unparseable)
     = (Hosts.start counters_unparseable,
        Thrown (Error_ ("Failed to store chat message: "
                        +:+ "Expected property name or '}' in JSON at position 1"))).
Proof.
  split; [reflexivity|]. split; [reflexivity|].
  destruct (getNextId_on_lost_counters Hosts.unlimited (Hosts.start counters_lost)
              sessionId_t (fun _ => eq_refl)) as (_ & H & _).
  split; [exact (H _ "c" eq_refl eq_refl)|].
  destruct (getNextId_on_lost_counters Hosts.unlimited
              (Hosts.start counters_unparseable) sessionId_t (fun _ => eq_refl))
    as (_ & _ & H').
  destruct (H' Hosts.full _ eq_refl) as (_ & Hchat).
  destruct (Hchat None (says "Hi there") (JStr "Hello!")) as (cause & E & Hcause).
  rewrite E. rewrite (Hcause [] [] "Hi there" eq_refl eq_refl eq_refl). reflexivity.
Defined.

(** C10, the claim as stated fails: on an unparseable counters record
    [getNextId] does not return 1, it throws, and [storeChat] reports the
    failure to its caller. *)
Lemma getNextId_unparseable_throws :
  getNextId Hosts.unlimited sessionId_t (Hosts.start counters_unparseable)
  = (Hosts.start counters_unparseable,
     Thrown (SyntaxError "Expected property name or '}' in JSON at position 1"))
  /\ snd (getNextId Hosts.unlimited sessionId_t (Hosts.start counters_unparseable))
     <> Returned 1
  /\ counters (storage (fst (getNextId Hosts.unlimited sessionId_t
                               (Hosts.start counters_unparseable))))
     = counters counters_unparseable.
Proof.
  split; [reflexivity|]. split; [discriminate|]. reflexivity.
Qed.

Lemma retrieveMessagesBySession_runs (w : World Store) (sid : Id) ms :
  or_text (messages (storage w)) [] = Doc ms ->
  retrieveMessagesBySession sid w
  = (w, Returned (List.filter (fun msg => loose_eq (sessionId msg) sid) ms)).
Proof. intros H. unfold retrieveMessagesBySession. run_text. rewrite H. reflexivity. Qed.

Lemma retrieveMessagesBySession_inv (w : World Store) (sid : Id) l :
  retrieveMessagesBySession sid w = (w, Returned l) ->
  exists ms, or_text (messages (storage w)) [] = Doc ms
             /\ l = List.filter (fun msg => loose_eq (sessionId msg) sid) ms.
Proof.
  unfold retrieveMessagesBySession. run_text.
  destruct (or_text (messages (storage w)) []) as [|why|ms] eqn:E; simpl;
    try discriminate.
  - exfalso. exact (RuntimeFacts.or_text_not_Empty _ _ E).
  - intros H. injection H as <-. exists ms. split; reflexivity.
Qed.

Lemma includes_append (a b t : string) :
  includes b t = true -> includes (a +:+ b) t = true.
Proof.
  intros Hb. induction a as [|c a IH]; [exact Hb|].
  change (includes (String c (a +:+ b)) t = true).
  cbn [includes]. rewrite IH. apply orb_true_r.
Qed.

Lemma retrieveMessageById_runs (w : World Store) (i : Id) ms :
  or_text (messages (storage w)) [] = Doc ms ->
  retrieveMessageById i w
  = (w, match List.find (fun msg => loose_eq (IdNum (id msg)) i) ms with
        | Some found => Returned found
        | None =>
            Thrown (Error_ ("Message with id " +:+ String_of_Id i +:+ " not found"))
        end).
Proof.
  intros H. unfold retrieveMessageById. run_text. rewrite H. simpl.
  destruct (List.find _ ms); simpl; [reflexivity|].
  rewrite includes_append; [reflexivity|].
  apply includes_append. reflexivity.
Qed.

Lemma find_ext {A} (p q : A -> bool) l :
  (forall x, p x = q x) -> List.find p l = List.find q l.
Proof.
  intros H. induction l as [|x l IH]; simpl; [reflexivity|].
  rewrite (H x), IH. reflexivity.
Qed.

Lemma find_first_of_distinct {A} (key : A -> Z) l n x found :
  List.NoDup (map key l) -> In x l -> key x = n ->
  List.find (fun y => key y =? n) l = Some found -> found = x.
Proof.
  intros Hnd Hin Hk Hf.
  apply List.find_some in Hf. destruct Hf as [Hin' Hk'].
  apply Z.eqb_eq in Hk'.
  apply (NoDup_map_injective key l); auto. congruence.
Qed.

Lemma String_of_Z_inj a b : String_of_Z a = String_of_Z b -> a = b.
Proof.
  intros H. pose proof (StringToNumber_String_of_Z a) as Ha.
  rewrite H, StringToNumber_String_of_Z in Ha. congruence.
Qed.

(** C9. [msg.id == id] and [msg.sessionId == sessionId] coerce.  On a
    readable message list, a stored message with the id [n] makes the
    lookup by the number [n] and the lookup by the decimal text of [n]
    return the same message: the first stored message with the id [n],
    which is that message when ids are not repeated; when no stored message
    has the id, both throw the same "not found" error.  The session lookup
    by the number [k] returns, in stored order, the messages stored under
    the number [k] or under a text that reads as [k]; the lookup by the
    decimal text of [k] returns those stored under the number [k] or under
    that text: a message stored under either form of [k] is returned by
    both lookups, and the two results are the same list when session ids
    are stored as numbers or as the decimal texts of numbers. *)
Theorem lookups_coerce_ids (w : World Store) (ms : list Message) (n k : Z) :
  or_text (messages (storage w)) [] = Doc ms ->
  (forall msg, In msg ms -> id msg = n ->
     exists found,
       retrieveMessageById (IdNum n) w = (w, Returned found)
       /\ retrieveMessageById (IdStr (String_of_Z n)) w = (w, Returned found)
       /\ List.find (fun m => id m =? n) ms = Some found
       /\ In found ms /\ id found = n
       /\ (List.NoDup (map id ms) -> found = msg))
  /\ ((forall msg, In msg ms -> id msg <> n) ->
      retrieveMessageById (IdNum n) w
      = (w, Thrown (Error_ ("Message with id " +:+ String_of_Z n +:+ " not found")))
      /\ retrieveMessageById (IdStr (String_of_Z n)) w
         = (w, Thrown (Error_ ("Message with id " +:+ String_of_Z n +:+ " not found"))))
  /\ retrieveMessagesBySession (IdNum k) w
     = (w, Returned (List.filter (under_number k) ms))
  /\ retrieveMessagesBySession (IdStr (String_of_Z k)) w
     = (w, Returned (List.filter (under_text k) ms))
  /\ (forall msg,
        sessionId msg = IdNum k \/ sessionId msg = IdStr (String_of_Z k) ->
        under_number k msg = true /\ under_text k msg = true)
  /\ (forall msg, under_text k msg = true ->
        sessionId msg = IdNum k \/ sessionId msg = IdStr (String_of_Z k))
  /\ ((forall msg, In msg ms ->
          exists j, sessionId msg = IdNum j \/ sessionId msg = IdStr (String_of_Z j)) ->
      List.filter (under_text k) ms = List.filter (under_number k) ms).
Proof.
  intros Hms.
  assert (Hnum : List.find (fun msg => loose_eq (IdNum (id msg)) (IdNum n)) ms
                 = List.find (fun m => id m =? n) ms)
    by (apply find_ext; reflexivity).
  assert (Hstr : List.find (fun msg => loose_eq (IdNum (id msg)) (IdStr (String_of_Z n))) ms
                 = List.find (fun m => id m =? n) ms)
    by (apply find_ext; intros x; apply loose_eq_num_str).
  split; [|split; [|split; [|split; [|split; [|split]]]]].
  - intros msg Hin Hid.
    destruct (List.find (fun m => id m =? n) ms) as [found|] eqn:Hf.
    + exists found.
      rewrite (retrieveMessageById_runs w _ ms Hms), Hnum.
      rewrite (retrieveMessageById_runs w _ ms Hms), Hstr.
      split; [reflexivity|]. split; [reflexivity|]. split; [reflexivity|].
      pose proof (List.find_some _ _ Hf) as [Hin' Hk]. apply Z.eqb_eq in Hk.
      split; [exact Hin'|]. split; [exact Hk|].
      intros Hnd. apply (find_first_of_distinct id ms n msg found Hnd Hin Hid Hf).
    + pose proof (List.find_none _ _ Hf msg Hin) as Hn. cbv beta in Hn.
      rewrite Hid, Z.eqb_refl in Hn. discriminate.
  - intros Hnone.
    assert (Hf : List.find (fun m => id m =? n) ms = None).
    { destruct (List.find (fun m => id m =? n) ms) as [found|] eqn:Hf; [|reflexivity].
      pose proof (List.find_some _ _ Hf) as [Hin' Hk]. apply Z.eqb_eq in Hk.
      exfalso. exact (Hnone found Hin' Hk). }
    rewrite (retrieveMessageById_runs w _ ms Hms), Hnum, Hf.
    rewrite (retrieveMessageById_runs w _ ms Hms), Hstr, Hf.
    split; reflexivity.
  - rewrite (retrieveMessagesBySession_runs w _ ms Hms). reflexivity.
  - rewrite (retrieveMessagesBySession_runs w _ ms Hms).
    rewrite (List.filter_ext
               (fun msg => loose_eq (sessionId msg) (IdStr (String_of_Z k)))
               (under_text k)); [reflexivity|].
    intros m. unfold under_text.
    destruct (sessionId m) as [j|s]; [apply loose_eq_num_str|reflexivity].
  - intros msg [H|H]; unfold under_number, under_text; rewrite H.
    + rewrite Z.eqb_refl. split; reflexivity.
    + rewrite StringToNumber_String_of_Z, Z.eqb_refl, String.eqb_refl.
      split; reflexivity.
  - intros msg. unfold under_text. destruct (sessionId msg) as [j|s]; intros H.
    + left. apply Z.eqb_eq in H. congruence.
    + right. apply String.eqb_eq in H. congruence.
  - intros Hforms. apply filter_ext_in. intros m Hin.
    destruct (Hforms m Hin) as [j [H|H]]; unfold under_number, under_text; rewrite H.
    + reflexivity.
    + rewrite StringToNumber_String_of_Z.
      destruct (Z.eqb_spec j k) as [->|Hne].
      * apply String.eqb_refl.
      * apply String.eqb_neq. intros Heq. apply Hne, String_of_Z_inj, Heq.
Qed.

Lemma lookups_coerce_ids_witness :
  or_text (messages (storage (Hosts.start both_forms))) []
  = Doc [ stored_under 1 (IdNum 7); stored_under 2 (IdStr "7");
          stored_under 3 (IdNum 7); stored_under 4 (IdNum 8) ]
  /\ retrieveMessageById (IdNum 3) (Hosts.start both_forms)
     = (Hosts.start both_forms, Returned (stored_under 3 (IdNum 7)))
  /\ retrieveMessageById (IdStr "3") (Hosts.start both_forms)
     = (Hosts.start both_forms, Returned (stored_under 3 (IdNum 7)))
  /\ retrieveMessagesBySession (IdNum 7) (Hosts.start both_forms)
     = (Hosts.start both_forms,
        Returned [ stored_under 1 (IdNum 7); stored_under 2 (IdStr "7");
                   stored_under 3 (IdNum 7) ])
  /\ retrieveMessagesBySession (IdStr "7") (Hosts.start both_forms)
     = (Hosts.start both_forms,
        Returned [ stored_under 1 (IdNum 7); stored_under 2 (IdStr "7");
                   stored_under 3 (IdNum 7) ]).
Proof.
  split; [reflexivity|].
  destruct (lookups_coerce_ids (Hosts.start both_forms) _ 3 7 eq_refl)
    as (Hid & _ & HbyNum & HbyStr & _).
  destruct (Hid (stored_under 3 (IdNum 7))) as (found & E1 & E2 & _ & _ & _ & Hsame);
    [simpl; tauto|reflexivity|].
  assert (Hfound : found = stored_under 3 (IdNum 7)).
  { apply Hsame. simpl. repeat constructor; simpl; intuition discriminate. }
  subst found.
  split; [exact E1|]. split; [exact E2|].
  split; [exact HbyNum|]. exact HbyStr.
Defined.

(** *** The title *)

Lemma drop_chars_all (s : string) : drop_chars (String.length s) s = "".
Proof. induction s as [|c s IH]; simpl; auto. Qed.

Lemma single_line_tail c (s : string) :
  single_line (String c s) -> single_line s.
Proof.
  unfold single_line. simpl. destruct (isLineTerminator c); [discriminate|].
  intros H. injection H as H. exact H.
Qed.

Lemma single_line_drop k (s : string) :
  single_line s -> single_line (drop_chars k s).
Proof.
  revert s. induction k as [|k IH]; intros s H; [exact H|].
  destruct s as [|c s]; [exact H|]. simpl. apply IH.
  apply (single_line_tail c), H.
Qed.

(** On a text without line terminator the second group, when it matches,
    takes everything to the end. *)
Lemma second_group_single_line k (s : string) :
  single_line s ->
  second_group (drop_chars k s) = if boundary_at k s then Some "" else None.
Proof.
  intros H. unfold boundary_at, second_group.
  pose proof (single_line_drop k s H) as Hd.
  destruct (drop_chars k s) as [|c rest]; [reflexivity|].
  destruct (isWhiteSpace c); [|reflexivity].
  apply single_line_tail in Hd. unfold single_line in Hd.
  rewrite Hd, drop_chars_all. reflexivity.
Qed.

Lemma first_group_single_line (s : string) k : forall n,
  single_line s -> (1 <= k)%nat -> boundary_at k s = true ->
  (forall j, (k < j <= k + n)%nat -> boundary_at j s = false) ->
  first_group (k + n) s = Some (substring0 k s +:+ "").
Proof.
  induction n as [|n IH]; intros Hs Hk Hb Hj.
  - rewrite Nat.add_0_r. destruct k as [|k]; [lia|].
    cbn [first_group]. rewrite (second_group_single_line _ _ Hs), Hb. reflexivity.
  - rewrite Nat.add_succ_r. cbn [first_group].
    rewrite (second_group_single_line _ _ Hs), (Hj (S (k + n))) by lia.
    apply IH; auto. intros j Hlt. apply Hj. lia.
Qed.

(** On a content of one line, with a word boundary among its first 100
    characters, the title is the content cut at the last such boundary. *)
Lemma title_cut_at_last_word_boundary (content : string) (k : nat) :
  single_line content ->
  (1 <= k <= 100)%nat -> (k <= String.length content)%nat ->
  boundary_at k content = true ->
  (forall j, (k < j <= 100)%nat -> (j <= String.length content)%nat ->
             boundary_at j content = false) ->
  replace_title content = substring0 k content.
Proof.
  intros Hs Hk Hlen Hb Hj. unfold replace_title.
  rewrite Hs.
  replace (Nat.min (String.length content) 100)
    with (k + (Nat.min (String.length content) 100 - k))%nat by lia.
  rewrite (first_group_single_line content k); auto; [|lia|].
  - clear. generalize (substring0 k content). intros t.
    induction t as [|c t IH]; [reflexivity|].
    change (String c (t +:+ "") = String c t). f_equal. exact IH.
  - intros j Hlt. apply Hj; lia.
Qed.

(** A short content is its own title; without a last message, or without
    content in it, the title is "New Chat". *)
Lemma title_of_examples :
  replace_title "Please summarise the attached report" = "Please summarise the attached report"
  /\ title_of None = Returned "New Chat"
  /\ title_of (Some (JObj {[ "role" := JStr "user" ]})) = Returned "New Chat"
  /\ title_of (lastMessage {| r_messages := None; r_rest := ∅ |}) = Returned "New Chat"
  /\ title_of (lastMessage {| r_messages := Some []; r_rest := ∅ |}) = Returned "New Chat".
Proof. repeat split; reflexivity. Qed.

(** C3, at the inputs where the title is not the cut the claim describes.
    A content of several lines keeps what follows the line on which the
    match ends, and a content whose first 101 characters hold no white
    space is not matched at all: the whole content becomes the title, 101
    characters long here. *)
Theorem storeChat_title_not_truncated :
  replace_title three_lines = "hello" +:+ LF +:+ "foo"
  /\ replace_title long_word = long_word
  /\ String.length long_word = 101%nat
  /\ (exists w msg,
        storeChat Hosts.unlimited None (says three_lines) (JStr "hi")
          (Hosts.start seeded) = (w, Returned msg)
        /\ sessions (storage w)
           = Some (Doc [{| s_id := 1; s_title := "hello" +:+ LF +:+ "foo" |}]))
  /\ (exists w msg,
        storeChat Hosts.unlimited None (says long_word) (JStr "hi")
          (Hosts.start seeded) = (w, Returned msg)
        /\ sessions (storage w)
           = Some (Doc [{| s_id := 1; s_title := long_word |}])).
Proof.
  split; [reflexivity|]. split; [reflexivity|]. split; [reflexivity|].
  split; eexists _, _; split; vm_compute; reflexivity.
Qed.
End MessageStorageFacts.

(** ** BrowserCheckpointService: the recency index *)

Module CheckpointFacts.
Import JS Runtime CheckpointService CheckpointSpec JSFacts.

Ltac run :=
  unfold bind, ret, throw, try_catch, getItem, setItem, removeItem,
    JSON_parse_or, Date_now; simpl.

Lemma _getCheckpoints_runs (sid : Id) (w : World Store) :
  _getCheckpoints sid w = (w, Returned (stored_checkpoints (storage w) sid)).
Proof.
  unfold _getCheckpoints, _getStorageKey, stored_checkpoints. run.
  destruct (falsy sid); simpl; [reflexivity|].
  destruct (storage w !! String_of_Id sid) as [[| |l]|]; reflexivity.
Qed.

Lemma stored_checkpoints_insert (s : Store) (sid : Id) l :
  falsy sid = false ->
  stored_checkpoints (<[String_of_Id sid := Doc l]> s) sid = l.
Proof.
  intros Hs. unfold stored_checkpoints. rewrite Hs, lookup_insert_eq. reflexivity.
Qed.

Lemma _saveCheckpoints_runs (env : Env Store) (sid : Id) l (w : World Store) :
  falsy sid = false ->
  _saveCheckpoints env sid l w
  = (Hosts.written env (fun s : Store => <[String_of_Id sid := Doc l]> s) w,
     Returned tt).
Proof.
  intros Hs. unfold _saveCheckpoints, _getStorageKey, Hosts.written. run.
  rewrite Hs. simpl. destruct (fits env _); reflexivity.
Qed.

Lemma createCheckpoint_runs (env : Env Store) label msg (sid : Id) (w : World Store) :
  falsy sid = false -> truthy msg = true ->
  let now := clock env (ticks w) in
  let new :=
    {| id := String_of_Z now;
       label := if String.eqb label "" then "Checkpoint @ " +:+ toISOString env now
                else label;
       messageId := prop msg "id";
       currentMessage := msg;
       timestamp := now;
       createdAt := now |} in
  createCheckpoint env label msg sid w
  = (Hosts.written env
       (fun s : Store =>
          <[String_of_Id sid := Doc (stored_checkpoints (storage w) sid ++ [new])]> s)
       (Hosts.tick w),
     Returned new).
Proof.
  intros Hs Hm now new. unfold createCheckpoint. rewrite Hs, Hm. simpl.
  unfold bind at 1. rewrite _getCheckpoints_runs.
  unfold bind at 1, Date_now at 1. unfold bind at 1.
  rewrite _saveCheckpoints_runs by exact Hs. reflexivity.
Qed.

Lemma retrieveCheckpoint_0_runs (sid : Id) (w : World Store) :
  falsy sid = false ->
  retrieveCheckpoint (IdNum 0) sid w
  = (w, Returned (head (sort newest_first (stored_checkpoints (storage w) sid)))).
Proof.
  intros Hs. unfold retrieveCheckpoint. rewrite Hs.
  unfold bind. rewrite _getCheckpoints_runs. unfold ret, at_index. simpl.
  destruct (sort _ _); reflexivity.
Qed.

(** The checkpoint at index 0. *)
Lemma newest_head cps :
  cps <> [] ->
  exists cp l1 l2,
    head (sort newest_first cps) = Some cp
    /\ cps = l1 ++ cp :: l2
    /\ (forall x, In x l1 -> timestamp x < timestamp cp)
    /\ (forall x, In x l2 -> timestamp x <= timestamp cp).
Proof. apply (sort_desc_head timestamp). Qed.

Lemma newest_head_perm cps cps' cp :
  Permutation cps cps' -> List.NoDup (map timestamp cps) ->
  head (sort newest_first cps) = Some cp ->
  head (sort newest_first cps') = Some cp.
Proof.
  intros Hp Hnd Hh.
  assert (Hne : cps <> []) by (intros ->; discriminate).
  assert (Hne' : cps' <> []).
  { intros ->. apply Permutation_sym, Permutation_nil in Hp. contradiction. }
  destruct (newest_head cps Hne) as (c & l1 & l2 & Hc & Hl & H1 & H2).
  destruct (newest_head cps' Hne') as (c' & l1' & l2' & Hc' & Hl' & H1' & H2').
  rewrite Hc in Hh. injection Hh as ->. rewrite Hc'. f_equal.
  assert (Hin : In cp cps) by (rewrite Hl; apply in_elt).
  assert (Hin' : In c' cps').
  { rewrite Hl'; apply in_elt. }
  assert (Hin2 : In c' cps) by (apply (Permutation_in _ (Permutation_sym Hp)), Hin').
  assert (Hin3 : In cp cps') by (apply (Permutation_in _ Hp), Hin).
  apply (NoDup_map_injective timestamp cps); auto.
  assert (timestamp c' <= timestamp cp).
  { rewrite Hl in Hin2. apply in_app_or in Hin2.
    destruct Hin2 as [H|[<-|H]]; [specialize (H1 _ H)|..|specialize (H2 _ H)]; lia. }
  assert (timestamp cp <= timestamp c').
  { rewrite Hl' in Hin3. apply in_app_or in Hin3.
    destruct Hin3 as [H'|[<-|H']]; [specialize (H1' _ H')|..|specialize (H2' _ H')]; lia. }
  lia.
Qed.

Lemma newest_head_last l c :
  (forall x, In x l -> timestamp x < timestamp c) ->
  head (sort newest_first (l ++ [c])) = Some c.
Proof.
  intros Hlt.
  destruct (newest_head (l ++ [c])) as (cp & l1 & l2 & Hc & Hl & H1 & H2).
  { destruct l; discriminate. }
  rewrite Hc. f_equal.
  assert (Hin : In cp (l ++ [c])) by (rewrite Hl; apply in_elt).
  apply in_app_or in Hin. destruct Hin as [Hin|[<-|[]]]; [|reflexivity].
  assert (Hc' : In c (l1 ++ cp :: l2)) by (rewrite <- Hl; apply in_or_app; right; left; reflexivity).
  specialize (Hlt _ Hin).
  apply in_app_or in Hc'. destruct Hc' as [H|[->|H]];
    [specialize (H1 _ H)|..|specialize (H2 _ H)]; lia.
Qed.

(** C2, as the code has it.  For a session with a stored list that is not
    empty, [retrieveCheckpoint(0, sessionId)] returns the first, in the
    order of the stored list, of the checkpoints with the greatest
    timestamp.  When the timestamps of the list are pairwise distinct, any
    reordering of the stored list gives the same checkpoint; and a
    checkpoint created at a clock reading past every stored timestamp is
    the one returned right after. *)
Theorem retrieveCheckpoint_0_greatest_timestamp (w : World Store) (sid : Id) :
  falsy sid = false ->
  stored_checkpoints (storage w) sid <> [] ->
  exists cp l1 l2,
    retrieveCheckpoint (IdNum 0) sid w = (w, Returned (Some cp))
    /\ stored_checkpoints (storage w) sid = l1 ++ cp :: l2
    /\ (forall x, In x l1 -> timestamp x < timestamp cp)
    /\ (forall x, In x l2 -> timestamp x <= timestamp cp)
    /\ (forall w' : World Store,
          List.NoDup (map timestamp (stored_checkpoints (storage w) sid)) ->
          Permutation (stored_checkpoints (storage w) sid)
                      (stored_checkpoints (storage w') sid) ->
          retrieveCheckpoint (IdNum 0) sid w' = (w', Returned (Some cp)))
    /\ (forall (env : Env Store) label msg,
          (forall s, fits env s = true) -> truthy msg = true ->
          (forall x, In x (stored_checkpoints (storage w) sid) ->
                     timestamp x < clock env (ticks w)) ->
          exists w1 new,
            createCheckpoint env label msg sid w = (w1, Returned new)
            /\ retrieveCheckpoint (IdNum 0) sid w1 = (w1, Returned (Some new))).
Proof.
  intros Hs Hne.
  destruct (newest_head _ Hne) as (cp & l1 & l2 & Hc & Hl & H1 & H2).
  exists cp, l1, l2. rewrite (retrieveCheckpoint_0_runs sid w Hs), Hc.
  split; [reflexivity|]. split; [exact Hl|]. split; [exact H1|]. split; [exact H2|].
  split.
  - intros w' Hnd Hp. rewrite (retrieveCheckpoint_0_runs sid w' Hs).
    rewrite (newest_head_perm _ _ cp Hp Hnd Hc). reflexivity.
  - intros env label msg accepts Hm Hlt.
    rewrite (createCheckpoint_runs env label msg sid w Hs Hm).
    eexists _, _. split; [reflexivity|].
    rewrite (retrieveCheckpoint_0_runs _ _ Hs).
    unfold Hosts.written. rewrite accepts. simpl.
    rewrite (stored_checkpoints_insert _ _ _ Hs).
    rewrite newest_head_last; [reflexivity|]. exact Hlt.
Qed.

Lemma retrieveCheckpoint_0_greatest_timestamp_witness :
  falsy (IdStr "s") = false
  /\ stored_checkpoints (storage (two_created Hosts.unlimited)) (IdStr "s") <> []
  /\ exists cp,
       retrieveCheckpoint (IdNum 0) (IdStr "s") (two_created Hosts.unlimited)
       = (two_created Hosts.unlimited, Returned (Some cp))
       /\ label cp = "second".
Proof.
  split; [reflexivity|]. split; [discriminate|].
  destruct (retrieveCheckpoint_0_greatest_timestamp (two_created Hosts.unlimited)
              (IdStr "s") eq_refl)
    as (cp & l1 & l2 & E & _); [discriminate|].
  exists cp. split; [exact E|].
  vm_compute in E. injection E as <-. reflexivity.
Defined.

(** C2, the claim as stated fails: of two checkpoints created within the
    same millisecond, index 0 gives the one created first, the stable sort
    leaving equal timestamps in the order of the stored list. *)
Lemma retrieveCheckpoint_0_same_millisecond :
  exists first second,
    stored_checkpoints (storage (two_created Hosts.same_millisecond)) (IdStr "s")
    = [first; second]
    /\ label first = "first" /\ label second = "second"
    /\ timestamp first = timestamp second
    /\ retrieveCheckpoint (IdNum 0) (IdStr "s") (two_created Hosts.same_millisecond)
       = (two_created Hosts.same_millisecond, Returned (Some first))
    /\ first <> second.
Proof.
  eexists _, _. split; [vm_compute; reflexivity|].
  split; [reflexivity|]. split; [reflexivity|]. split; [reflexivity|].
  split; [vm_compute; reflexivity|]. discriminate.
Qed.
End CheckpointFacts.

(** ** BrowserChatHistoryService: messages, preview and search *)

Module HistoryFacts.
Import JS Runtime HistoryService HistorySpec JSFacts.

Ltac run :=
  unfold bind, ret, throw, try_catch, getItem, setItem, removeItem,
    JSON_parse_or, Date_now; simpl.

Lemma _getSessionsList_runs (w : World Store) :
  _getSessionsList w = (w, Returned (stored_sessions (storage w))).
Proof.
  unfold _getSessionsList, stored_sessions. run.
  destruct (sessionsList (storage w)) as [[| |l]|]; reflexivity.
Qed.

Lemma _saveSessionsList_runs (env : Env Store) l (w : World Store) :
  _saveSessionsList env l w
  = (Hosts.written env (sessionsListKey (Some (Doc l))) w, Returned tt).
Proof.
  unfold _saveSessionsList, Hosts.written. run. destruct (fits env _); reflexivity.
Qed.

Lemma _getMessages_runs (sid : Id) (w : World Store) :
  _getMessages sid w = (w, Returned (stored_log (storage w) sid)).
Proof.
  unfold _getMessages, _getSessionKey, stored_log. run.
  destruct (falsy sid); simpl; [reflexivity|].
  destruct (history (storage w) !! String_of_Id sid) as [[| |l]|]; reflexivity.
Qed.

Lemma _saveMessages_runs (env : Env Store) (sid : Id) l (w : World Store) :
  falsy sid = false ->
  _saveMessages env sid l w
  = (Hosts.written env (historyKey (String_of_Id sid) (Some (Doc l))) w, Returned tt).
Proof.
  intros Hs. unfold _saveMessages, _getSessionKey, Hosts.written. run.
  rewrite Hs. simpl. destruct (fits env _); reflexivity.
Qed.

Lemma _updateSessionMetadata_runs (env : Env Store) (sid : Id) v (w : World Store) :
  _updateSessionMetadata env sid v w
  = match findIndex (fun s => strict_eq (IdStr (id s)) sid)
            (stored_sessions (storage w)) with
    | Some (i, session) =>
        (Hosts.written env
           (sessionsListKey
              (Some (Doc (<[i := touched session (clock env (ticks w)) v]>
                            (stored_sessions (storage w))))))
           (Hosts.tick w),
         Returned tt)
    | None => (w, Returned tt)
    end.
Proof.
  unfold _updateSessionMetadata. unfold bind at 1. rewrite _getSessionsList_runs.
  destruct (findIndex _ _) as [[i session]|]; [|reflexivity].
  unfold bind, Date_now. rewrite _saveSessionsList_runs. reflexivity.
Qed.

Lemma written_history_sessions (env : Env Store) l (w : World Store) :
  history (storage (Hosts.written env (sessionsListKey l) w)) = history (storage w).
Proof. unfold Hosts.written. destruct (fits env _); reflexivity. Qed.

Lemma written_sessions_history (env : Env Store) k l (w : World Store) :
  stored_sessions (storage (Hosts.written env (historyKey k l) w))
  = stored_sessions (storage w).
Proof. unfold Hosts.written. destruct (fits env _); reflexivity. Qed.

Lemma _updateSessionMetadata_history (env : Env Store) (sid : Id) v (w : World Store) :
  exists w', _updateSessionMetadata env sid v w = (w', Returned tt)
             /\ history (storage w') = history (storage w).
Proof.
  rewrite _updateSessionMetadata_runs.
  destruct (findIndex _ _) as [[i session]|]; eexists; (split; [reflexivity|]).
  - rewrite written_history_sessions. reflexivity.
  - reflexivity.
Qed.

(** A default is computed from the clock and leaves the store alone. *)
Lemma or_default_runs (env : Env Store) v (g : Z -> JSON) (w : World Store) :
  exists w1 x,
    or_default v (now <- Date_now env ;; ret (g now)) w = (w1, Returned x)
    /\ storage w1 = storage w.
Proof.
  unfold or_default. destruct (or_else v None); run; eexists _, _; split; reflexivity.
Qed.

(** [addMessage] on an object, step by step. *)
Lemma addMessage_runs (env : Env Store) (sid : Id) (o : Obj) (w : World Store) :
  falsy sid = false ->
  exists w1 id_ timestamp createdAt_,
    storage w1 = storage w
    /\ addMessage env sid (JObj o) w
       = (fst (_updateSessionMetadata env sid (or_else (o !! "content") (o !! "text"))
                 (Hosts.written env
                    (historyKey (String_of_Id sid)
                       (Some (Doc (stored_log (storage w) sid
                                   ++ [record_of o id_ timestamp createdAt_ sid]))))
                    w1)),
          Returned (record_of o id_ timestamp createdAt_ sid)).
Proof.
  intros Hs. unfold addMessage. rewrite Hs. simpl.
  unfold bind at 1. rewrite _getMessages_runs.
  destruct (or_default_runs env (o !! "id") (fun now => JStr (String_of_Z now)) w)
    as (w1 & x1 & E1 & S1).
  unfold bind at 1. rewrite E1.
  destruct (or_default_runs env (o !! "timestamp") JNum w1) as (w2 & x2 & E2 & S2).
  unfold bind at 1. rewrite E2.
  destruct (or_default_runs env (o !! "createdAt") JNum w2) as (w3 & x3 & E3 & S3).
  unfold bind at 1. rewrite E3.
  exists w3, x1, x2, x3. split; [congruence|].
  fold (record_of o x1 x2 x3 sid).
  unfold bind at 1. rewrite (_saveMessages_runs env sid _ w3 Hs).
  unfold bind at 1.
  destruct (_updateSessionMetadata_history env sid
              (or_else (o !! "content") (o !! "text"))
              (Hosts.written env
                 (historyKey (String_of_Id sid)
                    (Some (Doc (stored_log (storage w) sid
                                ++ [record_of o x1 x2 x3 sid])))) w3))
    as (w' & E' & _).
  rewrite E'. reflexivity.
Qed.

(** C8. In [addMessage] the caller's fields win over the generated ones:
    every field the message carries, [sessionId], [id], [timestamp] and
    [createdAt] among them, is in the stored record with the caller's
    value, whatever that value; the [sessionId] parameter shows in the
    record only when the message has no such field, while the record is
    appended to the log kept under the parameter. *)
Theorem addMessage_caller_fields_win (env : Env Store) (sid : Id) (o : Obj)
    (w : World Store) :
  falsy sid = false ->
  exists w' r,
    addMessage env sid (JObj o) w = (w', Returned r)
    /\ (forall k v, o !! k = Some v -> r !! k = Some v)
    /\ (o !! "sessionId" = None -> r !! "sessionId" = Some (JSON_of_Id sid))
    /\ ((forall s, fits env s = true) ->
        stored_log (storage w') sid = stored_log (storage w) sid ++ [r]).
Proof.
  intros Hs.
  destruct (addMessage_runs env sid o w Hs) as (w1 & x1 & x2 & x3 & S1 & E).
  rewrite E. eexists _, _. split; [reflexivity|].
  split; [|split].
  - intros k v Hk. apply lookup_union_Some_l, Hk.
  - intros Hn. unfold record_of. rewrite lookup_union_r by exact Hn.
    repeat (rewrite lookup_insert_ne by discriminate).
    apply lookup_singleton_eq.
  - intros accepts.
    match goal with
    | |- context [_updateSessionMetadata env sid ?v ?w0] =>
        destruct (_updateSessionMetadata_history env sid v w0) as (w' & E' & Hh)
    end.
    rewrite E'. simpl. unfold stored_log. rewrite Hs, Hh.
    unfold Hosts.written. rewrite accepts. simpl.
    rewrite lookup_insert_eq. unfold stored_log. rewrite Hs. reflexivity.
Qed.

Lemma addMessage_caller_fields_win_witness :
  falsy the_session = false
  /\ exists w' r,
       addMessage Hosts.unlimited the_session
         (JObj {[ "content" := JStr "Hello"; "sessionId" := JStr "other";
                  "id" := JNum 0 ]}) one_session
       = (w', Returned r)
       /\ r !! "sessionId" = Some (JStr "other")
       /\ r !! "id" = Some (JNum 0)
       /\ stored_log (storage w') the_session = [r].
Proof.
  split; [reflexivity|].
  destruct (addMessage_caller_fields_win Hosts.unlimited the_session
              {[ "content" := JStr "Hello"; "sessionId" := JStr "other";
                 "id" := JNum 0 ]} one_session eq_refl)
    as (w' & r & E & Hk & _ & Hl).
  exists w', r. split; [exact E|].
  split; [apply Hk; reflexivity|]. split; [apply Hk; reflexivity|].
  apply (Hl (fun _ => eq_refl)).
Defined.

Lemma substring0_length n s :
  String.length (substring0 n s) = Nat.min n (String.length s).
Proof.
  unfold substring0. revert s. induction n as [|n IH]; intros s.
  - destruct s; reflexivity.
  - destruct s as [|c s]; simpl; [reflexivity|]. rewrite IH. reflexivity.
Qed.

Lemma append_empty_r (s : string) : s +:+ "" = s.
Proof.
  induction s as [|c s IH]; [reflexivity|].
  change (String c (s +:+ "") = String c s). f_equal. exact IH.
Qed.

(** The ellipsis is appended as soon as the text has 50 characters. *)
Lemma previewText_touched session now v :
  previewText (touched session now v)
  = substring0 50 (last_text v)
    +:+ (if (50 <=? String.length (last_text v))%nat then "..." else "").
Proof.
  unfold touched. cbn [previewText]. rewrite substring0_length.
  destruct (Nat.leb_spec 50 (String.length (last_text v))) as [H|H].
  - rewrite Nat.min_l by exact H. rewrite Nat.eqb_refl. reflexivity.
  - rewrite Nat.min_r by lia.
    destruct (Nat.eqb_spec (String.length (last_text v)) 50) as [E|_]; [lia|].
    symmetry. apply append_empty_r.
Qed.

Lemma findIndex_lookup {A} (p : A -> bool) l i x :
  findIndex p l = Some (i, x) -> l !! i = Some x.
Proof.
  revert i. induction l as [|y l IH]; intros i; simpl; [discriminate|].
  destruct (p y).
  - intros H. injection H as <- <-. reflexivity.
  - destruct (findIndex p l) as [[j z]|]; [|discriminate].
    intros H. injection H as <- <-. simpl. apply IH. reflexivity.
Qed.

(** C4, what the code stores.  After [addMessage] on a session of the
    list, with every write accepted, the session's [previewText] is the
    first 50 characters of the text of the message's [content] (or [text])
    followed by an ellipsis if and only if that text has 50 characters or
    more: a text of exactly 50 characters, which is not cut, gets the
    ellipsis too. *)
Theorem addMessage_previewText (env : Env Store) (sid : Id) (o : Obj)
    (w : World Store) (i : nat) (session : Session) :
  (forall s, fits env s = true) ->
  falsy sid = false ->
  findIndex (fun s => strict_eq (IdStr (id s)) sid) (stored_sessions (storage w))
    = Some (i, session) ->
  exists w' r session',
    addMessage env sid (JObj o) w = (w', Returned r)
    /\ stored_sessions (storage w') !! i = Some session'
    /\ id session' = id session
    /\ previewText session'
       = let text := last_text (or_else (o !! "content") (o !! "text")) in
         substring0 50 text
         +:+ (if (50 <=? String.length text)%nat then "..." else "").
Proof.
  intros accepts Hs Hf.
  destruct (addMessage_runs env sid o w Hs) as (w1 & x1 & x2 & x3 & S1 & E).
  rewrite E, _updateSessionMetadata_runs.
  rewrite written_sessions_history, S1, Hf.
  eexists _, _, _. split; [reflexivity|]. simpl.
  unfold Hosts.written at 1. rewrite accepts. simpl.
  split; [|split].
  - unfold stored_sessions at 1. simpl. apply list_lookup_insert_eq.
    apply lookup_lt_Some with session. apply (findIndex_lookup _ _ _ _ Hf).
  - reflexivity.
  - apply previewText_touched.
Qed.

Lemma addMessage_previewText_witness :
  (forall s : Store, fits Hosts.unlimited s = true)
  /\ falsy the_session = false
  /\ (exists session,
        findIndex (fun s => strict_eq (IdStr (id s)) the_session)
          (stored_sessions (storage one_session)) = Some (O, session))
  /\ String.length fifty = 50%nat
  /\ exists w' r session',
       addMessage Hosts.unlimited the_session
         (JObj {[ "role" := JStr "user"; "content" := JStr fifty ]}) one_session
       = (w', Returned r)
       /\ stored_sessions (storage w') !! O = Some session'
       /\ previewText session' = fifty +:+ "...".
Proof.
  split; [reflexivity|]. split; [reflexivity|].
  split; [eexists; reflexivity|]. split; [reflexivity|].
  destruct (addMessage_previewText Hosts.unlimited the_session
              {[ "role" := JStr "user"; "content" := JStr fifty ]} one_session
              O _ (fun _ => eq_refl) eq_refl eq_refl)
    as (w' & r & session' & E & Hl & _ & Hp).
  exists w', r, session'. split; [exact E|]. split; [exact Hl|]. exact Hp.
Defined.

(** *** Search *)









Lemma StronglySorted_weaken {A} (R R' : A -> A -> Prop) l :
  (forall a b, In a l -> In b l -> R a b -> R' a b) ->
  StronglySorted R l -> StronglySorted R' l.
Proof.
  intros HR. induction 1 as [|x l Hs IH Hx]; constructor.
  - apply IH. intros a b Ha Hb. apply HR; right; assumption.
  - apply List.Forall_forall. intros y Hy. rewrite List.Forall_forall in Hx.
    apply HR; [left; reflexivity|right; exact Hy|apply Hx, Hy].
Qed.

(** With numeric sort keys the comparator of the source sorts by key,
    greatest first. *)
Lemma sort_newest_first_sorted (l : list Obj) :
  (forall m, In m l -> exists k, sort_key m = Some k) ->
  StronglySorted not_older (sort newest_first l).
Proof.
  intros Hk.
  rewrite (sort_ext newest_first
             (fun a b => default 0 (sort_key b) - default 0 (sort_key a) <=? 0)).
  - eapply StronglySorted_weaken;
      [|apply (sort_desc_sorted (fun m => default 0 (sort_key m)))].
    intros a b Ha Hb H. apply sort_In in Ha, Hb.
    destruct (Hk a Ha) as [ka Hka], (Hk b Hb) as [kb Hkb].
    exists ka, kb. cbv beta in H. rewrite Hka, Hkb in H. simpl in H. auto.
  - intros a b Ha Hb. unfold newest_first.
    destruct (Hk a Ha) as [ka ->], (Hk b Hb) as [kb ->]. reflexivity.
Qed.






End HistoryFacts.

(** ** Failed writes and failed reads, service by service *)

Module AgentStateFacts.
Import JS Runtime AgentStateStorage AgentStateSpec.

Ltac run :=
  unfold bind, ret, throw, try_catch, getItem, setItem, removeItem,
    JSON_parse_or, Date_now; simpl.

Lemma _getAllCheckpoints_runs (w : World Store) :
  _getAllCheckpoints w = (w, Returned (stored_checkpoints (storage w))).
Proof.
  unfold _getAllCheckpoints, stored_checkpoints. run.
  destruct (storage w) as [[| |l]|]; reflexivity.
Qed.

Lemma _saveAllCheckpoints_runs (env : Env Store) l (w : World Store) :
  _saveAllCheckpoints env l w
  = (Hosts.written env (fun _ : Store => Some (Doc l)) w, Returned tt).
Proof.
  unfold _saveAllCheckpoints, Hosts.written. run. destruct (fits env _); reflexivity.
Qed.

End AgentStateFacts.

Module WriteFailureFacts.
Import JS Runtime.

Ltac run :=
  unfold bind, ret, throw, try_catch, getItem, setItem, removeItem,
    JSON_parse_or, Date_now; simpl.

Ltac run_text :=
  rewrite ?RuntimeFacts.JSON_parse_or_text;
  unfold bind, ret, throw, try_catch, getItem, setItem, removeItem, Date_now;
  simpl; rewrite ?RuntimeFacts.JSON_parse_or_text.

Lemma written_rejected {S} (env : Env S) (write : S -> S) (w : World S) :
  (forall s, fits env s = false) -> Hosts.written env write w = w.
Proof. intros H. unfold Hosts.written. rewrite H. reflexivity. Qed.

Lemma written_ticks {S} (env : Env S) (write : S -> S) (w : World S) :
  ticks (Hosts.written env write w) = ticks w.
Proof. unfold Hosts.written. destruct (fits env _); reflexivity. Qed.


Section MessageStoreFull.
Import MessageStorage MessageStorageSpec.
Context (env : Env Store).
Hypothesis rejects : forall s, fits env s = false.






End MessageStoreFull.

(** The readers of BrowserChatMessageStorage on a text that is not JSON. *)
Section MessageStoreUnreadable.
Import MessageStorage MessageStorageSpec.




End MessageStoreUnreadable.

(** *** BrowserChatHistoryService *)

Section HistoryOutcomes.
Import HistoryService HistorySpec.
Context (env : Env Store).


Lemma _saveMessages_returns sid l (w : World Store) :
  exists w', _saveMessages env sid l w = (w', Returned tt)
             /\ ticks w' = ticks w.
Proof.
  unfold _saveMessages, _getSessionKey. run.
  destruct (falsy sid); simpl; [eexists; split; reflexivity|].
  destruct (fits env _); eexists; split; reflexivity.
Qed.

Lemma _updateSessionMetadata_returns sid v (w : World Store) :
  exists w', _updateSessionMetadata env sid v w = (w', Returned tt).
Proof.
  rewrite HistoryFacts._updateSessionMetadata_runs.
  destruct (findIndex _ _) as [[i session]|]; eexists; reflexivity.
Qed.





End HistoryOutcomes.

Section HistoryFull.
Import HistoryService HistorySpec.
Context (env : Env Store).
Hypothesis rejects : forall s, fits env s = false.








End HistoryFull.

(** *** BrowserCheckpointService *)

Section CheckpointsFull.
Import CheckpointService CheckpointSpec.



Context (env : Env Store).
Hypothesis rejects : forall s, fits env s = false.


End CheckpointsFull.

(** *** BrowserAgentStateStorage *)

Section AgentStateFull.
Import AgentStateStorage AgentStateSpec.



Context (env : Env Store).
Hypothesis rejects : forall s, fits env s = false.



Lemma clearAllCheckpoints_agent_rejected (w : World Store) :
  clearAllCheckpoints env w = (w, Returned tt).
Proof.
  unfold clearAllCheckpoints. rewrite AgentStateFacts._saveAllCheckpoints_runs.
  rewrite written_rejected by exact rejects. reflexivity.
Qed.
End AgentStateFull.





End WriteFailureFacts.

(** ** BrowserChatMessageStorage: construction, storing and retrieval *)

Module MessageStorageMoreFacts.
Import JS Runtime MessageStorage MessageStorageSpec MessageStorageMoreSpec JSFacts.

Ltac run :=
  unfold bind, ret, throw, try_catch, getItem, setItem, removeItem,
    JSON_parse_or, Date_now; simpl.

(** X1. The constructor writes the default under a key that is missing or
    empty and under no other: with every write accepted each of the three
    keys holds what it held, or its default; and on a store whose three
    keys hold a text, parseable or not, the constructor writes nothing,
    whatever the quota. *)
Theorem constructor_seeds_missing_keys_only (env : Env Store) (w : World Store) :
  ((forall s, fits env s = true) ->
   constructor env w
   = ({| storage :=
           {| sessions := seed (sessions (storage w)) [];
              messages := seed (messages (storage w)) [];
              counters := seed (counters (storage w))
                            {| c_sessionId := Some 1; c_messageId := Some 1 |} |};
         ticks := ticks w |}, Returned tt))
  /\ (blank (sessions (storage w)) = false ->
      blank (messages (storage w)) = false ->
      blank (counters (storage w)) = false ->
      constructor env w = (w, Returned tt)).
Proof.
  destruct w as [[ss ms cs] t]. unfold constructor, initializeStorage, seed. split.
  - intros accepts. run.
    destruct (blank ss); simpl; rewrite ?accepts; simpl;
      destruct (blank ms); simpl; rewrite ?accepts; simpl;
      destruct (blank cs); simpl; rewrite ?accepts; reflexivity.
  - simpl. intros Hs Hm Hc. run. rewrite Hs. simpl. rewrite Hm. simpl.
    rewrite Hc. reflexivity.
Qed.

Lemma constructor_seeds_missing_keys_only_witness :
  (forall s : Store, fits Hosts.unlimited s = true)
  /\ constructor Hosts.unlimited (Hosts.start counters_lost)
     = (Hosts.start
          {| sessions := sessions counters_lost;
             messages := messages counters_lost;
             counters := Some (Doc {| c_sessionId := Some 1; c_messageId := Some 1 |}) |},
        Returned tt)
  /\ blank (sessions both_forms) = false
  /\ blank (messages both_forms) = false
  /\ blank (counters both_forms) = false
  /\ constructor Hosts.full (Hosts.start both_forms)
     = (Hosts.start both_forms, Returned tt).
Proof.
  destruct (constructor_seeds_missing_keys_only Hosts.unlimited
              (Hosts.start counters_lost)) as [H _].
  destruct (constructor_seeds_missing_keys_only Hosts.full
              (Hosts.start both_forms)) as [_ H'].
  split; [reflexivity|]. split; [exact (H (fun _ => eq_refl))|].
  split; [reflexivity|]. split; [reflexivity|]. split; [reflexivity|].
  exact (H' eq_refl eq_refl eq_refl).
Defined.

(** *** Storing on a store that issued its ids *)

Lemma ids_range n x : In x (ids n) -> 1 <= x <= Z.of_nat n.
Proof.
  unfold ids. rewrite in_map_iff. intros (k & <- & Hk).
  apply in_seq in Hk. lia.
Qed.

Lemma find_last {A} (p : A -> bool) l x :
  (forall y, In y l -> p y = false) -> p x = true ->
  List.find p (l ++ [x]) = Some x.
Proof.
  induction l as [|y l IH]; intros Hl Hx; simpl.
  - rewrite Hx. reflexivity.
  - rewrite (Hl y (or_introl eq_refl)). apply IH; [|exact Hx].
    intros z Hz. apply Hl. right; exact Hz.
Qed.

Section Issued.
Context (env : Env Store).
Hypothesis accepts : forall s, fits env s = true.

(** [storeSession] on such a store, in full. *)
Lemma storeSession_explicit (w : World Store) n m ss title :
  issued (storage w) n m -> sessions (storage w) = Some (Doc ss) ->
  storeSession env title w
  = ({| storage :=
          sessionsKey
            (Some (Doc (ss ++ [{| s_id := Z.of_nat n + 1; s_title := title |}])))
            (countersKey
               (Some (Doc {| c_sessionId := Some (Z.of_nat n + 1 + 1);
                             c_messageId := Some (Z.of_nat m + 1) |}))
               (storage w));
        ticks := ticks w |},
     Returned {| s_id := Z.of_nat n + 1; s_title := title |}).
Proof.
  intros (ss' & ms & Hs & Hm & Hsi & Hmi & Hc) Hss.
  unfold storeSession. unfold bind at 1. unfold getItem at 1. rewrite Hss. simpl.
  unfold bind at 1. unfold ret at 1. unfold bind at 1.
  rewrite (MessageStorageFacts.getNextId_intact env accepts w sessionId_t _
             (Z.of_nat n + 1) Hc eq_refl) by lia.
  run. rewrite accepts. reflexivity.
Qed.

(** The second half of [storeChat] on such a store, in full. *)
Lemma appendMessage_explicit (w : World Store) n m ms cm rq rs sid :
  issued (storage w) n m -> messages (storage w) = Some (Doc ms) ->
  let msg :=
    {| id := Z.of_nat m + 1; sessionId := sid;
       previousMessageId := previous_of cm;
       request := rq; response := rs;
       cumulativeInputLength := 0;
       updatedAt := clock env (ticks w) |} in
  appendMessage env cm rq rs sid w
  = ({| storage :=
          messagesKey (Some (Doc (ms ++ [msg])))
            (countersKey
               (Some (Doc {| c_sessionId := Some (Z.of_nat n + 1);
                             c_messageId := Some (Z.of_nat m + 1 + 1) |}))
               (storage w));
        ticks := Datatypes.S (ticks w) |},
     Returned msg).
Proof.
  intros (ss & ms' & Hs & Hm & Hsi & Hmi & Hc) Hms msg.
  unfold appendMessage. unfold bind at 1. unfold getItem at 1. rewrite Hms. simpl.
  unfold bind at 1. unfold ret at 1. unfold bind at 1.
  rewrite (MessageStorageFacts.getNextId_intact env accepts w messageId_t _
             (Z.of_nat m + 1) Hc eq_refl) by lia.
  run. rewrite accepts. reflexivity.
Qed.

(** What a successful [storeChat] returned and left, on such a store. *)
Lemma storeChat_returned (w w' : World Store) n m cm rq rs msg :
  issued (storage w) n m ->
  storeChat env cm rq rs w = (w', Returned msg) ->
  exists ms,
    messages (storage w) = Some (Doc ms)
    /\ messages (storage w') = Some (Doc (ms ++ [msg]))
    /\ map id ms = ids m
    /\ id msg = Z.of_nat m + 1
    /\ previousMessageId msg = previous_of cm
    /\ request msg = rq /\ response msg = rs.
Proof.
  intros Hi E. pose proof Hi as (ss & ms & Hs & Hm & Hsi & Hmi & Hc).
  exists ms. rewrite MessageStorageFacts.storeChat_parts in E.
  unfold try_catch, bind at 1 in E.
  destruct (not_given (cm ≫= cm_sessionId)).
  - unfold newSession, bind at 1 in E.
    rewrite MessageStorageFacts.deriveTitle_pure in E.
    destruct (title_of (lastMessage rq)) as [title|e]; [|discriminate E].
    unfold bind at 1 in E.
    rewrite (storeSession_explicit w n m ss title Hi Hs) in E.
    unfold ret at 1 in E.
    match type of E with
    | context [appendMessage env cm rq rs ?sid ?w1] =>
        assert (Hi1 : issued (storage w1) (Datatypes.S n) m);
        [|rewrite (appendMessage_explicit w1 (Datatypes.S n) m ms cm rq rs sid Hi1 Hm) in E]
    end.
    + eexists _, ms. simpl. repeat split; eauto.
      * rewrite map_app, Hsi, MessageStorageFacts.ids_S. reflexivity.
      * do 4 f_equal. lia.
    + injection E as <- <-. simpl. repeat split; auto.
  - unfold ret at 1 in E.
    rewrite (appendMessage_explicit w n m ms cm rq rs _ Hi Hm) in E.
    injection E as <- <-. simpl. repeat split; auto.
Qed.

End Issued.

(** X2. On a store that issued its ids from 1 (seeded, then written by the
    store alone) and accepts every write, a message that [storeChat]
    returned is the message that [retrieveMessageById] returns for its id,
    given as a number or as its decimal text, and it is the last of the
    messages that [retrieveMessagesBySession] returns for its session. *)
Theorem storeChat_then_retrieve (env : Env Store) (w w' : World Store)
    (n m : nat) cm rq rs msg :
  (forall s, fits env s = true) ->
  issued (storage w) n m ->
  storeChat env cm rq rs w = (w', Returned msg) ->
  retrieveMessageById (IdNum (id msg)) w' = (w', Returned msg)
  /\ retrieveMessageById (IdStr (String_of_Z (id msg))) w' = (w', Returned msg)
  /\ exists earlier,
       retrieveMessagesBySession (sessionId msg) w' = (w', Returned (earlier ++ [msg])).
Proof.
  intros accepts Hi E.
  destruct (storeChat_returned env accepts w w' n m cm rq rs msg Hi E)
    as (ms & Hm & Hm' & Hmi & Hid & _).
  assert (Hfind : List.find (fun x => id x =? id msg) (ms ++ [msg]) = Some msg).
  { apply find_last; [|apply Z.eqb_refl].
    intros y Hy. apply Z.eqb_neq.
    assert (Hr : In (id y) (ids m)) by (rewrite <- Hmi; apply in_map, Hy).
    apply ids_range in Hr. lia. }
  split; [|split].
  - unfold retrieveMessageById. run. rewrite Hm'. simpl. rewrite Hfind. reflexivity.
  - unfold retrieveMessageById. run. rewrite Hm'. simpl.
    rewrite StringToNumber_String_of_Z, Hfind. reflexivity.
  - rewrite (MessageStorageFacts.retrieveMessagesBySession_runs w' _ (ms ++ [msg]))
      by (rewrite Hm'; reflexivity).
    rewrite List.filter_app. simpl.
    assert (Hself : loose_eq (sessionId msg) (sessionId msg) = true).
    { destruct (sessionId msg); simpl; [apply Z.eqb_refl|apply String.eqb_refl]. }
    rewrite Hself. eexists. reflexivity.
Qed.

Lemma storeChat_then_retrieve_witness :
  (forall s : Store, fits Hosts.unlimited s = true)
  /\ issued seeded 0 0
  /\ exists w' msg,
       storeChat Hosts.unlimited None (says "hello") (JStr "hi") (Hosts.start seeded)
       = (w', Returned msg)
       /\ retrieveMessageById (IdNum (id msg)) w' = (w', Returned msg).
Proof.
  split; [reflexivity|]. split; [exact MessageStorageFacts.seeded_issued|].
  destruct (storeChat Hosts.unlimited None (says "hello") (JStr "hi")
              (Hosts.start seeded)) as [w' [msg|e]] eqn:E.
  - exists w', msg. split; [reflexivity|].
    apply (storeChat_then_retrieve Hosts.unlimited (Hosts.start seeded) w' 0 0
             None (says "hello") (JStr "hi") msg (fun _ => eq_refl)
             MessageStorageFacts.seeded_issued E).
  - exfalso. vm_compute in E. discriminate E.
Defined.

Lemma find_none_all {A} (p : A -> bool) l :
  (forall y, In y l -> p y = false) -> List.find p l = None.
Proof.
  induction l as [|y l IH]; intros H; simpl; [reflexivity|].
  rewrite (H y (or_introl eq_refl)). apply IH. intros z Hz. apply H. right; exact Hz.
Qed.

(** X3. [retrieveMessageById] tells a missing message from a store that
    cannot be read: when the message list is readable (or not there yet)
    and holds no message whose id equals the argument loosely, the error is
    "Message with id <id> not found", thrown as it is; when the list is not
    JSON, the parse error is wrapped as "Failed to retrieve message: ...",
    unless its message holds "not found" (an engine that quotes the text in
    the message, on such a text), in which case the parse error is rethrown
    as it is.  Neither changes the store. *)
Theorem retrieveMessageById_not_found_or_unreadable (w : World Store) (i : Id) :
  (forall ms,
     or_text (messages (storage w)) [] = Doc ms ->
     (forall msg, In msg ms -> loose_eq (IdNum (id msg)) i = false) ->
     retrieveMessageById i w
     = (w, Thrown (Error_ ("Message with id " +:+ String_of_Id i +:+ " not found"))))
  /\ (forall why,
        messages (storage w) = Some (Malformed why) ->
        includes why "not found" = false ->
        retrieveMessageById i w
        = (w, Thrown (Error_ ("Failed to retrieve message: " +:+ why))))
  /\ (forall why,
        messages (storage w) = Some (Malformed why) ->
        includes why "not found" = true ->
        retrieveMessageById i w = (w, Thrown (SyntaxError why))).
Proof.
  split; [|split].
  - intros ms Hm Hnone.
    rewrite (MessageStorageFacts.retrieveMessageById_runs w i ms Hm).
    rewrite (find_none_all _ _ Hnone). reflexivity.
  - intros why Hm Hn. unfold retrieveMessageById. run. rewrite Hm. simpl.
    rewrite Hn. reflexivity.
  - intros why Hm Hn. unfold retrieveMessageById. run. rewrite Hm. simpl.
    rewrite Hn. reflexivity.
Qed.

Lemma retrieveMessageById_not_found_or_unreadable_witness :
  or_text (messages (storage (Hosts.start both_forms))) []
  = Doc [ stored_under 1 (IdNum 7); stored_under 2 (IdStr "7");
          stored_under 3 (IdNum 7); stored_under 4 (IdNum 8) ]
  /\ retrieveMessageById (IdStr "12") (Hosts.start both_forms)
     = (Hosts.start both_forms, Thrown (Error_ "Message with id 12 not found"))
  /\ includes names_position "not found" = false
  /\ retrieveMessageById (IdNum 1) (Hosts.start (damaged names_position))
     = (Hosts.start (damaged names_position),
        Thrown (Error_ ("Failed to retrieve message: " +:+ names_position)))
  /\ includes quotes_text "not found" = true
  /\ retrieveMessageById (IdNum 1) (Hosts.start (damaged quotes_text))
     = (Hosts.start (damaged quotes_text), Thrown (SyntaxError quotes_text)).
Proof.
  split; [reflexivity|]. split.
  { apply (proj1 (retrieveMessageById_not_found_or_unreadable
                    (Hosts.start both_forms) (IdStr "12")) _ eq_refl).
    intros msg [<-|[<-|[<-|[<-|[]]]]]; reflexivity. }
  split; [reflexivity|]. split.
  { apply (proj1 (proj2 (retrieveMessageById_not_found_or_unreadable
                           (Hosts.start (damaged names_position)) (IdNum 1))));
      reflexivity. }
  split; [reflexivity|].
  apply (proj2 (proj2 (retrieveMessageById_not_found_or_unreadable
                         (Hosts.start (damaged quotes_text)) (IdNum 1))));
    reflexivity.
Defined.

Section IssuedCases.
Context (env : Env Store).
Hypothesis accepts : forall s, fits env s = true.

Lemma storeChat_given_explicit (w : World Store) n m ms cm rq rs sid :
  issued (storage w) n m -> messages (storage w) = Some (Doc ms) ->
  cm ≫= cm_sessionId = Some sid -> falsy sid = false ->
  storeChat env cm rq rs w
  = ({| storage :=
          messagesKey
            (Some (Doc (ms ++ [{| id := Z.of_nat m + 1; sessionId := sid;
                                  previousMessageId := previous_of cm;
                                  request := rq; response := rs;
                                  cumulativeInputLength := 0;
                                  updatedAt := clock env (ticks w) |}])))
            (countersKey
               (Some (Doc {| c_sessionId := Some (Z.of_nat n + 1);
                             c_messageId := Some (Z.of_nat m + 1 + 1) |}))
               (storage w));
        ticks := Datatypes.S (ticks w) |},
     Returned {| id := Z.of_nat m + 1; sessionId := sid;
                 previousMessageId := previous_of cm;
                 request := rq; response := rs;
                 cumulativeInputLength := 0;
                 updatedAt := clock env (ticks w) |}).
Proof.
  intros Hi Hm Hcm Hs. rewrite MessageStorageFacts.storeChat_parts.
  unfold not_given. rewrite Hcm, Hs. unfold try_catch, bind at 1, ret at 1. simpl.
  rewrite (appendMessage_explicit env accepts w n m ms cm rq rs sid Hi Hm).
  reflexivity.
Qed.

Lemma storeChat_new_explicit (w : World Store) n m ss ms cm rq rs title :
  issued (storage w) n m ->
  sessions (storage w) = Some (Doc ss) -> messages (storage w) = Some (Doc ms) ->
  not_given (cm ≫= cm_sessionId) = true ->
  title_of (lastMessage rq) = Returned title ->
  storeChat env cm rq rs w
  = ({| storage :=
          {| sessions :=
               Some (Doc (ss ++ [{| s_id := Z.of_nat n + 1; s_title := title |}]));
             messages :=
               Some (Doc (ms ++ [{| id := Z.of_nat m + 1;
                                    sessionId := IdNum (Z.of_nat n + 1);
                                    previousMessageId := previous_of cm;
                                    request := rq; response := rs;
                                    cumulativeInputLength := 0;
                                    updatedAt := clock env (ticks w) |}]));
             counters :=
               Some (Doc {| c_sessionId := Some (Z.of_nat n + 1 + 1);
                            c_messageId := Some (Z.of_nat m + 1 + 1) |}) |};
        ticks := Datatypes.S (ticks w) |},
     Returned {| id := Z.of_nat m + 1;
                 sessionId := IdNum (Z.of_nat n + 1);
                 previousMessageId := previous_of cm;
                 request := rq; response := rs;
                 cumulativeInputLength := 0;
                 updatedAt := clock env (ticks w) |}).
Proof.
  intros Hi Hs Hm Hng Ht. pose proof Hi as (ss' & ms' & Hs' & Hm' & Hsi & Hmi & Hc).
  rewrite MessageStorageFacts.storeChat_parts, Hng.
  unfold try_catch, bind at 1, newSession, bind at 1.
  rewrite MessageStorageFacts.deriveTitle_pure, Ht.
  unfold bind at 1. rewrite (storeSession_explicit env accepts w n m ss title Hi Hs).
  unfold ret at 1.
  match goal with
  | |- context [appendMessage env cm rq rs ?sid ?w1] =>
      assert (Hi1 : issued (storage w1) (Datatypes.S n) m);
      [|rewrite (appendMessage_explicit env accepts w1 (Datatypes.S n) m ms cm rq rs
                   sid Hi1 Hm)]
  end.
  - rewrite Hs in Hs'. injection Hs' as <-. rewrite Hm in Hm'. injection Hm' as <-.
    eexists _, ms. simpl. repeat split; eauto.
    + rewrite map_app, Hsi, MessageStorageFacts.ids_S. reflexivity.
    + do 4 f_equal. lia.
  - rewrite Nat2Z.inj_succ. unfold Z.succ. reflexivity.
Qed.
End IssuedCases.

(** X4. On a store that issued its ids and accepts every write, [storeChat]
    with a session id stores the message in that session and creates
    nothing else: the message takes the next message id and the session id
    as given, its [previousMessageId] is the id of [currentMessage] (null
    when that is missing, 0 or empty), the stored sessions and the session
    counter are untouched. *)
Theorem storeChat_in_given_session (env : Env Store) (w : World Store)
    (n m : nat) cm rq rs (sid : Id) :
  (forall s, fits env s = true) ->
  issued (storage w) n m ->
  cm ≫= cm_sessionId = Some sid -> falsy sid = false ->
  exists w' msg,
    storeChat env cm rq rs w = (w', Returned msg)
    /\ sessionId msg = sid
    /\ id msg = Z.of_nat m + 1
    /\ previousMessageId msg = previous_of cm
    /\ request msg = rq /\ response msg = rs
    /\ updatedAt msg = clock env (ticks w)
    /\ sessions (storage w') = sessions (storage w)
    /\ issued (storage w') n (S m).
Proof.
  intros accepts Hi Hcm Hs. pose proof Hi as (ss & ms & Hss & Hm & Hsi & Hmi & Hc).
  rewrite (storeChat_given_explicit env accepts w n m ms cm rq rs sid Hi Hm Hcm Hs).
  eexists _, _. split; [reflexivity|]. simpl. repeat split.
  exists ss, (ms ++ [{| id := Z.of_nat m + 1; sessionId := sid;
                        previousMessageId := previous_of cm;
                        request := rq; response := rs;
                        cumulativeInputLength := 0;
                        updatedAt := clock env (ticks w) |}]).
  simpl. repeat split; auto.
  - rewrite map_app, Hmi, MessageStorageFacts.ids_S. reflexivity.
  - rewrite Nat2Z.inj_succ. unfold Z.succ. reflexivity.
Qed.

Lemma storeChat_in_given_session_witness :
  (forall s : Store, fits Hosts.unlimited s = true)
  /\ issued seeded 0 0
  /\ falsy (IdStr "support") = false
  /\ exists w' msg,
       storeChat Hosts.unlimited
         (Some {| cm_sessionId := Some (IdStr "support"); cm_id := Some (IdNum 41) |})
         (says "hello") (JStr "hi") (Hosts.start seeded)
       = (w', Returned msg)
       /\ sessionId msg = IdStr "support"
       /\ id msg = 1
       /\ previousMessageId msg = Some (IdNum 41)
       /\ sessions (storage w') = Some (Doc []).
Proof.
  split; [reflexivity|]. split; [exact MessageStorageFacts.seeded_issued|].
  split; [reflexivity|].
  destruct (storeChat_in_given_session Hosts.unlimited (Hosts.start seeded) 0 0
              (Some {| cm_sessionId := Some (IdStr "support");
                       cm_id := Some (IdNum 41) |})
              (says "hello") (JStr "hi") (IdStr "support")
              (fun _ => eq_refl) MessageStorageFacts.seeded_issued eq_refl eq_refl)
    as (w' & msg & E & H1 & H2 & H3 & _ & _ & _ & H4 & _).
  exists w', msg. repeat split; assumption.
Defined.

(** X5. On such a store, [storeChat] without session id creates exactly one
    session, titled from the request, whose id is the next session id and
    is the id of no earlier session; the message is stored in it. *)
Theorem storeChat_creates_one_session (env : Env Store) (w : World Store)
    (n m : nat) cm rq rs (title : string) :
  (forall s, fits env s = true) ->
  issued (storage w) n m ->
  not_given (cm ≫= cm_sessionId) = true ->
  deriveTitle (lastMessage rq) w = (w, Returned title) ->
  exists w' msg ss,
    storeChat env cm rq rs w = (w', Returned msg)
    /\ sessionId msg = IdNum (Z.of_nat n + 1)
    /\ sessions (storage w) = Some (Doc ss)
    /\ retrieveAllSessions w'
       = (w', Returned (ss ++ [{| s_id := Z.of_nat n + 1; s_title := title |}]))
    /\ (forall s, In s ss -> s_id s <> Z.of_nat n + 1)
    /\ issued (storage w') (S n) (S m).
Proof.
  intros accepts Hi Hng Ht. pose proof Hi as (ss & ms & Hss & Hm & Hsi & Hmi & Hc).
  rewrite MessageStorageFacts.deriveTitle_pure in Ht. injection Ht as Ht.
  rewrite (storeChat_new_explicit env accepts w n m ss ms cm rq rs title
             Hi Hss Hm Hng Ht).
  eexists _, _, ss. split; [reflexivity|]. split; [reflexivity|].
  split; [exact Hss|]. split; [reflexivity|]. split.
  - intros s Hs.
    assert (Hr : In (s_id s) (ids n)) by (rewrite <- Hsi; apply in_map, Hs).
    apply ids_range in Hr. lia.
  - eexists _, _. simpl. repeat split; eauto.
    + rewrite map_app, Hsi, MessageStorageFacts.ids_S. reflexivity.
    + rewrite map_app, Hmi, MessageStorageFacts.ids_S. reflexivity.
    + rewrite !Nat2Z.inj_succ. unfold Z.succ. reflexivity.
Qed.

Lemma storeChat_creates_one_session_witness :
  (forall s : Store, fits Hosts.unlimited s = true)
  /\ issued seeded 0 0
  /\ not_given (None ≫= cm_sessionId) = true
  /\ deriveTitle (lastMessage (says "Plan the trip")) (Hosts.start seeded)
     = (Hosts.start seeded, Returned "Plan the trip")
  /\ exists w' msg,
       storeChat Hosts.unlimited None (says "Plan the trip") (JStr "ok")
         (Hosts.start seeded) = (w', Returned msg)
       /\ sessionId msg = IdNum 1
       /\ retrieveAllSessions w'
          = (w', Returned [{| s_id := 1; s_title := "Plan the trip" |}]).
Proof.
  split; [reflexivity|]. split; [exact MessageStorageFacts.seeded_issued|].
  split; [reflexivity|]. split; [reflexivity|].
  destruct (storeChat_creates_one_session Hosts.unlimited (Hosts.start seeded) 0 0
              None (says "Plan the trip") (JStr "ok") "Plan the trip"
              (fun _ => eq_refl) MessageStorageFacts.seeded_issued eq_refl eq_refl)
    as (w' & msg & ss & E & H1 & Hss & H2 & _).
  injection Hss as <-.
  exists w', msg. repeat split; assumption.
Defined.

(** X6. When [storeChat] has to create the session and the content of the
    last request message is neither missing nor a string (a number, a
    boolean, an array of parts, an object), the call throws the wrapped
    error and leaves the store as it was: no session is created and no id
    is used up, whatever the quota. *)
Theorem storeChat_content_not_a_string (env : Env Store) (w : World Store)
    cm rq rs (o : Obj) (v : JSON) :
  not_given (cm ≫= cm_sessionId) = true ->
  lastMessage rq = Some (JObj o) ->
  o !! "content" = Some v ->
  match v with JNull | JStr _ => False | _ => True end ->
  exists cause,
    storeChat env cm rq rs w
    = (w, Thrown (Error_ ("Failed to store chat message: " +:+ cause))).
Proof.
  intros Hng Hl Ho Hv. rewrite MessageStorageFacts.storeChat_parts, Hng.
  unfold try_catch, bind at 1, newSession, bind at 1, deriveTitle.
  rewrite Hl. simpl. rewrite Ho.
  destruct v; try contradiction; eexists; reflexivity.
Qed.

Lemma storeChat_content_not_a_string_witness :
  not_given (None ≫= cm_sessionId) = true
  /\ (exists cause,
        storeChat Hosts.unlimited None
          {| r_messages :=
               Some [JObj {[ "role" := JStr "user";
                             "content" := JArr [JObj {[ "type" := JStr "text";
                                                        "text" := JStr "hello" ]}] ]}];
             r_rest := ∅ |}
          (JStr "hi") (Hosts.start seeded)
        = (Hosts.start seeded,
           Thrown (Error_ ("Failed to store chat message: " +:+ cause)))).
Proof.
  split; [reflexivity|].
  apply (storeChat_content_not_a_string Hosts.unlimited (Hosts.start seeded) None
           _ (JStr "hi")
           {[ "role" := JStr "user";
              "content" := JArr [JObj {[ "type" := JStr "text";
                                         "text" := JStr "hello" ]}] ]}
           (JArr [JObj {[ "type" := JStr "text"; "text" := JStr "hello" ]}]));
    [reflexivity|reflexivity|reflexivity|exact I].
Defined.

(** The store after a successful [storeChat] issued one more message id,
    and the message it returned has a session id that counts as given. *)
Lemma storeChat_returned_issued (env : Env Store) (w w1 : World Store) n m
    cm rq rs msg1 :
  (forall s, fits env s = true) ->
  issued (storage w) n m ->
  storeChat env cm rq rs w = (w1, Returned msg1) ->
  exists n1, issued (storage w1) n1 (S m)
             /\ falsy (sessionId msg1) = false
             /\ id msg1 = Z.of_nat m + 1.
Proof.
  intros accepts Hi E. pose proof Hi as (ss & ms & Hss & Hm & Hsi & Hmi & Hc).
  destruct (not_given (cm ≫= cm_sessionId)) eqn:Hng.
  - destruct (title_of (lastMessage rq)) as [title|e] eqn:Ht.
    + rewrite (storeChat_new_explicit env accepts w n m ss ms cm rq rs title
                 Hi Hss Hm Hng Ht) in E.
      injection E as <- <-. exists (S n). simpl. split; [|split].
      * eexists _, _. simpl. repeat split; eauto.
        -- rewrite map_app, Hsi, MessageStorageFacts.ids_S. reflexivity.
        -- rewrite map_app, Hmi, MessageStorageFacts.ids_S. reflexivity.
        -- rewrite !Nat2Z.inj_succ. unfold Z.succ. reflexivity.
      * apply Z.eqb_neq. lia.
      * reflexivity.
    + rewrite MessageStorageFacts.storeChat_parts, Hng in E.
      unfold try_catch, bind at 1 in E.
      rewrite (MessageStorageFacts.newSession_throws env w rq e Ht) in E.
      discriminate E.
  - unfold not_given in Hng.
    destruct (cm ≫= cm_sessionId) as [sid|] eqn:Hcm; [|discriminate].
    rewrite (storeChat_given_explicit env accepts w n m ms cm rq rs sid
               Hi Hm Hcm Hng) in E.
    injection E as <- <-. exists n. simpl. split; [|split; [exact Hng|reflexivity]].
    eexists ss, _. simpl. repeat split; eauto.
    + rewrite map_app, Hmi, MessageStorageFacts.ids_S. reflexivity.
    + rewrite Nat2Z.inj_succ. unfold Z.succ. reflexivity.
Qed.

(** X7. Replying to a stored message, that is handing the message that
    [storeChat] returned back as [currentMessage], stores the reply in the
    session of that message with [previousMessageId] set to its id and the
    next message id, and creates no session. *)
Theorem storeChat_reply_links_messages (env : Env Store) (w w1 : World Store)
    (n m : nat) cm rq rs msg1 rq2 rs2 :
  (forall s, fits env s = true) ->
  issued (storage w) n m ->
  storeChat env cm rq rs w = (w1, Returned msg1) ->
  exists w2 msg2,
    storeChat env (reply_to msg1) rq2 rs2 w1 = (w2, Returned msg2)
    /\ sessionId msg2 = sessionId msg1
    /\ previousMessageId msg2 = Some (IdNum (id msg1))
    /\ id msg2 = id msg1 + 1
    /\ sessions (storage w2) = sessions (storage w1).
Proof.
  intros accepts Hi E.
  destruct (storeChat_returned_issued env w w1 n m cm rq rs msg1 accepts Hi E)
    as (n1 & Hi1 & Hs1 & Hid1).
  pose proof Hi1 as (ss1 & ms1 & Hss1 & Hm1 & _).
  rewrite (storeChat_given_explicit env accepts w1 n1 (S m) ms1 (reply_to msg1)
             rq2 rs2 (sessionId msg1) Hi1 Hm1 eq_refl Hs1).
  eexists _, _. split; [reflexivity|]. simpl. split; [reflexivity|]. split.
  - unfold previous_of, reply_to. simpl.
    destruct (Z.eqb_spec (id msg1) 0) as [H0|_]; [lia|reflexivity].
  - split; [|reflexivity]. rewrite Hid1, Nat2Z.inj_succ. unfold Z.succ. reflexivity.
Qed.

Lemma storeChat_reply_links_messages_witness :
  (forall s : Store, fits Hosts.unlimited s = true)
  /\ issued seeded 0 0
  /\ exists w1 msg1 w2 msg2,
       storeChat Hosts.unlimited None (says "hello") (JStr "hi") (Hosts.start seeded)
       = (w1, Returned msg1)
       /\ storeChat Hosts.unlimited (reply_to msg1) (says "and then?") (JStr "then")
            w1 = (w2, Returned msg2)
       /\ sessionId msg2 = sessionId msg1
       /\ previousMessageId msg2 = Some (IdNum (id msg1)).
Proof.
  split; [reflexivity|]. split; [exact MessageStorageFacts.seeded_issued|].
  destruct (storeChat Hosts.unlimited None (says "hello") (JStr "hi")
              (Hosts.start seeded)) as [w1 [msg1|e]] eqn:E.
  - destruct (storeChat_reply_links_messages Hosts.unlimited (Hosts.start seeded) w1
                0 0 None (says "hello") (JStr "hi") msg1 (says "and then?")
                (JStr "then") (fun _ => eq_refl) MessageStorageFacts.seeded_issued E)
      as (w2 & msg2 & E2 & H1 & H2 & _).
    exists w1, msg1, w2, msg2. repeat split; assumption.
  - exfalso. vm_compute in E. discriminate E.
Defined.

(** *** The title, on one line *)

Lemma substring0_all (s : string) : substring0 (String.length s) s = s.
Proof.
  unfold substring0. induction s as [|c s IH]; [reflexivity|].
  simpl. rewrite IH. reflexivity.
Qed.

(** X8. A content of one line and of 1 to 100 characters is its own
    title. *)
Theorem short_content_is_its_title (content : string) :
  single_line content ->
  (1 <= String.length content <= 100)%nat ->
  replace_title content = content.
Proof.
  intros Hs Hlen. unfold replace_title. rewrite Hs.
  rewrite Nat.min_l by lia.
  rewrite <- (Nat.add_0_r (String.length content)) at 1.
  rewrite (MessageStorageFacts.first_group_single_line content
             (String.length content) 0 Hs).
  - rewrite substring0_all. clear. induction content as [|c t IH]; [reflexivity|].
    change (String c (t +:+ "") = String c t). f_equal. exact IH.
  - lia.
  - unfold boundary_at. rewrite MessageStorageFacts.drop_chars_all. reflexivity.
  - intros j Hj. lia.
Qed.

Lemma short_content_is_its_title_witness :
  single_line "Plan the trip to Lisbon"
  /\ (1 <= String.length "Plan the trip to Lisbon" <= 100)%nat
  /\ replace_title "Plan the trip to Lisbon" = "Plan the trip to Lisbon".
Proof.
  split; [reflexivity|]. split; [simpl; lia|].
  apply short_content_is_its_title; [reflexivity|simpl; lia].
Defined.

(** X9. On a content of one line with a word boundary (white space or the
    end) after one of its first 100 characters, the title is the content
    cut at the last such boundary: it has at most 100 characters and the
    white space that follows it is dropped with the rest. *)
Theorem title_is_cut_at_last_word_boundary (content : string) (k : nat) :
  single_line content ->
  (1 <= k <= 100)%nat -> (k <= String.length content)%nat ->
  boundary_at k content = true ->
  (forall j, (k < j <= 100)%nat -> (j <= String.length content)%nat ->
             boundary_at j content = false) ->
  replace_title content = substring0 k content
  /\ String.length (replace_title content) = k.
Proof.
  intros Hs Hk Hlen Hb Hj.
  rewrite (MessageStorageFacts.title_cut_at_last_word_boundary content k
             Hs Hk Hlen Hb Hj).
  split; [reflexivity|].
  rewrite HistoryFacts.substring0_length. lia.
Qed.

Lemma title_is_cut_at_last_word_boundary_witness :
  single_line long_prompt
  /\ (1 <= 13 <= 100)%nat
  /\ (13 <= String.length long_prompt)%nat
  /\ boundary_at 13 long_prompt = true
  /\ (forall j, (13 < j <= 100)%nat -> (j <= String.length long_prompt)%nat ->
                boundary_at j long_prompt = false)
  /\ replace_title long_prompt = "Summarise the".
Proof.
  assert (Hj : forall j, (13 < j <= 100)%nat -> (j <= String.length long_prompt)%nat ->
                         boundary_at j long_prompt = false).
  { intros j Hj _.
    assert (Hcases : forall i, (i < 87)%nat -> boundary_at (14 + i) long_prompt = false).
    { intros i Hi. do 87 (destruct i as [|i]; [reflexivity|]). lia. }
    replace j with (14 + (j - 14))%nat by lia. apply Hcases. lia. }
  split; [reflexivity|]. split; [lia|]. split; [simpl; lia|]. split; [reflexivity|].
  split; [exact Hj|].
  apply (title_is_cut_at_last_word_boundary long_prompt 13);
    [reflexivity|lia|simpl; lia|reflexivity|exact Hj].
Defined.
End MessageStorageMoreFacts.

(** ** BrowserChatHistoryService: sessions and logs *)

Module HistoryMoreFacts.
Import JS Runtime HistoryService HistorySpec HistoryMoreSpec JSFacts.

Ltac run :=
  unfold bind, ret, throw, try_catch, getItem, setItem, removeItem,
    JSON_parse_or, Date_now; simpl.

Lemma written_accepted {S} (env : Env S) (write : S -> S) (w : World S) :
  (forall s, fits env s = true) ->
  Hosts.written env write w = {| storage := write (storage w); ticks := ticks w |}.
Proof. intros H. unfold Hosts.written. rewrite H. reflexivity. Qed.

Lemma String_of_Z_truthy n : falsy (IdStr (String_of_Z n)) = false.
Proof. destruct (String_of_Z_shape n) as (c & s & -> & _). reflexivity. Qed.

Lemma createSession_runs (env : Env Store) name_ (w : World Store) :
  (forall s, fits env s = true) ->
  let now := clock env (ticks w) in
  let sessionName :=
    match name_ with
    | Some n => if negb (String.eqb n "") && negb (String.eqb (trim n) "")
                then trim n else "Chat @ " +:+ toLocaleTimeString env now
    | None => "Chat @ " +:+ toLocaleTimeString env now
    end in
  let newSession :=
    {| id := String_of_Z now; title := sessionName; name := sessionName;
       lastActivity := now; createdAt := now;
       previewText := "New chat session." |} in
  createSession env name_ w
  = ({| storage :=
          {| sessionsList := Some (Doc (newSession :: stored_sessions (storage w)));
             history := <[String_of_Z now := Doc []]> (history (storage w)) |};
        ticks := Datatypes.S (ticks w) |},
     Returned newSession).
Proof.
  intros accepts now sessionName newSession. unfold createSession.
  unfold bind at 1. rewrite HistoryFacts._getSessionsList_runs.
  unfold bind at 1, Date_now at 1. unfold bind at 1.
  rewrite HistoryFacts._saveSessionsList_runs, written_accepted by exact accepts.
  unfold bind at 1.
  rewrite HistoryFacts._saveMessages_runs by apply String_of_Z_truthy.
  rewrite written_accepted by exact accepts. reflexivity.
Qed.

Lemma trim_empty : trim "" = "".
Proof. reflexivity. Qed.

(** X10. With every write accepted, [createSession] puts the new session at
    the head of the stored list and seeds an empty log for it.  The id is
    the text of the clock reading, which is also [createdAt] and
    [lastActivity]; the name is the given name trimmed, or
    "Chat @ <local time>" when no name is given or the name is blank. *)
Theorem createSession_heads_the_list (env : Env Store) (name_ : option string)
    (w : World Store) :
  (forall s, fits env s = true) ->
  exists w' session,
    createSession env name_ w = (w', Returned session)
    /\ stored_sessions (storage w') = session :: stored_sessions (storage w)
    /\ history (storage w') !! id session = Some (Doc [])
    /\ id session = String_of_Z (clock env (ticks w))
    /\ createdAt session = clock env (ticks w)
    /\ lastActivity session = clock env (ticks w)
    /\ title session = name session
    /\ (forall n, name_ = Some n -> trim n <> "" -> name session = trim n)
    /\ ((name_ = None \/ exists n, name_ = Some n /\ trim n = "") ->
        name session
        = "Chat @ " +:+ toLocaleTimeString env (clock env (ticks w))).
Proof.
  intros accepts. rewrite (createSession_runs env name_ w accepts).
  eexists _, _. split; [reflexivity|]. simpl.
  split; [reflexivity|]. split; [apply lookup_insert_eq|].
  do 4 (split; [reflexivity|]). split.
  - intros n -> Hn.
    destruct (String.eqb_spec n "") as [->|_]; [contradiction Hn; reflexivity|].
    destruct (String.eqb_spec (trim n) "") as [E|_]; [contradiction|reflexivity].
  - intros [->|(n & -> & Hn)]; [reflexivity|].
    rewrite Hn. simpl. rewrite andb_false_r. reflexivity.
Qed.

Lemma createSession_heads_the_list_witness :
  (forall s : Store, fits Hosts.unlimited s = true)
  /\ exists w' session,
       createSession Hosts.unlimited (Some "  Trip to Lisbon ") two_sessions
       = (w', Returned session)
       /\ stored_sessions (storage w') = [session; tuesday; monday]
       /\ name session = "Trip to Lisbon".
Proof.
  split; [reflexivity|].
  destruct (createSession_heads_the_list Hosts.unlimited (Some "  Trip to Lisbon ")
              two_sessions (fun _ => eq_refl))
    as (w' & session & E & Hl & _ & _ & _ & _ & _ & Hn & _).
  exists w', session. split; [exact E|]. split; [exact Hl|].
  apply (Hn "  Trip to Lisbon " eq_refl). discriminate.
Defined.

(** *** Deleting and renaming *)

Lemma filter_all {A} (p : A -> bool) l :
  (forall x, In x l -> p x = true) -> List.filter p l = l.
Proof.
  induction l as [|x l IH]; intros H; simpl; [reflexivity|].
  rewrite (H x (or_introl eq_refl)), IH; [reflexivity|].
  intros y Hy. apply H. right; exact Hy.
Qed.

Lemma filter_shorter {A} (p : A -> bool) l x :
  In x l -> p x = false -> (length (List.filter p l) < length l)%nat.
Proof.
  induction l as [|y l IH]; intros Hin Hp; [contradiction|]. simpl.
  destruct Hin as [->|Hin].
  - rewrite Hp. pose proof (List.filter_length_le p l). lia.
  - specialize (IH Hin Hp). destruct (p y); simpl; lia.
Qed.

Lemma findIndex_none {A} (p : A -> bool) l :
  (forall x, In x l -> p x = false) -> findIndex p l = None.
Proof.
  induction l as [|y l IH]; intros H; simpl; [reflexivity|].
  rewrite (H y (or_introl eq_refl)), IH; [reflexivity|].
  intros z Hz. apply H. right; exact Hz.
Qed.

Lemma world_eta {S} (w : World S) : {| storage := storage w; ticks := ticks w |} = w.
Proof. destruct w; reflexivity. Qed.

Lemma deleteSession_no_match (env : Env Store) (sid : Id) (w : World Store) :
  (forall s, In s (stored_sessions (storage w)) ->
             strict_eq (IdStr (id s)) sid = false) ->
  deleteSession env sid w = (w, Returned false).
Proof.
  intros H. unfold deleteSession. destruct (falsy sid); [reflexivity|].
  unfold bind at 1. rewrite HistoryFacts._getSessionsList_runs.
  rewrite filter_all.
  - rewrite Nat.ltb_irrefl. reflexivity.
  - intros s Hs. rewrite (H s Hs). reflexivity.
Qed.

Lemma renameSession_no_match (env : Env Store) (sid : Id) newName (w : World Store) :
  (forall s, In s (stored_sessions (storage w)) ->
             strict_eq (IdStr (id s)) sid = false) ->
  renameSession env sid newName w = (w, Returned None).
Proof.
  intros H. unfold renameSession. destruct (_ || _ || _); [reflexivity|].
  unfold bind at 1. rewrite HistoryFacts._getSessionsList_runs.
  rewrite (findIndex_none _ _ H). reflexivity.
Qed.

(** X11. [deleteSession] for an id that no session of the list has returns
    false and writes nothing, whatever the quota.  With every write
    accepted, for the id of a listed session it returns true, drops every
    session with that id from the list, and removes the log of that id:
    the logs of the other sessions are as they were. *)
Theorem deleteSession_drops_session_and_log (env : Env Store) (sid : Id)
    (w : World Store) :
  ((forall s, In s (stored_sessions (storage w)) ->
              strict_eq (IdStr (id s)) sid = false) ->
   deleteSession env sid w = (w, Returned false))
  /\ ((forall s, fits env s = true) ->
      falsy sid = false ->
      (exists s, In s (stored_sessions (storage w))
                 /\ strict_eq (IdStr (id s)) sid = true) ->
      exists w',
        deleteSession env sid w = (w', Returned true)
        /\ stored_sessions (storage w')
           = List.filter (fun s => negb (strict_eq (IdStr (id s)) sid))
               (stored_sessions (storage w))
        /\ history (storage w') !! String_of_Id sid = None
        /\ (forall k, k <> String_of_Id sid ->
                      history (storage w') !! k = history (storage w) !! k)).
Proof.
  split; [apply deleteSession_no_match|].
  intros accepts Hs (s & Hin & Hm). unfold deleteSession. rewrite Hs.
  unfold bind at 1. rewrite HistoryFacts._getSessionsList_runs.
  assert (Hlt : (length (List.filter (fun s => negb (strict_eq (IdStr (id s)) sid))
                           (stored_sessions (storage w)))
                 <? length (stored_sessions (storage w)))%nat = true).
  { apply Nat.ltb_lt. apply (filter_shorter _ _ s Hin). rewrite Hm. reflexivity. }
  rewrite Hlt. unfold bind at 1.
  rewrite HistoryFacts._saveSessionsList_runs, written_accepted by exact accepts.
  unfold _getSessionKey. rewrite Hs. run.
  eexists. split; [reflexivity|]. simpl. split; [reflexivity|].
  split; [apply lookup_delete_eq|].
  intros k Hk. apply lookup_delete_ne. congruence.
Qed.

Lemma deleteSession_drops_session_and_log_witness :
  (forall s, In s (stored_sessions (storage two_sessions)) ->
             strict_eq (IdStr (id s)) (IdStr "1700000000300") = false)
  /\ deleteSession Hosts.unlimited (IdStr "1700000000300") two_sessions
     = (two_sessions, Returned false)
  /\ (forall s : Store, fits Hosts.unlimited s = true)
  /\ falsy (IdStr "1700000000100") = false
  /\ (exists s, In s (stored_sessions (storage two_sessions))
                /\ strict_eq (IdStr (id s)) (IdStr "1700000000100") = true)
  /\ exists w',
       deleteSession Hosts.unlimited (IdStr "1700000000100") two_sessions
       = (w', Returned true)
       /\ stored_sessions (storage w') = [tuesday]
       /\ history (storage w') !! "1700000000100" = None
       /\ history (storage w') !! "1700000000200" = Some (Doc []).
Proof.
  assert (H1 : forall s, In s (stored_sessions (storage two_sessions)) ->
                         strict_eq (IdStr (id s)) (IdStr "1700000000300") = false).
  { intros s [<-|[<-|[]]]; reflexivity. }
  assert (H2 : exists s, In s (stored_sessions (storage two_sessions))
                         /\ strict_eq (IdStr (id s)) (IdStr "1700000000100") = true).
  { exists monday. split; [right; left; reflexivity|reflexivity]. }
  split; [exact H1|]. split.
  { apply (proj1 (deleteSession_drops_session_and_log Hosts.unlimited
                    (IdStr "1700000000300") two_sessions) H1). }
  split; [reflexivity|]. split; [reflexivity|]. split; [exact H2|].
  destruct (proj2 (deleteSession_drops_session_and_log Hosts.unlimited
                     (IdStr "1700000000100") two_sessions)
              (fun _ => eq_refl) eq_refl H2) as (w' & E & Hl & Hk & Ho).
  exists w'. split; [exact E|]. split; [exact Hl|]. split; [exact Hk|].
  rewrite Ho by discriminate. reflexivity.
Defined.

(** X12. [renameSession] returns null and writes nothing, whatever the
    quota, when the new name is empty or blank, when the session id is
    missing, or when no session of the list has the id.  With every write
    accepted, for a listed session and a name that is not blank it returns
    the session with [name] and [title] set to the trimmed name and
    [lastActivity] to the clock reading, its other fields kept, and
    rewrites that entry of the list alone; the logs are untouched. *)
Theorem renameSession_renames_one_entry (env : Env Store) (sid : Id)
    (newName : string) (w : World Store) :
  (falsy sid = true \/ trim newName = ""
   \/ (forall s, In s (stored_sessions (storage w)) ->
                 strict_eq (IdStr (id s)) sid = false) ->
   renameSession env sid newName w = (w, Returned None))
  /\ (forall i session,
       (forall s, fits env s = true) ->
       falsy sid = false -> trim newName <> "" ->
       findIndex (fun s => strict_eq (IdStr (id s)) sid)
         (stored_sessions (storage w)) = Some (i, session) ->
       exists w',
         renameSession env sid newName w
         = (w', Returned (Some (renamed session (trim newName)
                                  (clock env (ticks w)))))
         /\ stored_sessions (storage w')
            = <[i := renamed session (trim newName) (clock env (ticks w))]>
                (stored_sessions (storage w))
         /\ history (storage w') = history (storage w)).
Proof.
  split.
  - intros [Hs|[Hn|Hm]].
    + unfold renameSession. rewrite Hs. reflexivity.
    + unfold renameSession. rewrite Hn. simpl. rewrite !orb_true_r. reflexivity.
    + apply renameSession_no_match, Hm.
  - intros i session accepts Hs Hn Hf. unfold renameSession. rewrite Hs.
    destruct (String.eqb_spec newName "") as [->|_]; [contradiction Hn; reflexivity|].
    destruct (String.eqb_spec (trim newName) "") as [E|_]; [contradiction|].
    cbn [orb]. unfold bind at 1. rewrite HistoryFacts._getSessionsList_runs, Hf.
    unfold bind at 1, Date_now at 1. unfold bind at 1.
    rewrite HistoryFacts._saveSessionsList_runs, written_accepted by exact accepts.
    eexists. split; [reflexivity|]. split; reflexivity.
Qed.

Lemma renameSession_renames_one_entry_witness :
  trim "   " = ""
  /\ renameSession Hosts.unlimited (IdStr "1700000000100") "   " two_sessions
     = (two_sessions, Returned None)
  /\ (forall s : Store, fits Hosts.unlimited s = true)
  /\ falsy (IdStr "1700000000100") = false
  /\ trim " Weekly sync " <> ""
  /\ findIndex (fun s => strict_eq (IdStr (id s)) (IdStr "1700000000100"))
       (stored_sessions (storage two_sessions)) = Some (1%nat, monday)
  /\ exists w',
       renameSession Hosts.unlimited (IdStr "1700000000100") " Weekly sync "
         two_sessions
       = (w', Returned (Some (renamed monday "Weekly sync" 1700000000000)))
       /\ stored_sessions (storage w')
          = [tuesday; renamed monday "Weekly sync" 1700000000000].
Proof.
  split; [reflexivity|]. split.
  { apply (proj1 (renameSession_renames_one_entry Hosts.unlimited
                    (IdStr "1700000000100") "   " two_sessions)).
    right; left; reflexivity. }
  split; [reflexivity|]. split; [reflexivity|]. split; [discriminate|].
  split; [reflexivity|].
  destruct (proj2 (renameSession_renames_one_entry Hosts.unlimited
                     (IdStr "1700000000100") " Weekly sync " two_sessions)
              1%nat monday (fun _ => eq_refl) eq_refl ltac:(discriminate) eq_refl)
    as (w' & E & Hl & _).
  exists w'. split; [exact E|exact Hl].
Defined.

(** X13. Session ids are compared with [===] and the ids of the list are
    texts: a session id given as a number matches no session.
    [deleteSession] then returns false and [renameSession] null, writing
    nothing, and [addMessage] appends to the log kept under the text of the
    number but leaves the session list, preview and last activity as they
    were. *)
Theorem numeric_session_id_matches_no_session (env : Env Store) (n : Z)
    (w : World Store) :
  deleteSession env (IdNum n) w = (w, Returned false)
  /\ (forall newName, renameSession env (IdNum n) newName w = (w, Returned None))
  /\ (forall o, n <> 0 ->
       exists w' r,
         addMessage env (IdNum n) (JObj o) w = (w', Returned r)
         /\ sessionsList (storage w') = sessionsList (storage w)
         /\ ((forall s, fits env s = true) ->
             history (storage w') !! String_of_Z n
             = Some (Doc (stored_log (storage w) (IdNum n) ++ [r])))).
Proof.
  split; [apply deleteSession_no_match; reflexivity|].
  split; [intros; apply renameSession_no_match; reflexivity|].
  intros o Hn.
  assert (Hs : falsy (IdNum n) = false) by (apply Z.eqb_neq, Hn).
  destruct (HistoryFacts.addMessage_runs env (IdNum n) o w Hs)
    as (w1 & x1 & x2 & x3 & S1 & E).
  rewrite E, HistoryFacts._updateSessionMetadata_runs.
  rewrite findIndex_none by reflexivity.
  eexists _, _. split; [reflexivity|]. simpl. split.
  - unfold Hosts.written. destruct (fits env _); simpl; rewrite S1; reflexivity.
  - intros accepts. rewrite written_accepted by exact accepts. simpl.
    apply lookup_insert_eq.
Qed.

Lemma numeric_session_id_matches_no_session_witness :
  deleteSession Hosts.unlimited (IdNum 1700000000100) two_sessions
  = (two_sessions, Returned false)
  /\ 1700000000100 <> 0
  /\ (forall s : Store, fits Hosts.unlimited s = true)
  /\ exists w' r,
       addMessage Hosts.unlimited (IdNum 1700000000100)
         (JObj {[ "content" := JStr "Hi" ]}) two_sessions = (w', Returned r)
       /\ sessionsList (storage w') = Some (Doc [tuesday; monday])
       /\ history (storage w') !! "1700000000100"
          = Some (Doc [hello_world; goodbye; hello_again; r]).
Proof.
  destruct (numeric_session_id_matches_no_session Hosts.unlimited 1700000000100
              two_sessions) as (Hd & _ & Ha).
  split; [exact Hd|]. split; [discriminate|]. split; [reflexivity|].
  destruct (Ha {[ "content" := JStr "Hi" ]} ltac:(discriminate))
    as (w' & r & E & Hl & Hh).
  exists w', r. split; [exact E|]. split; [exact Hl|].
  exact (Hh (fun _ => eq_refl)).
Defined.

(** *** Recent messages *)

Lemma StronglySorted_app_cross {A} (R : A -> A -> Prop) l1 l2 :
  StronglySorted R (l1 ++ l2) ->
  StronglySorted R l1 /\ StronglySorted R l2
  /\ (forall x y, In x l1 -> In y l2 -> R x y).
Proof.
  induction l1 as [|a l1 IH]; simpl; intros H.
  - repeat split; [constructor|exact H|intros ? ? []].
  - apply StronglySorted_inv in H as [Hs Ha].
    destruct (IH Hs) as (H1 & H2 & Hc). rewrite List.Forall_forall in Ha.
    repeat split; [constructor|exact H2|].
    + exact H1.
    + apply List.Forall_forall. intros x Hx. apply Ha. apply in_or_app. left; exact Hx.
    + intros x y [<-|Hx] Hy; [|apply Hc; assumption].
      apply Ha. apply in_or_app. right; exact Hy.
Qed.

Lemma StronglySorted_snoc {A} (R : A -> A -> Prop) l x :
  StronglySorted R l -> (forall y, In y l -> R y x) -> StronglySorted R (l ++ [x]).
Proof.
  induction 1 as [|a l Hs IH Ha]; intros Hx; simpl.
  - repeat constructor.
  - constructor.
    + apply IH. intros y Hy. apply Hx. right; exact Hy.
    + rewrite List.Forall_forall in Ha. apply List.Forall_forall. intros y Hy.
      apply in_app_or in Hy as [Hy|[<-|[]]]; [apply Ha, Hy|].
      apply Hx. left; reflexivity.
Qed.

Lemma StronglySorted_reverse {A} (R : A -> A -> Prop) l :
  StronglySorted R l -> StronglySorted (fun a b => R b a) (reverse l).
Proof.
  induction 1 as [|a l Hs IH Ha]; [constructor|].
  rewrite reverse_cons. apply StronglySorted_snoc; [exact IH|].
  intros y Hy. rewrite List.Forall_forall in Ha. apply Ha.
  apply list_elem_of_In. apply list_elem_of_In in Hy.
  rewrite elem_of_reverse in Hy. exact Hy.
Qed.

(** X14. [getRecentMessages] with a limit that is not negative, on a log
    whose messages carry numeric times, returns the most recent messages of
    the log, oldest first: as many as the limit allows, each of them at
    least as recent as every message that is left out.  No message is
    invented, lost or duplicated: the messages returned and those left out
    are the log. *)
Theorem getRecentMessages_most_recent_oldest_first (sid : Id) (limit : Z)
    (w : World Store) :
  falsy sid = false -> 0 <= limit ->
  (forall m, In m (stored_log (storage w) sid) -> exists k, sort_key m = Some k) ->
  exists recent older,
    getRecentMessages sid (Some limit) w = (w, Returned recent)
    /\ length recent = Nat.min (Z.to_nat limit) (length (stored_log (storage w) sid))
    /\ Permutation (stored_log (storage w) sid) (older ++ recent)
    /\ StronglySorted not_newer recent
    /\ (forall x y, In x recent -> In y older -> not_older x y).
Proof.
  intros Hs Hl Hk. unfold getRecentMessages. rewrite Hs.
  unfold bind. rewrite HistoryFacts._getMessages_runs. unfold ret.
  set (log := stored_log (storage w) sid) in *.
  set (sorted := sort newest_first log).
  assert (Hsorted : StronglySorted not_older sorted)
    by (apply HistoryFacts.sort_newest_first_sorted, Hk).
  unfold slice0. simpl. destruct (Z.ltb_spec limit 0) as [|_]; [lia|].
  exists (reverse (take (Z.to_nat limit) sorted)), (drop (Z.to_nat limit) sorted).
  rewrite <- (take_drop (Z.to_nat limit) sorted) in Hsorted.
  apply StronglySorted_app_cross in Hsorted as (H1 & _ & Hc).
  split; [reflexivity|]. split; [|split; [|split]].
  - rewrite length_reverse, length_take. unfold sorted.
    rewrite (Permutation_length (sort_perm newest_first log)). reflexivity.
  - rewrite reverse_Permutation, Permutation_app_comm, take_drop.
    symmetry. apply sort_perm.
  - apply (StronglySorted_reverse _ _ H1).
  - intros x y Hx Hy. apply Hc; [|exact Hy].
    apply list_elem_of_In. apply list_elem_of_In in Hx.
    rewrite elem_of_reverse in Hx. exact Hx.
Qed.

Lemma getRecentMessages_most_recent_oldest_first_witness :
  falsy (IdStr "1700000000100") = false
  /\ 0 <= 2
  /\ (forall m, In m (stored_log (storage two_sessions) (IdStr "1700000000100")) ->
                exists k, sort_key m = Some k)
  /\ exists recent,
       getRecentMessages (IdStr "1700000000100") (Some 2) two_sessions
       = (two_sessions, Returned recent)
       /\ length recent = 2%nat
       /\ StronglySorted not_newer recent.
Proof.
  assert (Hk : forall m, In m (stored_log (storage two_sessions) (IdStr "1700000000100")) ->
                         exists k, sort_key m = Some k).
  { intros m Hm.
    change (In m [hello_world; goodbye; hello_again]) in Hm.
    destruct Hm as [<-|[<-|[<-|[]]]]; eexists; reflexivity. }
  split; [reflexivity|]. split; [lia|]. split; [exact Hk|].
  destruct (getRecentMessages_most_recent_oldest_first (IdStr "1700000000100") 2
              two_sessions eq_refl ltac:(lia) Hk)
    as (recent & older & E & Hlen & _ & Hsorted & _).
  exists recent. split; [exact E|]. split; [exact Hlen|exact Hsorted].
Defined.

(** *** Clearing a log, and what [addMessage] refuses *)

(** X15. [clearSessionHistory] without session id is rejected and writes
    nothing.  With every write accepted it leaves an empty log under the
    session id, the other logs being untouched, and when the session is in
    the list its preview becomes "Chat history cleared." (without
    ellipsis) and its last activity the clock reading; nothing is read
    back afterwards by [getRecentMessages]. *)
Theorem clearSessionHistory_empties_the_log (env : Env Store) (sid : Id)
    (w : World Store) :
  (falsy sid = true ->
   clearSessionHistory env sid w
   = (w, Thrown (Error_ "Session ID is required to clear history.")))
  /\ ((forall s, fits env s = true) -> falsy sid = false ->
      exists w',
        clearSessionHistory env sid w = (w', Returned tt)
        /\ history (storage w') = <[String_of_Id sid := Doc []]> (history (storage w))
        /\ (forall limit, getRecentMessages sid limit w' = (w', Returned []))
        /\ (forall i session,
              findIndex (fun s => strict_eq (IdStr (id s)) sid)
                (stored_sessions (storage w)) = Some (i, session) ->
              exists session',
                stored_sessions (storage w') !! i = Some session'
                /\ previewText session' = "Chat history cleared."
                /\ lastActivity session' = clock env (ticks w)
                /\ name session' = name session)).
Proof.
  split.
  - intros Hs. unfold clearSessionHistory. rewrite Hs. reflexivity.
  - intros accepts Hs. unfold clearSessionHistory. rewrite Hs.
    unfold bind at 1. rewrite (HistoryFacts._saveMessages_runs env sid _ w Hs).
    rewrite written_accepted by exact accepts.
    rewrite HistoryFacts._updateSessionMetadata_runs. simpl.
    assert (Hrecent : forall (w0 : World Store) limit,
              history (storage w0) = <[String_of_Id sid := Doc []]> (history (storage w)) ->
              getRecentMessages sid limit w0 = (w0, Returned [])).
    { intros w0 limit H0. unfold getRecentMessages. rewrite Hs.
      unfold bind. rewrite HistoryFacts._getMessages_runs.
      unfold stored_log. rewrite Hs, H0, lookup_insert_eq.
      unfold ret, slice0. simpl.
      destruct (_ <? 0); [reflexivity|]. destruct (Z.to_nat _); reflexivity. }
    destruct (findIndex _ _) as [[i session]|] eqn:Hf.
    + rewrite written_accepted by exact accepts.
      eexists. split; [reflexivity|]. simpl. split; [reflexivity|].
      split; [intros; apply Hrecent; reflexivity|].
      intros i' session' Hf'. injection Hf' as <- <-.
      eexists. split.
      * unfold stored_sessions at 1. simpl. apply list_lookup_insert_eq.
        apply lookup_lt_Some with session.
        apply (HistoryFacts.findIndex_lookup _ _ _ _ Hf).
      * repeat split.
    + eexists. split; [reflexivity|]. simpl. split; [reflexivity|].
      split; [intros; apply Hrecent; reflexivity|].
      intros i' session' Hf'. discriminate.
Qed.

Lemma clearSessionHistory_empties_the_log_witness :
  falsy (IdStr "") = true
  /\ clearSessionHistory Hosts.unlimited (IdStr "") two_sessions
     = (two_sessions, Thrown (Error_ "Session ID is required to clear history."))
  /\ (forall s : Store, fits Hosts.unlimited s = true)
  /\ falsy (IdStr "1700000000100") = false
  /\ exists w',
       clearSessionHistory Hosts.unlimited (IdStr "1700000000100") two_sessions
       = (w', Returned tt)
       /\ getRecentMessages (IdStr "1700000000100") None w' = (w', Returned [])
       /\ exists session',
            stored_sessions (storage w') !! 1%nat = Some session'
            /\ previewText session' = "Chat history cleared.".
Proof.
  destruct (clearSessionHistory_empties_the_log Hosts.unlimited (IdStr "") two_sessions)
    as [Hmissing _].
  destruct (clearSessionHistory_empties_the_log Hosts.unlimited
              (IdStr "1700000000100") two_sessions) as [_ Hclear].
  split; [reflexivity|]. split; [exact (Hmissing eq_refl)|].
  split; [reflexivity|]. split; [reflexivity|].
  destruct (Hclear (fun _ => eq_refl) eq_refl) as (w' & E & _ & Hr & Hp).
  exists w'. split; [exact E|]. split; [apply Hr|].
  destruct (Hp 1%nat monday eq_refl) as (session' & Hl & Hprev & _).
  exists session'. split; assumption.
Defined.

(** The own properties of an array: its elements under their indices. *)
Lemma array_props_from (l : list JSON) : forall (j i : nat) x,
  l !! i = Some x ->
  (list_to_map (imap (fun i x => (String_of_Z (Z.of_nat (j + i)), x)) l) : Obj)
    !! String_of_Z (Z.of_nat (j + i)) = Some x.
Proof.
  induction l as [|y l IH]; intros j i x Hi; [discriminate|].
  cbn [imap list_to_map foldr]. change (curry insert) with
    (fun (p : string * JSON) (m : Obj) => <[p.1 := p.2]> m). cbn beta.
  destruct i as [|i].
  - injection Hi as ->. cbn [fst snd]. apply lookup_insert_eq.
  - cbn [fst snd]. rewrite lookup_insert_ne.
    + rewrite (imap_ext _ (fun i x => (String_of_Z (Z.of_nat (S j + i)), x)))
        by (intros k z _; cbn; do 3 f_equal; lia).
      replace (j + S i)%nat with (S j + i)%nat by lia.
      apply IH. exact Hi.
    + intros H. apply MessageStorageFacts.String_of_Z_inj in H. lia.
Qed.

Lemma array_props_other (l : list JSON) (k : string) : forall j : nat,
  (forall i : nat, k <> String_of_Z (Z.of_nat i)) ->
  (list_to_map (imap (fun i x => (String_of_Z (Z.of_nat (j + i)), x)) l) : Obj)
    !! k = None.
Proof.
  induction l as [|y l IH]; intros j Hk; [reflexivity|].
  cbn [imap list_to_map foldr]. change (curry insert) with
    (fun (p : string * JSON) (m : Obj) => <[p.1 := p.2]> m). cbn beta.
  cbn [fst snd]. rewrite lookup_insert_ne by (intros H; exact (Hk _ (eq_sym H))).
  rewrite (imap_ext _ (fun i x => (String_of_Z (Z.of_nat (S j + i)), x)))
    by (intros i z _; cbn; do 3 f_equal; lia).
  apply IH. exact Hk.
Qed.

Lemma not_an_index (c : ascii) (k : string) :
  isDigit c = false ->
  forall i : nat, String c k <> String_of_Z (Z.of_nat i).
Proof.
  intros Hd i H. unfold String_of_Z in H.
  destruct (Z.of_nat i) as [|p|p] eqn:E; [| |lia]; simpl in H.
  - injection H as -> _. discriminate Hd.
  - unfold NilZero.string_of_uint in H.
    destruct (Pos.to_uint p) eqn:Ep; simpl in H;
      injection H as -> _; discriminate Hd.
Qed.

(** X16. [addMessage] rejects a missing session id with "Session ID is
    required to add a message." and, for a session id that is given, a
    message that is null or a primitive with "Invalid message object.";
    neither reads the clock nor writes.  An array passes the test (its
    [typeof] is "object") and is stored as a record: the record returned
    holds the elements of the array under their indices, beside an id
    taken from the clock and the session id, and on a host that accepts the
    write it is appended to the log of the session. *)
Theorem addMessage_rejections (env : Env Store) (sid : Id) (message : JSON)
    (w : World Store) :
  (falsy sid = true ->
   addMessage env sid message w
   = (w, Thrown (Error_ "Session ID is required to add a message.")))
  /\ (falsy sid = false ->
      match message with JObj _ | JArr _ => False | _ => True end ->
      addMessage env sid message w = (w, Thrown (Error_ "Invalid message object.")))
  /\ (falsy sid = false ->
      forall l, message = JArr l ->
      exists w' r,
        addMessage env sid message w = (w', Returned r)
        /\ (forall (i : nat) x,
              l !! i = Some x -> r !! String_of_Z (Z.of_nat i) = Some x)
        /\ r !! "id" = Some (JStr (String_of_Z (clock env (ticks w))))
        /\ r !! "sessionId" = Some (JSON_of_Id sid)
        /\ ((forall s, fits env s = true) ->
            history (storage w') !! String_of_Id sid
            = Some (Doc (stored_log (storage w) sid ++ [r])))).
Proof.
  split; [|split].
  - intros Hs. unfold addMessage. rewrite Hs. reflexivity.
  - intros Hs Hm. unfold addMessage. rewrite Hs.
    destruct message as [|[]|n|t|l|o]; try contradiction; try reflexivity.
    + simpl. destruct (n =? 0); reflexivity.
    + simpl. destruct (String.eqb t ""); reflexivity.
  - intros Hs l ->. unfold addMessage. rewrite Hs.
    cbn [truthy negb orb prop].
    unfold bind at 1. rewrite HistoryFacts._getMessages_runs.
    unfold bind at 1, or_default at 1. cbn [or_else].
    unfold bind at 1, Date_now at 1, ret at 1.
    unfold bind at 1, or_default at 1. cbn [or_else].
    unfold bind at 1, Date_now at 1, ret at 1.
    unfold bind at 1, or_default at 1. cbn [or_else].
    unfold bind at 1, Date_now at 1, ret at 1.
    cbn [storage ticks].
    unfold bind at 1. rewrite (HistoryFacts._saveMessages_runs env sid _ _ Hs).
    unfold bind at 1.
    match goal with
    | |- context [_updateSessionMetadata env sid ?v ?w0] =>
        destruct (HistoryFacts._updateSessionMetadata_history env sid v w0)
          as (w' & E' & Hh)
    end.
    rewrite E'. eexists _, _. split; [reflexivity|].
    assert (Hother : forall k : string,
              (forall i : nat, k <> String_of_Z (Z.of_nat i)) ->
              own_props (JArr l) !! k = None).
    { intros k Hk. exact (array_props_other l k 0 Hk). }
    split; [|split; [|split]].
    + intros i x Hi. apply lookup_union_Some_l.
      exact (array_props_from l 0 i x Hi).
    + rewrite lookup_union_r by (apply Hother, not_an_index; reflexivity).
      apply lookup_insert_eq.
    + rewrite lookup_union_r by (apply Hother, not_an_index; reflexivity).
      rewrite !lookup_insert_ne by discriminate. apply lookup_insert_eq.
    + intros accepts. rewrite Hh.
      rewrite written_accepted by exact accepts. cbn [storage history historyKey].
      apply lookup_insert_eq.
Qed.

Lemma addMessage_rejections_witness :
  falsy (IdNum 0) = true
  /\ addMessage Hosts.unlimited (IdNum 0) (JObj ∅) two_sessions
     = (two_sessions, Thrown (Error_ "Session ID is required to add a message."))
  /\ falsy (IdStr "1700000000100") = false
  /\ addMessage Hosts.unlimited (IdStr "1700000000100") (JStr "hello") two_sessions
     = (two_sessions, Thrown (Error_ "Invalid message object."))
  /\ exists w' r,
       addMessage Hosts.unlimited (IdStr "1700000000100")
         (JArr [JStr "hello"]) two_sessions = (w', Returned r)
       /\ r !! "0" = Some (JStr "hello")
       /\ history (storage w') !! "1700000000100"
          = Some (Doc ([hello_world; goodbye; hello_again] ++ [r])).
Proof.
  split; [reflexivity|].
  split.
  { apply (proj1 (addMessage_rejections Hosts.unlimited (IdNum 0) (JObj ∅)
                    two_sessions)). reflexivity. }
  split; [reflexivity|]. split.
  { apply (proj1 (proj2 (addMessage_rejections Hosts.unlimited
                           (IdStr "1700000000100") (JStr "hello") two_sessions)));
      [reflexivity|exact I]. }
  destruct (proj2 (proj2 (addMessage_rejections Hosts.unlimited
                            (IdStr "1700000000100") (JArr [JStr "hello"])
                            two_sessions))
              eq_refl [JStr "hello"] eq_refl)
    as (w' & r & E & Hidx & _ & _ & Hlog).
  exists w', r. split; [exact E|]. split.
  - apply (Hidx 0%nat). reflexivity.
  - apply Hlog. reflexivity.
Defined.

(** X17. For a message that carries no [id], [timestamp] or [createdAt] (or
    carries a falsy one), [addMessage] reads the clock once for each, in
    that order: the record is the message's own fields over an id that is
    the text of the first reading, a timestamp that is the second and a
    createdAt that is the third, and the [sessionId] parameter. *)
Theorem addMessage_defaults_from_the_clock (env : Env Store) (sid : Id) (o : Obj)
    (w : World Store) :
  falsy sid = false ->
  or_else (o !! "id") None = None ->
  or_else (o !! "timestamp") None = None ->
  or_else (o !! "createdAt") None = None ->
  exists w',
    addMessage env sid (JObj o) w
    = (w', Returned (record_of o
                       (JStr (String_of_Z (clock env (ticks w))))
                       (JNum (clock env (Datatypes.S (ticks w))))
                       (JNum (clock env (Datatypes.S (Datatypes.S (ticks w)))))
                       sid))
    /\ (o !! "timestamp" = None ->
        clock env (Datatypes.S (ticks w)) <> 0 ->
        sort_key (record_of o
                    (JStr (String_of_Z (clock env (ticks w))))
                    (JNum (clock env (Datatypes.S (ticks w))))
                    (JNum (clock env (Datatypes.S (Datatypes.S (ticks w)))))
                    sid)
        = Some (clock env (Datatypes.S (ticks w)))).
Proof.
  intros Hs Hid Hts Hca. unfold addMessage. rewrite Hs. simpl.
  unfold bind at 1. rewrite HistoryFacts._getMessages_runs.
  unfold bind at 1, or_default at 1. rewrite Hid.
  unfold bind at 1, Date_now at 1, ret at 1.
  unfold bind at 1, or_default at 1. rewrite Hts.
  unfold bind at 1, Date_now at 1, ret at 1.
  unfold bind at 1, or_default at 1. rewrite Hca.
  unfold bind at 1, Date_now at 1, ret at 1.
  cbn [storage ticks].
  unfold bind at 1. rewrite (HistoryFacts._saveMessages_runs env sid _ _ Hs).
  unfold bind at 1.
  match goal with
  | |- context [_updateSessionMetadata env sid ?v ?w0] =>
      destruct (HistoryFacts._updateSessionMetadata_history env sid v w0)
        as (w' & E' & _)
  end.
  rewrite E'. exists w'. split; [reflexivity|].
  intros Hnone Hnz. unfold sort_key, record_of.
  rewrite (lookup_union_r o _ "timestamp" Hnone).
  rewrite lookup_insert_ne by discriminate. rewrite lookup_insert_eq.
  assert (Hc : (clock env (Datatypes.S (ticks w)) =? 0) = false)
    by (apply Z.eqb_neq; exact Hnz).
  unfold or_else, truthy. rewrite Hc. cbn [negb ToNumber]. rewrite Hc. reflexivity.
Qed.

Lemma addMessage_defaults_from_the_clock_witness :
  falsy (IdStr "1700000000200") = false
  /\ or_else (({[ "content" := JStr "Hi" ]} : Obj) !! "id") None = None
  /\ or_else (({[ "content" := JStr "Hi" ]} : Obj) !! "timestamp") None = None
  /\ or_else (({[ "content" := JStr "Hi" ]} : Obj) !! "createdAt") None = None
  /\ exists w',
       addMessage Hosts.unlimited (IdStr "1700000000200")
         (JObj {[ "content" := JStr "Hi" ]}) two_sessions
       = (w', Returned (record_of {[ "content" := JStr "Hi" ]}
                          (JStr (String_of_Z (@clock Store Hosts.unlimited (ticks two_sessions))))
                          (JNum (@clock Store Hosts.unlimited (Datatypes.S (ticks two_sessions))))
                          (JNum (@clock Store Hosts.unlimited
                                   (Datatypes.S (Datatypes.S (ticks two_sessions)))))
                          (IdStr "1700000000200"))).
Proof.
  split; [reflexivity|]. split; [reflexivity|]. split; [reflexivity|].
  split; [reflexivity|].
  destruct (addMessage_defaults_from_the_clock Hosts.unlimited (IdStr "1700000000200")
              {[ "content" := JStr "Hi" ]} two_sessions) as (w' & E & _);
    [reflexivity..|].
  exists w'. exact E.
Defined.

(** *** The session list as it is shown *)

(** X18. On a session list as the service stores it, [listSessions]
    returns the stored sessions, each as often as it is stored, ordered by
    last activity, latest first.  A list that is missing or empty, and a
    text that is not JSON (the parse error is caught), read as no session.
    In each of these cases nothing is written and the clock is not read.
    (What the call does on the JSON of a value that is no list of sessions
    is not stated.) *)
Theorem listSessions_latest_activity_first (w : World Store) :
  (blank (sessionsList (storage w)) = true -> listSessions w = (w, Returned []))
  /\ (forall why,
        sessionsList (storage w) = Some (Malformed why) ->
        listSessions w = (w, Returned []))
  /\ (forall stored,
        sessionsList (storage w) = Some (Doc stored) ->
        exists sessions,
          listSessions w = (w, Returned sessions)
          /\ Permutation sessions stored
          /\ StronglySorted (fun a b => lastActivity b <= lastActivity a) sessions).
Proof.
  assert (Hruns : listSessions w
                  = (w, Returned (sort (fun a b => lastActivity b - lastActivity a <=? 0)
                                    (stored_sessions (storage w))))).
  { unfold listSessions, bind. rewrite HistoryFacts._getSessionsList_runs. reflexivity. }
  rewrite Hruns. unfold stored_sessions. split; [|split].
  - intros Hb. destruct (sessionsList (storage w)) as [[|why|l]|];
      try discriminate; reflexivity.
  - intros why ->. reflexivity.
  - intros stored ->. eexists. split; [reflexivity|]. split.
    + apply JSFacts.sort_perm.
    + apply (JSFacts.sort_desc_sorted lastActivity).
Qed.

Lemma listSessions_latest_activity_first_witness :
  sessionsList (storage two_sessions) = Some (Doc [tuesday; monday])
  /\ exists sessions,
       listSessions two_sessions = (two_sessions, Returned sessions)
       /\ Permutation sessions [tuesday; monday]
       /\ StronglySorted (fun a b => lastActivity b <= lastActivity a) sessions.
Proof.
  split; [reflexivity|].
  exact (proj2 (proj2 (listSessions_latest_activity_first two_sessions))
           [tuesday; monday] eq_refl).
Defined.
End HistoryMoreFacts.

(** ** BrowserCheckpointService: creating, listing, clearing *)

Module CheckpointMoreFacts.
Import JS Runtime CheckpointService CheckpointSpec CheckpointMoreSpec JSFacts.

Lemma find_hit {A} (p : A -> bool) l x :
  p x = true -> exists y, List.find p (l ++ [x]) = Some y /\ p y = true.
Proof.
  intros Hx. induction l as [|z l IH]; simpl.
  - rewrite Hx. exists x. split; [reflexivity|exact Hx].
  - destruct (p z) eqn:Hz; [exists z; split; [reflexivity|exact Hz]|exact IH].
Qed.

Lemma find_app_hit {A} (p : A -> bool) l l' x :
  List.find p l = Some x -> List.find p (l ++ l') = Some x.
Proof.
  induction l as [|z l IH]; simpl; [discriminate|].
  destruct (p z); [intros H; exact H|exact IH].
Qed.

Lemma stored_checkpoints_insert_ne (s : Store) (sid other : Id) l :
  String_of_Id other <> String_of_Id sid ->
  stored_checkpoints (<[String_of_Id sid := Doc l]> s) other
  = stored_checkpoints s other.
Proof.
  intros Hne. unfold stored_checkpoints.
  rewrite lookup_insert_ne by congruence. reflexivity.
Qed.

Lemma listCheckpoint_runs (sid : Id) (w : World Store) :
  falsy sid = false ->
  listCheckpoint sid w
  = (w, Returned (sort newest_first (stored_checkpoints (storage w) sid))).
Proof.
  intros Hs. unfold listCheckpoint. rewrite Hs.
  unfold bind. rewrite CheckpointFacts._getCheckpoints_runs. reflexivity.
Qed.

Lemma retrieveCheckpoint_runs (idOrIdx sid : Id) (w : World Store) :
  falsy sid = false ->
  retrieveCheckpoint idOrIdx sid w
  = (w, Returned
          match idOrIdx with
          | IdNum idx =>
              at_index (sort newest_first (stored_checkpoints (storage w) sid)) idx
          | IdStr id_ =>
              List.find (fun cp => String.eqb (id cp) id_)
                (stored_checkpoints (storage w) sid)
          end).
Proof.
  intros Hs. unfold retrieveCheckpoint. rewrite Hs.
  unfold bind. rewrite CheckpointFacts._getCheckpoints_runs.
  destruct idOrIdx; reflexivity.
Qed.

Lemma createCheckpoint_accepted (env : Env Store) label_ msg (sid : Id)
    (w : World Store) :
  (forall s, fits env s = true) -> falsy sid = false -> truthy msg = true ->
  createCheckpoint env label_ msg sid w
  = ({| storage :=
          <[String_of_Id sid :=
              Doc (stored_checkpoints (storage w) sid
                   ++ [created env label_ msg (clock env (ticks w))])]> (storage w);
        ticks := Datatypes.S (ticks w) |},
     Returned (created env label_ msg (clock env (ticks w)))).
Proof.
  intros accepts Hs Hm.
  rewrite (CheckpointFacts.createCheckpoint_runs env label_ msg sid w Hs Hm).
  unfold Hosts.written. rewrite accepts. reflexivity.
Qed.

(** X19. Every operation of the checkpoint service rejects a missing
    session id (zero or the empty string) with "Session ID is required.",
    and [createCheckpoint] a missing current message with "No active chat
    (currentMessage) to checkpoint."; a rejected call neither reads the
    clock nor writes. *)
Theorem checkpoint_operations_reject_missing_arguments (env : Env Store)
    (sid : Id) (w : World Store) :
  (falsy sid = true ->
   (forall label_ msg,
       createCheckpoint env label_ msg sid w
       = (w, Thrown (Error_ "Session ID is required.")))
   /\ (forall idOrIdx,
         retrieveCheckpoint idOrIdx sid w
         = (w, Thrown (Error_ "Session ID is required.")))
   /\ listCheckpoint sid w = (w, Thrown (Error_ "Session ID is required."))
   /\ clearAllCheckpoints env sid w = (w, Thrown (Error_ "Session ID is required.")))
  /\ (falsy sid = false ->
      forall label_ msg, truthy msg = false ->
        createCheckpoint env label_ msg sid w
        = (w, Thrown (Error_ "No active chat (currentMessage) to checkpoint."))).
Proof.
  split.
  - intros Hs. unfold createCheckpoint, retrieveCheckpoint, listCheckpoint,
      clearAllCheckpoints. rewrite Hs. repeat split; reflexivity.
  - intros Hs label_ msg Hm. unfold createCheckpoint. rewrite Hs, Hm. reflexivity.
Qed.

Lemma checkpoint_operations_reject_missing_arguments_witness :
  falsy (IdStr "") = true
  /\ listCheckpoint (IdStr "") (two_created Hosts.unlimited)
     = (two_created Hosts.unlimited, Thrown (Error_ "Session ID is required."))
  /\ falsy (IdStr "s") = false
  /\ truthy JNull = false
  /\ createCheckpoint Hosts.unlimited "third" JNull (IdStr "s")
       (two_created Hosts.unlimited)
     = (two_created Hosts.unlimited,
        Thrown (Error_ "No active chat (currentMessage) to checkpoint.")).
Proof.
  split; [reflexivity|]. split.
  { apply (proj1 (checkpoint_operations_reject_missing_arguments Hosts.unlimited
                    (IdStr "") (two_created Hosts.unlimited)) eq_refl). }
  split; [reflexivity|]. split; [reflexivity|].
  apply (proj2 (checkpoint_operations_reject_missing_arguments Hosts.unlimited
                  (IdStr "s") (two_created Hosts.unlimited)) eq_refl "third" JNull
           eq_refl).
Defined.

(** X20. On a host that accepts the write, [createCheckpoint] returns a
    checkpoint whose id is the text of the clock reading, whose timestamp
    and createdAt are that reading, which carries the current message and
    its id, and the label given (a default label when it is empty).
    Looking the returned id up right after finds a checkpoint with that id;
    it is the one just created when no stored checkpoint of the session
    has the id already, and the earlier one otherwise. *)
Theorem createCheckpoint_then_retrieve_by_id (env : Env Store) (label_ : string)
    (msg : JSON) (sid : Id) (w : World Store) :
  (forall s, fits env s = true) -> falsy sid = false -> truthy msg = true ->
  exists w' cp,
    createCheckpoint env label_ msg sid w = (w', Returned cp)
    /\ id cp = String_of_Z (clock env (ticks w))
    /\ timestamp cp = clock env (ticks w)
    /\ createdAt cp = clock env (ticks w)
    /\ currentMessage cp = msg
    /\ messageId cp = prop msg "id"
    /\ (label_ <> "" -> label cp = label_)
    /\ (label_ = "" ->
        label cp = "Checkpoint @ " +:+ toISOString env (clock env (ticks w)))
    /\ (exists found,
          retrieveCheckpoint (IdStr (id cp)) sid w' = (w', Returned (Some found))
          /\ id found = id cp)
    /\ ((forall x, In x (stored_checkpoints (storage w) sid) -> id x <> id cp) ->
        retrieveCheckpoint (IdStr (id cp)) sid w' = (w', Returned (Some cp)))
    /\ (forall x, List.find (fun c => String.eqb (id c) (id cp))
                    (stored_checkpoints (storage w) sid) = Some x ->
        retrieveCheckpoint (IdStr (id cp)) sid w' = (w', Returned (Some x))).
Proof.
  intros accepts Hs Hm.
  rewrite (createCheckpoint_accepted env label_ msg sid w accepts Hs Hm).
  eexists _, _. split; [reflexivity|].
  split; [reflexivity|]. split; [reflexivity|]. split; [reflexivity|].
  split; [reflexivity|]. split; [reflexivity|].
  split.
  { intros Hl. simpl. destruct (String.eqb_spec label_ ""); [contradiction|reflexivity]. }
  split.
  { intros ->. reflexivity. }
  set (cp := created env label_ msg (clock env (ticks w))).
  set (old := stored_checkpoints (storage w) sid).
  assert (Hst : forall w1 : World Store,
             storage w1 = <[String_of_Id sid := Doc (old ++ [cp])]> (storage w) ->
             retrieveCheckpoint (IdStr (id cp)) sid w1
             = (w1, Returned (List.find (fun c => String.eqb (id c) (id cp))
                                (old ++ [cp])))).
  { intros w1 H1. rewrite (retrieveCheckpoint_runs _ _ _ Hs).
    rewrite H1, (CheckpointFacts.stored_checkpoints_insert _ _ _ Hs). reflexivity. }
  split; [|split].
  - destruct (find_hit (fun c => String.eqb (id c) (id cp)) old cp) as (y & Hy & Hp).
    { apply String.eqb_refl. }
    exists y. split.
    + rewrite Hst by reflexivity. rewrite Hy. reflexivity.
    + apply String.eqb_eq. exact Hp.
  - intros Hfresh. rewrite Hst by reflexivity.
    rewrite MessageStorageMoreFacts.find_last; [reflexivity| |apply String.eqb_refl].
    intros y Hy. apply String.eqb_neq. apply Hfresh. exact Hy.
  - intros x Hx. rewrite Hst by reflexivity.
    rewrite (find_app_hit _ _ _ _ Hx). reflexivity.
Qed.

Lemma createCheckpoint_then_retrieve_by_id_witness :
  (forall s : Store, fits Hosts.unlimited s = true)
  /\ falsy (IdStr "s") = false
  /\ truthy greeting = true
  /\ exists w' cp,
       createCheckpoint Hosts.unlimited "" greeting (IdStr "s")
         (two_created Hosts.unlimited) = (w', Returned cp)
       /\ id cp = "1700000000002"
       /\ messageId cp = Some (JStr "msg-1")
       /\ label cp = "Checkpoint @ 2023-11-14T22:13:20.000Z"
       /\ exists found,
            retrieveCheckpoint (IdStr "1700000000002") (IdStr "s") w'
            = (w', Returned (Some found))
            /\ id found = "1700000000002".
Proof.
  split; [reflexivity|]. split; [reflexivity|]. split; [reflexivity|].
  destruct (createCheckpoint_then_retrieve_by_id Hosts.unlimited "" greeting
              (IdStr "s") (two_created Hosts.unlimited) (fun _ => eq_refl)
              eq_refl eq_refl)
    as (w' & cp & E & Hid & _ & _ & _ & Hmid & _ & Hlabel & (found & Hf & Hfid) & _).
  exists w', cp. split; [exact E|].
  assert (Hid' : id cp = "1700000000002") by (rewrite Hid; reflexivity).
  split; [exact Hid'|]. split; [rewrite Hmid; reflexivity|].
  split; [rewrite (Hlabel eq_refl); reflexivity|].
  exists found. rewrite Hid' in Hf, Hfid. split; assumption.
Defined.

(** X21. For a session id that is given, [listCheckpoint] returns the
    stored checkpoints of the session, each as often as it is stored,
    ordered by timestamp, latest first; [retrieveCheckpoint] with a number
    returns the entry of that list at the index, and null for a negative
    index or one past the end.  Neither writes. *)
Theorem retrieveCheckpoint_index_into_listCheckpoint (sid : Id) (w : World Store) :
  falsy sid = false ->
  exists listed,
    listCheckpoint sid w = (w, Returned listed)
    /\ Permutation listed (stored_checkpoints (storage w) sid)
    /\ StronglySorted not_older listed
    /\ (forall idx, 0 <= idx ->
          retrieveCheckpoint (IdNum idx) sid w
          = (w, Returned (listed !! Z.to_nat idx)))
    /\ (forall idx, idx < 0 \/ Z.of_nat (length listed) <= idx ->
          retrieveCheckpoint (IdNum idx) sid w = (w, Returned None)).
Proof.
  intros Hs. rewrite (listCheckpoint_runs sid w Hs).
  eexists. split; [reflexivity|]. split; [apply sort_perm|].
  split; [apply (sort_desc_sorted timestamp)|].
  split.
  - intros idx Hidx. rewrite (retrieveCheckpoint_runs _ _ _ Hs).
    unfold at_index. destruct (Z.ltb_spec idx 0); [lia|reflexivity].
  - intros idx Hidx. rewrite (retrieveCheckpoint_runs _ _ _ Hs).
    unfold at_index. destruct (Z.ltb_spec idx 0); [reflexivity|].
    destruct Hidx as [Hidx|Hidx]; [lia|].
    rewrite lookup_ge_None_2 by lia. reflexivity.
Qed.

Lemma retrieveCheckpoint_index_into_listCheckpoint_witness :
  falsy (IdStr "s") = false
  /\ exists first second,
       listCheckpoint (IdStr "s") (two_created Hosts.unlimited)
       = (two_created Hosts.unlimited, Returned [second; first])
       /\ label first = "first" /\ label second = "second"
       /\ retrieveCheckpoint (IdNum 1) (IdStr "s") (two_created Hosts.unlimited)
          = (two_created Hosts.unlimited, Returned (Some first))
       /\ retrieveCheckpoint (IdNum 2) (IdStr "s") (two_created Hosts.unlimited)
          = (two_created Hosts.unlimited, Returned None).
Proof.
  split; [reflexivity|].
  destruct (retrieveCheckpoint_index_into_listCheckpoint (IdStr "s")
              (two_created Hosts.unlimited) eq_refl)
    as (listed & E & _ & _ & Hidx & Hout).
  assert (Hl : listed
               = [created Hosts.unlimited "second" greeting 1700000000001;
                  created Hosts.unlimited "first" greeting 1700000000000]).
  { assert (E' : listCheckpoint (IdStr "s") (two_created Hosts.unlimited)
                 = (two_created Hosts.unlimited,
                    Returned [created Hosts.unlimited "second" greeting 1700000000001;
                              created Hosts.unlimited "first" greeting 1700000000000]))
      by (vm_compute; reflexivity).
    rewrite E' in E. injection E as <-. reflexivity. }
  subst listed.
  eexists _, _. split; [exact E|]. split; [reflexivity|]. split; [reflexivity|].
  split.
  - apply (Hidx 1). lia.
  - apply (Hout 2). right. simpl. lia.
Defined.

(** X22. Checkpoints are kept per session, and sessions are told apart by
    the text of their id alone: creating a checkpoint or clearing the
    checkpoints of one session leaves the checkpoints of every session
    with another id text as they were, whatever the host does with the
    write; and a number and the string of its digits name the same
    session. *)
Theorem checkpoints_are_kept_per_session (env : Env Store) (sid other : Id)
    (w : World Store) :
  String_of_Id other <> String_of_Id sid ->
  (forall label_ msg w',
      fst (createCheckpoint env label_ msg sid w) = w' ->
      stored_checkpoints (storage w') other = stored_checkpoints (storage w) other)
  /\ (forall w',
         fst (clearAllCheckpoints env sid w) = w' ->
         stored_checkpoints (storage w') other = stored_checkpoints (storage w) other)
  /\ (forall n, sid = IdNum n -> n <> 0 ->
        listCheckpoint (IdStr (String_of_Z n)) w = listCheckpoint sid w).
Proof.
  intros Hne. split; [|split].
  - intros label_ msg w' <-. unfold createCheckpoint.
    destruct (falsy sid) eqn:Hs; [reflexivity|].
    destruct (truthy msg) eqn:Hm; [|reflexivity]. simpl.
    unfold bind at 1. rewrite CheckpointFacts._getCheckpoints_runs.
    unfold bind at 1, Date_now at 1. unfold bind at 1.
    rewrite CheckpointFacts._saveCheckpoints_runs by exact Hs.
    unfold ret, Hosts.written. simpl.
    destruct (fits env _); simpl; [|reflexivity].
    apply stored_checkpoints_insert_ne. exact Hne.
  - intros w' <-. unfold clearAllCheckpoints.
    destruct (falsy sid) eqn:Hs; [reflexivity|].
    rewrite CheckpointFacts._saveCheckpoints_runs by exact Hs.
    unfold Hosts.written. simpl.
    destruct (fits env _); simpl; [|reflexivity].
    apply stored_checkpoints_insert_ne. exact Hne.
  - intros n -> Hn.
    rewrite (listCheckpoint_runs (IdStr (String_of_Z n)) w
               (HistoryMoreFacts.String_of_Z_truthy n)).
    rewrite (listCheckpoint_runs (IdNum n) w) by (apply Z.eqb_neq; exact Hn).
    unfold stored_checkpoints. simpl.
    destruct (String_of_Z_shape n) as (c & s & -> & _).
    destruct (Z.eqb_spec n 0); [contradiction|]. reflexivity.
Qed.

Lemma checkpoints_are_kept_per_session_witness :
  String_of_Id (IdStr "s") <> String_of_Id (IdNum 7)
  /\ (forall w',
        fst (createCheckpoint Hosts.unlimited "other" greeting (IdNum 7)
               (two_created Hosts.unlimited)) = w' ->
        stored_checkpoints (storage w') (IdStr "s")
        = stored_checkpoints (storage (two_created Hosts.unlimited)) (IdStr "s"))
  /\ listCheckpoint (IdStr (String_of_Z 7)) (two_created Hosts.unlimited)
     = listCheckpoint (IdNum 7) (two_created Hosts.unlimited).
Proof.
  split; [discriminate|].
  destruct (checkpoints_are_kept_per_session Hosts.unlimited (IdNum 7) (IdStr "s")
              (two_created Hosts.unlimited)) as (Hc & _ & Ha); [discriminate|].
  split.
  - intros w' Hw'. apply (Hc "other" greeting w' Hw').
  - apply (Ha 7 eq_refl). discriminate.
Defined.

(** X23. On a host that accepts the write, [clearAllCheckpoints] leaves no
    checkpoint of the session: listing gives the empty list, and no index
    and no id retrieves one. *)
Theorem clearAllCheckpoints_leaves_none (env : Env Store) (sid : Id)
    (w : World Store) :
  (forall s, fits env s = true) -> falsy sid = false ->
  exists w',
    clearAllCheckpoints env sid w = (w', Returned tt)
    /\ ticks w' = ticks w
    /\ listCheckpoint sid w' = (w', Returned [])
    /\ (forall idOrIdx, retrieveCheckpoint idOrIdx sid w' = (w', Returned None)).
Proof.
  intros accepts Hs. unfold clearAllCheckpoints. rewrite Hs.
  rewrite CheckpointFacts._saveCheckpoints_runs by exact Hs.
  rewrite HistoryMoreFacts.written_accepted by exact accepts.
  eexists. split; [reflexivity|]. split; [reflexivity|].
  split.
  - rewrite (listCheckpoint_runs _ _ Hs). simpl.
    rewrite (CheckpointFacts.stored_checkpoints_insert _ _ _ Hs). reflexivity.
  - intros idOrIdx. rewrite (retrieveCheckpoint_runs _ _ _ Hs). simpl.
    rewrite (CheckpointFacts.stored_checkpoints_insert _ _ _ Hs).
    destruct idOrIdx as [idx|i]; [|reflexivity].
    unfold at_index. simpl. destruct (idx <? 0); reflexivity.
Qed.

Lemma clearAllCheckpoints_leaves_none_witness :
  (forall s : Store, fits Hosts.unlimited s = true)
  /\ falsy (IdStr "s") = false
  /\ exists w',
       clearAllCheckpoints Hosts.unlimited (IdStr "s") (two_created Hosts.unlimited)
       = (w', Returned tt)
       /\ listCheckpoint (IdStr "s") w' = (w', Returned [])
       /\ retrieveCheckpoint (IdNum 0) (IdStr "s") w' = (w', Returned None).
Proof.
  split; [reflexivity|]. split; [reflexivity|].
  destruct (clearAllCheckpoints_leaves_none Hosts.unlimited (IdStr "s")
              (two_created Hosts.unlimited) (fun _ => eq_refl) eq_refl)
    as (w' & E & _ & Hl & Hr).
  exists w'. split; [exact E|]. split; [exact Hl|apply Hr].
Defined.

End CheckpointMoreFacts.

(** ** BrowserAgentStateStorage *)

Module AgentStateMoreFacts.
Import JS Runtime AgentStateStorage AgentStateSpec AgentStateMoreSpec JSFacts.

Lemma storeCheckpoint_runs (env : Env Store) cp (w : World Store) :
  storeCheckpoint env cp w
  = (Hosts.written env
       (fun _ : Store =>
          Some (Doc (stored_checkpoints (storage w)
                     ++ [stored_as cp (clock env (ticks w))])))
       (Hosts.tick w),
     Returned (sc_id (stored_as cp (clock env (ticks w))))).
Proof.
  unfold storeCheckpoint.
  unfold bind at 1. rewrite AgentStateFacts._getAllCheckpoints_runs.
  unfold bind at 1, Date_now at 1. unfold bind at 1.
  rewrite AgentStateFacts._saveAllCheckpoints_runs. reflexivity.
Qed.

Lemma agent_retrieveCheckpoint_runs checkpointId (w : World Store) :
  retrieveCheckpoint checkpointId w
  = (w, Returned (List.find (has_id checkpointId) (stored_checkpoints (storage w)))).
Proof.
  unfold retrieveCheckpoint, bind.
  rewrite AgentStateFacts._getAllCheckpoints_runs. reflexivity.
Qed.

Lemma deleteCheckpoint_runs (env : Env Store) checkpointId (w : World Store) :
  deleteCheckpoint env checkpointId w
  = if (length (List.filter (fun cp => negb (has_id checkpointId cp))
                  (stored_checkpoints (storage w)))
        <? length (stored_checkpoints (storage w)))%nat
    then (Hosts.written env
            (fun _ : Store =>
               Some (Doc (List.filter (fun cp => negb (has_id checkpointId cp))
                            (stored_checkpoints (storage w))))) w,
          Returned true)
    else (w, Returned false).
Proof.
  unfold deleteCheckpoint.
  unfold bind at 1. rewrite AgentStateFacts._getAllCheckpoints_runs.
  fold (has_id checkpointId).
  change (fun cp => negb (String.eqb (sc_id cp) checkpointId))
    with (fun cp => negb (has_id checkpointId cp)).
  destruct (_ <? _)%nat; [|reflexivity].
  unfold bind. rewrite AgentStateFacts._saveAllCheckpoints_runs. reflexivity.
Qed.

Lemma find_filter_none {A} (p : A -> bool) l :
  List.find p (List.filter (fun x => negb (p x)) l) = None.
Proof.
  induction l as [|x l IH]; simpl; [reflexivity|].
  destruct (p x) eqn:Hx; simpl; [exact IH|]. rewrite Hx. exact IH.
Qed.

Lemma find_filter_kept {A} (p q : A -> bool) l :
  (forall x, p x = true -> q x = true) ->
  List.find p (List.filter q l) = List.find p l.
Proof.
  intros H. induction l as [|x l IH]; simpl; [reflexivity|].
  destruct (q x) eqn:Hq; simpl.
  - destruct (p x); [reflexivity|exact IH].
  - destruct (p x) eqn:Hp; [|exact IH].
    rewrite (H x Hp) in Hq. discriminate.
Qed.

Lemma find_filter_head {A} (p : A -> bool) l x rest :
  List.filter p l = x :: rest -> List.find p l = Some x.
Proof.
  induction l as [|y l IH]; simpl; [discriminate|].
  destruct (p y); [|exact IH].
  intros H. injection H as H _. rewrite H. reflexivity.
Qed.

(** X24. On a host that accepts the write, [storeCheckpoint] appends one
    record to the stored list and returns its id, the agent id and the
    text of the clock reading joined by an underscore; the record carries
    the agent id, name and state given, and as createdAt the one given,
    or the clock reading when none (or zero) is given.  Looking the id up
    right after finds a record with that id: the one just stored when the
    id was not in use, and the earlier record otherwise. *)
Theorem storeCheckpoint_then_retrieveCheckpoint (env : Env Store)
    (checkpoint : NamedAgentCheckpoint) (w : World Store) :
  (forall s, fits env s = true) ->
  exists w' stored,
    storeCheckpoint env checkpoint w = (w', Returned (sc_id stored))
    /\ stored_checkpoints (storage w') = stored_checkpoints (storage w) ++ [stored]
    /\ sc_id stored
       = agentId checkpoint +:+ "_" +:+ String_of_Z (clock env (ticks w))
    /\ sc_agentId stored = agentId checkpoint
    /\ sc_name stored = name checkpoint
    /\ sc_state stored = state checkpoint
    /\ (forall t, createdAt checkpoint = Some t -> t <> 0 -> sc_createdAt stored = t)
    /\ (createdAt checkpoint = None \/ createdAt checkpoint = Some 0 ->
        sc_createdAt stored = clock env (ticks w))
    /\ (exists found,
          retrieveCheckpoint (sc_id stored) w' = (w', Returned (Some found))
          /\ sc_id found = sc_id stored)
    /\ (with_id (sc_id stored) (storage w) = [] ->
        retrieveCheckpoint (sc_id stored) w' = (w', Returned (Some stored)))
    /\ (forall earlier rest,
          with_id (sc_id stored) (storage w) = earlier :: rest ->
          retrieveCheckpoint (sc_id stored) w' = (w', Returned (Some earlier))).
Proof.
  intros accepts. rewrite storeCheckpoint_runs.
  rewrite HistoryMoreFacts.written_accepted by exact accepts.
  set (stored := stored_as checkpoint (clock env (ticks w))).
  set (old := stored_checkpoints (storage w)).
  eexists _, stored. split; [reflexivity|]. split; [reflexivity|].
  split; [reflexivity|]. split; [reflexivity|]. split; [reflexivity|].
  split; [reflexivity|].
  split.
  { intros t Ht Hnz. simpl. rewrite Ht.
    destruct (Z.eqb_spec t 0); [contradiction|reflexivity]. }
  split.
  { intros [Ht|Ht]; simpl; rewrite Ht; reflexivity. }
  rewrite agent_retrieveCheckpoint_runs. cbn [storage stored_checkpoints].
  split; [|split].
  - destruct (CheckpointMoreFacts.find_hit (has_id (sc_id stored)) old stored)
      as (y & Hy & Hp).
    { apply String.eqb_refl. }
    exists y. rewrite Hy. split; [reflexivity|].
    apply String.eqb_eq. exact Hp.
  - intros Hnone. rewrite MessageStorageMoreFacts.find_last;
      [reflexivity| |apply String.eqb_refl].
    intros y Hy. destruct (has_id (sc_id stored) y) eqn:Hh; [|reflexivity].
    assert (Hin : In y (with_id (sc_id stored) (storage w))).
    { apply List.filter_In. split; assumption. }
    rewrite Hnone in Hin. contradiction.
  - intros earlier rest Hw.
    rewrite (CheckpointMoreFacts.find_app_hit _ _ _ earlier); [reflexivity|].
    apply (find_filter_head _ _ _ rest). exact Hw.
Qed.

Lemma storeCheckpoint_then_retrieveCheckpoint_witness :
  (forall s : Store, fits Hosts.same_millisecond s = true)
  /\ exists w' stored earlier,
       storeCheckpoint Hosts.same_millisecond revision
         (fst (storeCheckpoint Hosts.same_millisecond plan (Hosts.start None)))
       = (w', Returned "agent_7_1700000000000")
       /\ sc_name stored = "revision"
       /\ sc_createdAt stored = 1600000000000
       /\ sc_name earlier = "plan"
       /\ retrieveCheckpoint "agent_7_1700000000000" w' = (w', Returned (Some earlier)).
Proof.
  split; [reflexivity|].
  destruct (storeCheckpoint_then_retrieveCheckpoint Hosts.same_millisecond revision
              (fst (storeCheckpoint Hosts.same_millisecond plan (Hosts.start None)))
              (fun _ => eq_refl))
    as (w' & stored & E & _ & Hid & _ & Hname & _ & Hcreated & _ & _ & _ & Hearlier).
  assert (Hid' : sc_id stored = "agent_7_1700000000000") by (rewrite Hid; reflexivity).
  rewrite Hid' in E, Hearlier.
  exists w', stored, (stored_as plan 1700000000000).
  split; [exact E|]. split; [rewrite Hname; reflexivity|].
  split; [apply (Hcreated 1600000000000); [reflexivity|discriminate]|].
  split; [reflexivity|].
  apply (Hearlier _ []). reflexivity.
Defined.

(** X25. [deleteCheckpoint] on an id that no stored checkpoint has returns
    false and writes nothing.  On an id that is stored, and a host that
    accepts the write, it returns true and removes every checkpoint with
    that id, keeping the others in their order: the id retrieves nothing
    afterwards, every other id retrieves what it did, and the clock is not
    read. *)
Theorem deleteCheckpoint_removes_the_id (env : Env Store) (checkpointId : string)
    (w : World Store) :
  (with_id checkpointId (storage w) = [] ->
   deleteCheckpoint env checkpointId w = (w, Returned false))
  /\ ((forall s, fits env s = true) ->
      with_id checkpointId (storage w) <> [] ->
      exists w',
        deleteCheckpoint env checkpointId w = (w', Returned true)
        /\ ticks w' = ticks w
        /\ with_id checkpointId (storage w') = []
        /\ Permutation (stored_checkpoints (storage w))
             (with_id checkpointId (storage w) ++ stored_checkpoints (storage w'))
        /\ retrieveCheckpoint checkpointId w' = (w', Returned None)
        /\ (forall other found,
              other <> checkpointId ->
              (retrieveCheckpoint other w = (w, Returned found)
               <-> retrieveCheckpoint other w' = (w', Returned found)))).
Proof.
  split.
  - intros Hnone. rewrite deleteCheckpoint_runs.
    rewrite HistoryMoreFacts.filter_all.
    + rewrite Nat.ltb_irrefl. reflexivity.
    + intros x Hx. destruct (has_id checkpointId x) eqn:Hh; [|reflexivity].
      assert (Hin : In x (with_id checkpointId (storage w)))
        by (apply List.filter_In; split; assumption).
      rewrite Hnone in Hin. contradiction.
  - intros accepts Hsome. rewrite deleteCheckpoint_runs.
    destruct (with_id checkpointId (storage w)) as [|x rest] eqn:Hw; [contradiction|].
    assert (Hx : In x (stored_checkpoints (storage w)) /\ has_id checkpointId x = true).
    { apply List.filter_In. unfold with_id in Hw. rewrite Hw. left; reflexivity. }
    destruct Hx as [Hin Hh].
    pose proof (HistoryMoreFacts.filter_shorter
                  (fun cp => negb (has_id checkpointId cp)) _ x Hin) as Hlt.
    cbv beta in Hlt. rewrite Hh in Hlt. specialize (Hlt eq_refl).
    apply Nat.ltb_lt in Hlt. rewrite Hlt.
    rewrite HistoryMoreFacts.written_accepted by exact accepts.
    eexists. split; [reflexivity|]. split; [reflexivity|].
    cbn [storage stored_checkpoints]. unfold with_id at 1.
    cbn [stored_checkpoints].
    split.
    { clear. induction (stored_checkpoints (storage w)) as [|y l IH];
        simpl; [reflexivity|].
      destruct (has_id checkpointId y) eqn:Hy; simpl; [exact IH|].
      rewrite Hy. exact IH. }
    split.
    { rewrite <- Hw. unfold with_id. clear.
      induction (stored_checkpoints (storage w)) as [|y l IH]; simpl; [constructor|].
      destruct (has_id checkpointId y); simpl.
      - constructor. exact IH.
      - apply Permutation_cons_app. exact IH. }
    split.
    { rewrite agent_retrieveCheckpoint_runs. cbn [storage stored_checkpoints].
      rewrite find_filter_none. reflexivity. }
    intros other found Hne. rewrite !agent_retrieveCheckpoint_runs.
    cbn [storage stored_checkpoints].
    rewrite find_filter_kept.
    + split; intros [= <-]; reflexivity.
    + intros y Hy. unfold has_id in *. apply String.eqb_eq in Hy.
      destruct (String.eqb_spec (sc_id y) checkpointId); [congruence|reflexivity].
Qed.

Lemma deleteCheckpoint_removes_the_id_witness :
  with_id "agent_9_1" (storage (two_stored Hosts.unlimited)) = []
  /\ deleteCheckpoint Hosts.unlimited "agent_9_1" (two_stored Hosts.unlimited)
     = (two_stored Hosts.unlimited, Returned false)
  /\ (forall s : Store, fits Hosts.unlimited s = true)
  /\ with_id "agent_7_1700000000000" (storage (two_stored Hosts.unlimited)) <> []
  /\ exists w',
       deleteCheckpoint Hosts.unlimited "agent_7_1700000000000"
         (two_stored Hosts.unlimited) = (w', Returned true)
       /\ retrieveCheckpoint "agent_7_1700000000000" w' = (w', Returned None).
Proof.
  destruct (deleteCheckpoint_removes_the_id Hosts.unlimited "agent_9_1"
              (two_stored Hosts.unlimited)) as [Hmiss _].
  destruct (deleteCheckpoint_removes_the_id Hosts.unlimited "agent_7_1700000000000"
              (two_stored Hosts.unlimited)) as [_ Hhit].
  split; [reflexivity|]. split; [exact (Hmiss eq_refl)|].
  split; [reflexivity|].
  assert (Hne : with_id "agent_7_1700000000000" (storage (two_stored Hosts.unlimited))
                <> []) by (vm_compute; discriminate).
  split; [exact Hne|].
  destruct (Hhit (fun _ => eq_refl) Hne) as (w' & E & _ & _ & _ & Hr & _).
  exists w'. split; assumption.
Defined.

(** X26. On a checkpoint list as the service stores it, [listCheckpoints]
    shows one item for each stored checkpoint, with its id, name, agent id
    and createdAt, ordered by createdAt, latest first, and the id of every
    item shown retrieves a stored checkpoint with that id.  A list that is
    missing or empty, and a text that is not JSON (the parse error is
    caught), read as no checkpoint.  In each of these cases nothing is
    written.  (What the call does on the JSON of a value that is no list of
    checkpoints is not stated.) *)
Theorem listCheckpoints_latest_first (w : World Store) :
  (blank (storage w) = true -> listCheckpoints w = (w, Returned []))
  /\ (forall why,
        storage w = Some (Malformed why) -> listCheckpoints w = (w, Returned []))
  /\ (forall stored,
        storage w = Some (Doc stored) ->
        exists items,
          listCheckpoints w = (w, Returned items)
          /\ Permutation items (map list_item stored)
          /\ StronglySorted (fun a b => li_createdAt b <= li_createdAt a) items
          /\ (forall item, In item items ->
                exists cp,
                  retrieveCheckpoint (li_id item) w = (w, Returned (Some cp))
                  /\ In cp stored /\ sc_id cp = li_id item)).
Proof.
  assert (Hruns : listCheckpoints w
                  = (w, Returned
                          (sort (fun a b => li_createdAt b - li_createdAt a <=? 0)
                             (map list_item (stored_checkpoints (storage w)))))).
  { unfold listCheckpoints, bind. rewrite AgentStateFacts._getAllCheckpoints_runs.
    reflexivity. }
  rewrite Hruns. split; [|split].
  - intros Hb. destruct (storage w) as [[|why|l]|]; try discriminate; reflexivity.
  - intros why Hw. rewrite Hw. reflexivity.
  - intros stored Hw.
    assert (Hst : stored_checkpoints (storage w) = stored) by (rewrite Hw; reflexivity).
    rewrite Hst.
    eexists. split; [reflexivity|]. split; [apply sort_perm|].
    split; [apply (sort_desc_sorted li_createdAt)|].
    intros item Hitem. apply sort_In in Hitem. apply in_map_iff in Hitem.
    destruct Hitem as (cp & <- & Hcp).
    rewrite agent_retrieveCheckpoint_runs, Hst.
    destruct (List.find (has_id (li_id (list_item cp))) stored) as [found|] eqn:Hf.
    + exists found. split; [reflexivity|].
      apply List.find_some in Hf. destruct Hf as [Hin Hf].
      split; [exact Hin|]. apply String.eqb_eq. exact Hf.
    + pose proof (List.find_none _ _ Hf cp Hcp) as Hn.
      unfold has_id in Hn. simpl in Hn. rewrite String.eqb_refl in Hn. discriminate.
Qed.

Lemma listCheckpoints_latest_first_witness :
  storage (two_stored Hosts.unlimited)
  = Some (Doc [stored_as plan 1700000000000; stored_as revision 1700000000001])
  /\ exists items,
       listCheckpoints (two_stored Hosts.unlimited)
       = (two_stored Hosts.unlimited, Returned items)
       /\ Permutation items
            [list_item (stored_as plan 1700000000000);
             list_item (stored_as revision 1700000000001)]
       /\ StronglySorted (fun a b => li_createdAt b <= li_createdAt a) items.
Proof.
  split; [reflexivity|].
  destruct (proj2 (proj2 (listCheckpoints_latest_first (two_stored Hosts.unlimited)))
              _ eq_refl)
    as (items & E & Hp & Hs & _).
  exists items. split; [exact E|]. split; [exact Hp|exact Hs].
Defined.

Lemma no_underscore_digits d : no_underscore (NilEmpty.string_of_uint d) = true.
Proof. induction d; simpl; auto. Qed.

Lemma no_underscore_String_of_Z n : no_underscore (String_of_Z n) = true.
Proof.
  unfold String_of_Z. destruct n as [|p|p]; simpl; [reflexivity|..].
  - unfold NilZero.string_of_uint.
    destruct (Pos.to_uint p) eqn:E; try reflexivity;
      rewrite <- E; apply no_underscore_digits.
  - unfold NilZero.string_of_uint.
    destruct (Pos.to_uint p) eqn:E; try reflexivity;
      rewrite <- E; apply no_underscore_digits.
Qed.

Lemma underscore_inside (a d : string) : no_underscore (a +:+ "_" +:+ d) = false.
Proof.
  induction a as [|c a IH]; [reflexivity|].
  change (no_underscore (String c (a +:+ "_" +:+ d)) = false).
  simpl. rewrite IH. apply andb_false_r.
Qed.

Lemma last_underscore_splits (a a' d d' : string) :
  no_underscore d = true -> no_underscore d' = true ->
  a +:+ "_" +:+ d = a' +:+ "_" +:+ d' -> a = a' /\ d = d'.
Proof.
  intros Hd Hd'. revert a'. induction a as [|c a IH]; intros [|c' a'] H.
  - injection H as H. auto.
  - change (String "_" d = String c' (a' +:+ "_" +:+ d')) in H.
    injection H as _ H. rewrite H, underscore_inside in Hd. discriminate.
  - change (String c (a +:+ "_" +:+ d) = String "_" d') in H.
    injection H as _ H. rewrite <- H, underscore_inside in Hd'. discriminate.
  - change (String c (a +:+ "_" +:+ d) = String c' (a' +:+ "_" +:+ d')) in H.
    injection H as -> H. destruct (IH _ H) as [-> ->]. auto.
Qed.

Lemma String_of_Z_injective a b : String_of_Z a = String_of_Z b -> a = b.
Proof.
  intros H. pose proof (StringToNumber_String_of_Z a) as Ha.
  rewrite H, StringToNumber_String_of_Z in Ha. congruence.
Qed.

(** X27. The ids that two successive calls of [storeCheckpoint] return are
    the same exactly when the two checkpoints are of the same agent and
    the clock gave the same reading to both calls, whatever the agent ids
    are made of and whether or not the host accepts the writes; so ids
    tell checkpoints apart as long as the clock moves between two calls of
    an agent. *)
Theorem checkpoint_ids_name_agent_and_reading (env : Env Store)
    (a b : NamedAgentCheckpoint) (w : World Store) :
  exists w1 w2 ida idb,
    storeCheckpoint env a w = (w1, Returned ida)
    /\ storeCheckpoint env b w1 = (w2, Returned idb)
    /\ (ida = idb
        <-> agentId a = agentId b
            /\ clock env (ticks w) = clock env (Datatypes.S (ticks w))).
Proof.
  rewrite storeCheckpoint_runs.
  eexists _, _, _, _. split; [reflexivity|].
  rewrite storeCheckpoint_runs. split; [reflexivity|].
  assert (Ht : ticks (Hosts.written env
                        (fun _ : Store =>
                           Some (Doc (stored_checkpoints (storage w)
                                      ++ [stored_as a (clock env (ticks w))])))
                        (Hosts.tick w)) = Datatypes.S (ticks w)).
  { unfold Hosts.written. destruct (fits env _); reflexivity. }
  rewrite Ht. cbn [sc_id stored_as]. split.
  - intros H. apply last_underscore_splits in H;
      try apply no_underscore_String_of_Z.
    destruct H as [Ha Hn]. split; [exact Ha|]. apply String_of_Z_injective, Hn.
  - intros [-> ->]. reflexivity.
Qed.

Lemma checkpoint_ids_name_agent_and_reading_witness :
  (exists w1 w2 id_,
      storeCheckpoint Hosts.same_millisecond plan (Hosts.start None)
      = (w1, Returned id_)
      /\ storeCheckpoint Hosts.same_millisecond revision w1 = (w2, Returned id_))
  /\ (exists w1 w2 ida idb,
        storeCheckpoint Hosts.unlimited plan (Hosts.start None) = (w1, Returned ida)
        /\ storeCheckpoint Hosts.unlimited revision w1 = (w2, Returned idb)
        /\ ida <> idb).
Proof.
  split.
  - destruct (checkpoint_ids_name_agent_and_reading Hosts.same_millisecond
                plan revision (Hosts.start None))
      as (w1 & w2 & ida & idb & Ea & Eb & Hiff).
    assert (Hsame : ida = idb) by (apply Hiff; split; reflexivity).
    subst idb. exists w1, w2, ida. split; assumption.
  - destruct (checkpoint_ids_name_agent_and_reading Hosts.unlimited
                plan revision (Hosts.start None))
      as (w1 & w2 & ida & idb & Ea & Eb & Hiff).
    exists w1, w2, ida, idb. split; [exact Ea|]. split; [exact Eb|].
    intros Hsame. apply Hiff in Hsame. destruct Hsame as [_ Hclock].
    discriminate Hclock.
Defined.

(** X28. On a host that accepts the write, [clearAllCheckpoints] leaves no
    checkpoint of any agent: nothing is listed, no id retrieves or deletes
    one, and a checkpoint stored next is the only one listed. *)
Theorem agent_clearAllCheckpoints_leaves_none (env : Env Store) (w : World Store) :
  (forall s, fits env s = true) ->
  exists w',
    clearAllCheckpoints env w = (w', Returned tt)
    /\ ticks w' = ticks w
    /\ listCheckpoints w' = (w', Returned [])
    /\ (forall checkpointId,
          retrieveCheckpoint checkpointId w' = (w', Returned None)
          /\ deleteCheckpoint env checkpointId w' = (w', Returned false))
    /\ (forall checkpoint,
          exists w2 id_,
            storeCheckpoint env checkpoint w' = (w2, Returned id_)
            /\ listCheckpoints w2
               = (w2, Returned [list_item (stored_as checkpoint (clock env (ticks w)))])
            /\ id_ = li_id (list_item (stored_as checkpoint (clock env (ticks w))))).
Proof.
  intros accepts. unfold clearAllCheckpoints.
  rewrite AgentStateFacts._saveAllCheckpoints_runs.
  rewrite HistoryMoreFacts.written_accepted by exact accepts.
  eexists. split; [reflexivity|]. split; [reflexivity|].
  split.
  { unfold listCheckpoints, bind. rewrite AgentStateFacts._getAllCheckpoints_runs.
    reflexivity. }
  split.
  { intros checkpointId. split.
    - rewrite agent_retrieveCheckpoint_runs. reflexivity.
    - rewrite deleteCheckpoint_runs. reflexivity. }
  intros checkpoint. rewrite storeCheckpoint_runs.
  rewrite HistoryMoreFacts.written_accepted by exact accepts.
  eexists _, _. split; [reflexivity|]. split; [|reflexivity].
  unfold listCheckpoints, bind. rewrite AgentStateFacts._getAllCheckpoints_runs.
  reflexivity.
Qed.

Lemma agent_clearAllCheckpoints_leaves_none_witness :
  (forall s : Store, fits Hosts.unlimited s = true)
  /\ exists w',
       clearAllCheckpoints Hosts.unlimited (two_stored Hosts.unlimited)
       = (w', Returned tt)
       /\ listCheckpoints w' = (w', Returned [])
       /\ retrieveCheckpoint "agent_7_1700000000000" w' = (w', Returned None).
Proof.
  split; [reflexivity|].
  destruct (agent_clearAllCheckpoints_leaves_none Hosts.unlimited
              (two_stored Hosts.unlimited) (fun _ => eq_refl))
    as (w' & E & _ & Hl & Hr & _).
  exists w'. split; [exact E|]. split; [exact Hl|]. apply Hr.
Defined.

End AgentStateMoreFacts.
